(* ===== verification/_CoqProject ===== *)
-Q . S2P
Prelude.v
JsValue.v
Sqlite.v
Turno.v
Store.v
Agenda.v
Db.v
Engine.v
Vivacidad.v
Snapshot.v
Broadcast.v
Server.v
Refinement.v
Citas.v
Usuarios.v
Arranque.v
Sesion.v
