(* ===== verification/Prelude.v ===== *)
(** * A verification development of the walk-in patient queue server

    The program is [src/backend/server.js], one Express application over
    one SQLite file.  The part the spec calls the core is the ticket queue
    ("turnos") and its real-time notification:

    - QueueEngine: [POST /api/turnos] (create, lines 376-556),
      [POST /api/turnos/llamar] (call the next waiting ticket, 585-623),
      [POST /api/turnos/finalizar/:id] (626-641) and
      [POST /api/turnos/ausente/:id] (644-659);
    - QuerySnapshot: [GET /api/turnos] (the waiting list joined with the
      clinics, 559-582) and [GET /api/pacientes] (the display, 678-709);
    - Broadcaster and PushScheduler: the WebSocket server, [sendQueueUpdates]
      and the 5 s [setInterval] that the create callback installs (422-465),
      and the four routes it registers again (467-552);
    - TicketStore: the tables [Turnos] and [Clinicas] (22-52, seeded at
      76-85), read and written by single SQL statements;
    - routing and [authenticateToken] (106-119), the gate in front of them.

    Around the core the same file serves the other routes, each one SQL
    statement on its own table: login (127-155, table [Usuarios]),
    register (157-188), the clinic list (190-198), the appointments
    (201-373, table [Appointments], whose DELETE handler registers the
    reassign route) and the medical data (662-676, table [MedicalData]);
    the start-up block (23-103) creates the tables and seeds them.

    The parts interact only through the database and the routing table.
    A handler is a chain of SQL statements linked by callbacks; each
    statement is one atomic step on the tables, and the statements of
    concurrent requests interleave.  The development follows that shape.

    ** Files

    - [Prelude] (this file): the scope [queue_scope], the hint databases
      [queue] and [queue_rw], the tactic [case_tests], a stable insertion
      sort [sort_by] (the model of [ORDER BY k ASC]) and [limit] ([LIMIT]),
      generic lemmas on sorted lists and [rtc_invariante] (invariants of a
      step relation).
    - [JsValue]: JSON values of a request body ([jval]), their truthiness
      ([truthy], the [!x] of the guards), [String(n)] ([js_string_of_nat],
      a decimal printer with fuel [n + 1]) and [padStart] ([pad_start]);
      a callback's result, a value or a thrown exception ([resultado]),
      and the [uncaughtException] handler of lines 711-713
      ([al_capturar], [respuesta_de]).
    - [Sqlite]: SQLite values ([sqlval], with REALs as decimals),
      node-sqlite3's binding of a JavaScript value ([ligar]: a number
      that is not a 32-bit integer is bound as a REAL), SQLite's reading
      of a numeric text ([leer_numero], [texto_numerico]: blanks, sign,
      decimal point, exponent), the text of a REAL ([texto_real], the
      format ["%!.15g"]), the INTEGER and TEXT column affinities
      ([afinidad_entera], [afinidad_texto], [col_entera], [col_texto]),
      what a callback reads back ([js_de_sql]) and the id a route
      parameter denotes in [WHERE id = ?] ([clave_de_texto]).
    - [Turno]: the row of [Turnos] ([turno], [estado]) and the ticket
      number of line 395 ([numero_de_conteo]).
    - [Store]: the TicketStore interface as the type class [TicketStore]
      (scan, insert, update) with its laws [TicketStoreLaws], the row an
      INSERT creates with each value under its column's affinity ([fila],
      [guardar_texto], [guardar_entero]), and the SQL queries as
      combinators ([contar], [primeros_en], [primero_en],
      [id_param_matches] for [WHERE id = ?] with a text parameter).
    - [Db]: the SQLite tables as the record [db], the instance [db_store]
      and its laws, the start-up seeding [inicializar].
    - [Engine]: the QueueEngine handlers, one function per callback chain
      ([ejecutar_crear], [ejecutar_llamar], [ejecutar_finalizar],
      [ejecutar_ausente]), the synchronous guards ([iniciar_*]), a request
      running alone ([correr], with fuel) and requests in sequence
      ([correr_secuencia]); all proved against the interface.
    - [Vivacidad]: the answers of successive requests
      ([contestar_secuencia]), an inductive "eventually" over them
      ([eventualmente]) and the liveness of the call route.
    - [Snapshot]: the waiting-list query ([lista_espera], the inner join
      [unir]), [GET /api/turnos] ([obtener_turnos]) and the two statements
      of [GET /api/pacientes] ([ejecutar_pacientes]).
    - [Broadcast]: the WebSocket servers, their clients and the messages
      ([push]), [instalar] (lines 422-465), [enviar_cola]
      ([sendQueueUpdates]) and [disparar] (an interval tick).
    - [Agenda]: the table [Appointments] as a [gmap] from id to row with
      its AUTOINCREMENT counter ([tabla_citas]) and the five handlers
      ([crear_cita], [ver_cita], [cambiar_cita], [borrar_cita],
      [reasignar_cita]), each one statement and its callback.
    - [Server]: the routing table ([rutas_iniciales], [rutas_repetidas],
      [ruta_reasignar]) and Express's matching ([coincide]: literals
      ignoring ASCII case, [:id] a non-empty segment, an optional
      trailing slash) and first-match dispatch ([despachar]),
      [authenticateToken] ([llegar]), the whole process state [mundo]
      (the queue tables, the appointments, the pushes, the routing table,
      the requests in progress, the answers), the executable step
      [aplicar] on events (a request arrives, one statement of a request
      runs, the clock advances, an interval fires, a display connects or
      disconnects), the relation [paso] ([~~>]) and reachability
      [alcanzable] ([~~>*]).  The world runs the queue routes, the
      display, the appointment routes (the DELETE registering the
      reassign route twice) and the handlers the create callback
      registers again (the create copy inserts and then calls
      [sendQueueUpdates]; the other three throw a [ReferenceError]).
    - [Refinement]: the spec's QueueEngine contract (section 4.1) as
      relations on an abstract ticket list and the refinement of the
      handlers to it.
    - [Citas]: appointment requests one after another: [atender] takes
      one request through the routing table, [authenticateToken] and its
      handler of [Agenda], the DELETE handler appending two reassign
      routes; [atender_todas] runs a sequence of them.  Each handler
      issues one statement, so a request served alone is one step.
    - [Usuarios]: the table [Usuarios], its seed (87-94,
      [sembrar_usuarios], one multi-row INSERT under the UNIQUE email) and
      [login]; [jwt.sign] is a [token] record carrying its payload and
      secret.
    - [Arranque]: the whole file ([archivo]: the queue tables, users,
      appointments and [MedicalData]), the start-up block on the file a
      previous run left ([arranque], [arranques], [arranques_con] with
      failing counts), [raiz] ([GET /]), [registrar], [listar_clinicas]
      and [datos_medicos].
    - [Sesion]: the [jsonwebtoken] contract as the type class [Jwt] with
      its laws [JwtLeyes] (a model instance [jwt_modelo] makes it
      executable), the token a login returns ([token_texto]) and
      [authenticateToken] from the [Authorization] header ([dividir] is
      JavaScript's [split], [token_de_cabecera], [autenticar]).

    ** Theorems

    - Functional behaviour of each handler, on every branch (Engine):
      [llamar_fifo], [llamar_vacia], [crear_funcional], [marcar_sin_turno],
      [marcar_idempotente]; termination [correr_responde].
    - Numbering (Turno, Engine): [numero_de_conteo_roundtrip],
      [numero_de_conteo_length]; requests that do not overlap number
      T-001 .. T-00N without gaps or repeats ([secuencia_numeros]).
    - Query equivalence and snapshots (Store, Snapshot):
      [primeros_en_orden_spec] (ORDER BY over the id-ordered scan equals
      the order by (creation time, id)), [lista_espera_ordenada],
      [lista_espera_miembros], [pacientes_orden_spec], [turno_sin_clinica].
    - Pushes (Broadcast, Server): [ronda_un_mensaje], [push_por_turno]
      (one server and one interval per ticket created, only the first
      listens), [peticiones_no_envian] and [despachar_alcanzable] (the
      routes that would push are never reached).
    - Invariants of every reachable state (Server): [paso_filas] (rows are
      never removed, reordered or sent back to waiting),
      [numeros_no_adelantan].
    - Concurrency, as proved existence of reachable runs (Server):
      [numeros_duplicados], [llamadas_duplicadas],
      [estados_terminales_no_finales], [pantalla_inconsistente].
    - Refinement (Refinement): [peticion_refina] and [secuencia_refina],
      and the divergence [clinica_cero_rechazada].
    - Liveness (Vivacidad): [llamada_eventual], a waiting ticket is called
      within as many calls as there are waiting tickets.
    - Appointments (Citas): the round trip create/read [cita_roundtrip],
      [cambiar_cita_ver], [borrar_cita_ver], the error behaviour on a
      missing id [cita_inexistente_exito], and [reasignar_tras_borrar] (the routing table grows by two reassign
      routes per authenticated DELETE; before the first one a
      reassignment is a 404).
    - SQLite values (Sqlite): [clave_de_texto_decimal], the forms of a
      route parameter that address the same id (['7'], [' +7.00 ']).
    - Login and start-up (Usuarios, Arranque): [login_correcto] (200 with
      a token exactly for an active row with the email and password, no
      answer when [JWT_SECRET] is unset or empty), [reinicios_semillas] (over start-ups
      whose counts may fail, the seed happens at the first that
      succeeds), [reinicios_medicos] (one more [MedicalData] row per
      restart) and [registro_nunca_exito].
    - Sessions (Sesion): [sesion_autoriza] (a login's token passes
      [authenticateToken] exactly with the same secret within 24 hours,
      whatever the scheme word) and [cabecera_sin_token] (the headers
      answered 401), proved against the laws of [Jwt].

    ** Bounds, fuel and what is not modelled

    Counts and ids are [nat]: SQLite's 64-bit counters and JavaScript's
    exact integers (below 2^53) are far beyond a queue.  Creation times
    are whole seconds ([Z]), the resolution of [CURRENT_TIMESTAMP], which
    is why ties in [ORDER BY fecha_creacion] matter; the sort is stable
    (SQLite keeps scan order among equal keys).  [correr] needs fuel 2
    (at most two statements per handler, [correr_responde]); the decimal
    printer needs fuel [n + 1] for [n] and gets it; the digit functions
    of [Sqlite] take [log2] of their argument plus one as fuel, which
    bounds the number of decimal digits.  Intervals are modelled by the
    order in which they fire, not by time.  A JSON number is an integer
    ([JNum]) or the decimal it denotes ([JReal]); SQLite integers are
    unbounded and a REAL is that exact decimal, so the 64-bit limits and
    the rounding of a REAL to a double (beyond 15 significant digits,
    overflow, underflow) are not modelled.  Requests of [Server] and [Citas]
    carry the outcome of [authenticateToken] ([autorizacion]); [Sesion]
    computes it from the header, the secret and the time.  [jsonwebtoken]
    is specified by its laws: the signature's bytes are not computed,
    and token times are whole seconds with a validity of 86400 s.  A
    request path is the list of its segments, taken as the client sent
    them (the percent-decoding of [:id] parameters is not modelled).
    The outcome of each SQL statement ([err]) and the time of
    [DATETIME('now')] are inputs of the handlers.  The requests to
    [GET /], login, register, the clinic list and the medical data are
    not events of the world of [Server]: their handlers are modelled in
    [Usuarios] and [Arranque], they write no table of that world and
    their answers depend on it only through the seeded [Clinicas], so
    leaving them out changes no state the theorems of [Server] speak
    about.  [arranques] assumes that every
    statement of the start-up succeeds; [arranque] takes the outcomes of
    the two counts.  The process error handlers (711-717) are modelled
    by [al_capturar]: the callbacks that can throw (the two seed counts,
    [login] with an unset or empty [JWT_SECRET]) return a [resultado];
    a handler that throws synchronously (the re-registered call, finish
    and absence handlers) is answered 500 by Express ([RExcepcion]).  Not modelled:
    the [cors()] and [express.json()] middleware (library code that adds
    headers and parses bodies; bodies enter the model parsed), opening
    the file and [app.listen] (I/O), and logging. *)

From stdpp Require Export base list strings sorting relations.
From Stdlib Require Export ZArith Lia.

Declare Scope queue_scope.
Delimit Scope queue_scope with queue.
Open Scope queue_scope.

Create HintDb queue discriminated.
Create Rewrite HintDb queue_rw.

(** ** A stable insertion sort: the model of [ORDER BY k ASC]

    SQLite scans a table in rowid order and sorts the rows by the key; the
    sort is modelled as stable, so rows with equal keys stay in scan
    order.  [ins_by le x l] puts [x] before the first [y] with [le x y]. *)

Section SortBy.
Context {A : Type} (le : A -> A -> bool).

Fixpoint ins_by (x : A) (l : list A) : list A :=
  match l with
  | [] => [x]
  | y :: ys => if le x y then x :: y :: ys else y :: ins_by x ys
  end.

Fixpoint sort_by (l : list A) : list A :=
  match l with
  | [] => []
  | x :: xs => ins_by x (sort_by xs)
  end.
End SortBy.

(** The first [n] elements: SQL [LIMIT n]. *)
Definition limit {A} (n : nat) (l : list A) : list A := take n l.

(** ** Tactics *)

(** Case analysis on every boolean test of [Z] and [nat] in the goal. *)
Ltac case_tests :=
  repeat match goal with
  | |- context [Z.leb ?a ?b] => destruct (Z.leb_spec a b)
  | |- context [Z.ltb ?a ?b] => destruct (Z.ltb_spec a b)
  | |- context [Z.eqb ?a ?b] => destruct (Z.eqb_spec a b)
  | |- context [Nat.eqb ?a ?b] => destruct (Nat.eqb_spec a b)
  | |- context [Nat.ltb ?a ?b] => destruct (Nat.ltb_spec a b)
  | |- context [Nat.leb ?a ?b] => destruct (Nat.leb_spec a b)
  end.

(** ** Generic lemmas on the sort *)

Section SortByFacts.
Context {A : Type} (le : A -> A -> bool).
Let R := fun a b => le a b = true.

Hypothesis le_total : forall a b, le a b = false -> le b a = true.
Hypothesis le_trans : forall a b c, le a b = true -> le b c = true -> le a c = true.

Lemma ins_by_perm x l : ins_by le x l ≡ₚ x :: l.
Proof.
  induction l as [|y ys IH]; simpl; [done|].
  destruct (le x y); [done|]. rewrite IH. apply Permutation_swap.
Qed.

Lemma sort_by_perm l : sort_by le l ≡ₚ l.
Proof.
  induction l as [|x xs IH]; simpl; [done|].
  rewrite ins_by_perm, IH. done.
Qed.

Lemma elem_of_sort_by x l : x ∈ sort_by le l <-> x ∈ l.
Proof. by rewrite sort_by_perm. Qed.

Lemma length_sort_by l : length (sort_by le l) = length l.
Proof. by rewrite sort_by_perm. Qed.

(** Stability in its strong form: if the scan order is [T]-sorted, the
    result is sorted by [le] with ties in [T] order. *)
Definition lex_rel (T : A -> A -> Prop) (a b : A) : Prop :=
  R a b /\ (R b a -> T a b).

Lemma ins_by_sorted (T : A -> A -> Prop) x l :
  Forall (T x) l ->
  StronglySorted (lex_rel T) l ->
  StronglySorted (lex_rel T) (ins_by le x l).
Proof.
  unfold lex_rel, R. intros HT Hs. induction Hs as [|y ys Hys IH Hy]; simpl.
  - repeat constructor.
  - rewrite Forall_cons in HT. destruct HT as [Hxy HT].
    pose proof Hy as Hy'. rewrite Forall_forall in Hy', HT.
    destruct (le x y) eqn:Exy.
    + constructor; [by constructor|].
      apply Forall_forall. intros z Hz%elem_of_cons.
      destruct Hz as [->|Hz]; [done|].
      destruct (Hy' z Hz) as [Hyz _]. split; [eauto|]. intros _. by apply HT.
    + constructor; [apply IH; by apply Forall_forall|].
      apply Forall_forall. intros z Hz.
      rewrite ins_by_perm, elem_of_cons in Hz. destruct Hz as [->|Hz].
      * split; [by apply le_total|]. congruence.
      * by apply Hy'.
Qed.

Lemma sort_by_sorted_lex (T : A -> A -> Prop) l :
  StronglySorted T l -> StronglySorted (lex_rel T) (sort_by le l).
Proof.
  induction 1 as [|x xs Hxs IH Hx]; simpl; [constructor|].
  apply ins_by_sorted; [|done].
  apply Forall_forall. intros z Hz. rewrite elem_of_sort_by in Hz.
  rewrite Forall_forall in Hx. by apply Hx.
Qed.
End SortByFacts.

(** ** Generic lemmas on lists *)

Lemma StronglySorted_weaken {A} (R R' : A -> A -> Prop) l :
  (forall a b, R a b -> R' a b) -> StronglySorted R l -> StronglySorted R' l.
Proof.
  intros HR. induction 1 as [|x l Hl IH Hx]; constructor; [done|].
  eapply Forall_impl; [exact Hx|]. auto.
Qed.

Lemma StronglySorted_any {A} (l : list A) : StronglySorted (fun _ _ => True) l.
Proof. induction l; constructor; [done|]. by apply Forall_true. Qed.

(** Two elements of a list with the same key are equal when the keys of
    the list are distinct. *)
Lemma NoDup_map_eq {A B} (f : A -> B) l x y :
  NoDup (map f l) -> x ∈ l -> y ∈ l -> f x = f y -> x = y.
Proof.
  induction l as [|z l IH]; intros Hnd Hx Hy Hf; [by apply elem_of_nil in Hx|].
  simpl in Hnd. apply NoDup_cons in Hnd as [Hz Hnd].
  apply elem_of_cons in Hx as [->|Hx]; apply elem_of_cons in Hy as [->|Hy]; try done.
  - exfalso. apply Hz. rewrite Hf. apply list_elem_of_In, in_map, list_elem_of_In, Hy.
  - exfalso. apply Hz. rewrite <- Hf. apply list_elem_of_In, in_map, list_elem_of_In, Hx.
  - by apply IH.
Qed.

(** Strictly increasing keys are distinct. *)
Lemma StronglySorted_lt_NoDup {A} (f : A -> nat) l :
  StronglySorted (fun a b => f a < f b) l -> NoDup (map f l).
Proof.
  induction 1 as [|x l Hl IH Hx]; simpl; constructor; [|done].
  intros Hin. apply list_elem_of_In, in_map_iff in Hin as (y & Hy & Hin).
  rewrite Forall_forall in Hx. specialize (Hx y (proj2 (list_elem_of_In _ _) Hin)). lia.
Qed.

#[export] Hint Resolve StronglySorted_any StronglySorted_lt_NoDup : queue.

Lemma head_limit1 {A} (l : list A) : head (limit 1 l) = head l.
Proof. by destruct l. Qed.

Lemma NoDup_map_inj {A B} (f : A -> B) (l : list A) :
  (forall x y, f x = f y -> x = y) -> NoDup l -> NoDup (map f l).
Proof.
  intros Hf. induction 1 as [|x l Hx Hl IH]; simpl; constructor; [|done].
  intros Hin. apply list_elem_of_In, in_map_iff in Hin as (y & Hy & Hin).
  apply Hf in Hy as ->. apply Hx, list_elem_of_In, Hin.
Qed.

(** The induction principle of invariants over a step relation. *)
Lemma rtc_invariante {A} (R : relation A) (P : A -> Prop) x y :
  P x -> (forall a b, R a b -> P a -> P b) -> rtc R x y -> P y.
Proof. intros Hx Hs H. induction H as [|a b c Hab _ IH]; eauto. Qed.
