(* ===== verification/JsValue.v ===== *)
(** * JavaScript values of a request body and the string built-ins

    Express parses a JSON body ([app.use(express.json())], line 10), so a
    field of [req.body] is [undefined] when absent, or [null], a boolean,
    a number, a string, an array or an object.  The guards of the routes
    test fields with [!x] (ToBoolean).  The ticket number (line 395) uses
    [String(n)] and [padStart(3, '0')].  This file models those built-ins
    and a decimal parser, with the round trip between them. *)

From S2P Require Import Prelude.
From Stdlib Require Import Ascii.

(** A JSON value as it reaches a handler.  A number is [JNum] when it
    is an integer and [JReal m e], the decimal [m * 10^e] with [e < 0]
    and [m] not a multiple of ten, otherwise (the decimal value stands
    for the double the JSON text denotes); arrays and objects are one
    constructor, since the code only tests their truthiness and stores
    them. *)
Inductive jval : Type :=
| JUndefined
| JNull
| JBool (b : bool)
| JNum (n : Z)
| JReal (m e : Z)
| JStr (s : string)
| JObj.

#[export] Instance jval_eq_dec : EqDecision jval.
Proof. solve_decision. Defined.

(** ToBoolean: [!x] is [negb (truthy x)]. *)
Definition truthy (v : jval) : bool :=
  match v with
  | JUndefined | JNull => false
  | JBool b => b
  | JNum n => negb (Z.eqb n 0)
  | JReal m _ => negb (Z.eqb m 0)
  | JStr s => negb (String.eqb s EmptyString)
  | JObj => true
  end.

(** ** [String(n)] for a non-negative integer: its decimal digits *)

Definition digit_char (d : nat) : ascii := ascii_of_nat (48 + d).

Definition digit_of (c : ascii) : option nat :=
  let k := nat_of_ascii c in
  if (48 <=? k) && (k <? 58) then Some (k - 48) else None.

(** The digits of [n], most significant first.  The recursion divides by
    ten; [fuel] bounds it and [S n] is always enough
    ([dec_aux_enough]). *)
Fixpoint dec_aux (fuel n : nat) : string :=
  match fuel with
  | 0 => EmptyString
  | S f =>
      if n <? 10 then String (digit_char n) EmptyString
      else dec_aux f (n / 10) +:+ String (digit_char (n mod 10)) EmptyString
  end.

Definition js_string_of_nat (n : nat) : string := dec_aux (S n) n.

(** [s.padStart(target, c)]: prefix copies of [c] up to length [target];
    a string already that long is returned as it is. *)
Fixpoint repeat_char (k : nat) (c : ascii) : string :=
  match k with 0 => EmptyString | S k' => String c (repeat_char k' c) end.

Definition pad_start (target : nat) (c : ascii) (s : string) : string :=
  if target <=? String.length s then s
  else repeat_char (target - String.length s) c +:+ s.

(** ** Decimal parsing (the inverse used by the round trip, and SQLite's
    conversion of a text parameter compared with an INTEGER column) *)

Fixpoint digits_val (s : string) (acc : nat) : option nat :=
  match s with
  | EmptyString => Some acc
  | String c s' =>
      match digit_of c with
      | Some d => digits_val s' (10 * acc + d)
      | None => None
      end
  end.

Definition parse_nat (s : string) : option nat :=
  match s with
  | EmptyString => None
  | _ => digits_val s 0
  end.

(** ** Exceptions and the process handler (lines 711-717)

    A callback either finishes or throws.  The program installs
    [process.on('uncaughtException')], which only logs: the process goes
    on, with whatever the callback did before it threw, and a request
    whose callback threw is never answered.  No code creates a promise,
    so the [unhandledRejection] handler never runs. *)

Inductive resultado (A : Type) : Type :=
| Hecho (a : A)
| Lanza (e : string).

Arguments Hecho {A} a.
Arguments Lanza {A} e.

(** The [TypeError] of reading a property of [undefined] (a row that a
    failed statement did not return). *)
Definition error_undefined (prop : string) : string :=
  "TypeError: Cannot read properties of undefined (reading '" +:+ prop +:+ "')".

(** The [uncaughtException] handler: [antes] is the state the callback
    left when it threw. *)
Definition al_capturar {A} (antes : A) (r : resultado A) : A :=
  match r with
  | Hecho a => a
  | Lanza _ => antes
  end.

(** A callback that answers a request: the answer, or none when it
    threw. *)
Definition respuesta_de {A} (r : resultado A) : option A :=
  match r with
  | Hecho a => Some a
  | Lanza _ => None
  end.

(** ** Lemmas *)

Lemma digit_of_char d : d < 10 -> digit_of (digit_char d) = Some d.
Proof.
  intros Hd. unfold digit_of, digit_char.
  rewrite nat_ascii_embedding by lia.
  destruct (Nat.leb_spec 48 (48 + d)), (Nat.ltb_spec (48 + d) 58); simpl; try lia.
  f_equal. lia.
Qed.

Lemma digits_val_app s1 s2 acc :
  digits_val (s1 +:+ s2) acc =
  match digits_val s1 acc with Some v => digits_val s2 v | None => None end.
Proof.
  revert acc. induction s1 as [|c s1 IH]; intros acc; simpl; [done|].
  destruct (digit_of c); [apply IH|done].
Qed.

Lemma append_String_nonempty s c t : s +:+ String c t <> EmptyString.
Proof. by destruct s. Qed.

Lemma dec_aux_nonempty fuel n : 0 < fuel -> dec_aux fuel n <> EmptyString.
Proof.
  destruct fuel as [|f]; [lia|]. intros _. simpl.
  destruct (n <? 10); [done|]. apply append_String_nonempty.
Qed.

Lemma dec_aux_enough fuel n :
  n < fuel -> digits_val (dec_aux fuel n) 0 = Some n.
Proof.
  revert n. induction fuel as [|f IH]; intros n Hn; [lia|]. cbn [dec_aux].
  destruct (Nat.ltb_spec n 10) as [Hlt|Hge].
  - cbn [digits_val]. rewrite digit_of_char by done. done.
  - assert (n / 10 < n) by (apply Nat.div_lt; lia).
    rewrite digits_val_app, IH by lia. cbn [digits_val].
    rewrite digit_of_char by (apply Nat.mod_upper_bound; lia).
    f_equal. pose proof (Nat.div_mod_eq n 10). lia.
Qed.

Lemma digits_val_zeros k c s :
  c = "0"%char -> digits_val (repeat_char k c +:+ s) 0 = digits_val s 0.
Proof.
  intros ->. induction k as [|k IH]; simpl; [done|]. exact IH.
Qed.

#[export] Hint Resolve digit_of_char : queue.

(** Round trip of [String(n)]. *)
Lemma parse_js_string_of_nat n : parse_nat (js_string_of_nat n) = Some n.
Proof.
  unfold parse_nat, js_string_of_nat.
  destruct (dec_aux (S n) n) eqn:E.
  - exfalso. by apply (dec_aux_nonempty (S n) n); [lia|].
  - rewrite <- E. apply dec_aux_enough. lia.
Qed.

(** Leading zeros added by [padStart(_, '0')] do not change the value. *)
Lemma parse_pad_start_zero target s :
  s <> EmptyString -> parse_nat (pad_start target "0" s) = parse_nat s.
Proof.
  intros Hs. unfold pad_start, parse_nat.
  destruct (target <=? String.length s); [done|].
  rewrite <- (digits_val_zeros (target - String.length s) "0" s) by done.
  destruct s as [|c s']; [done|].
  destruct (target - String.length (String c s')) as [|k]; done.
Qed.

Lemma js_string_of_nat_nonempty n : js_string_of_nat n <> EmptyString.
Proof. apply dec_aux_nonempty. lia. Qed.
