(* ===== verification/Sqlite.v ===== *)
(** * SQLite values: binding JavaScript values, numeric text and column affinity

    Every table of the program (lines 25-70) stores request-body values
    in columns declared [INTEGER] or [TEXT].  What ends up in a column is
    decided in two steps:
    - node-sqlite3 binds the JavaScript value ([ligar]): [undefined] and
      [null] become NULL, a boolean the integer 1 or 0, a number that is
      a 32-bit integer an INTEGER, any other number a REAL, a string
      TEXT; an object or an array is bound as the text of its
      [toString], ["[object Object]"] for a plain object;
    - the column's affinity converts it: an [INTEGER] column stores a
      text that is a well-formed number (sqlite3AtoF: blanks around it, a
      sign, digits with a decimal point, an exponent) as that number, an
      INTEGER when its value is integral ([texto_numerico]), and a REAL
      with an integral value as an INTEGER; a [TEXT] column stores an
      INTEGER as its decimal text and a REAL as the text of the format
      ["%!.15g"] ([texto_real]).
    The same conversion reads a text parameter compared with an INTEGER
    column, [WHERE id = ?] ([clave_de_texto]).  [js_de_sql] is the value
    a callback receives for a stored value.

    Integers are unbounded: the limits of 64-bit SQLite integers (a longer
    integer literal becomes a REAL, AUTOINCREMENT stops at [2^63 - 1]) are
    not modelled, and a REAL is the exact decimal its text denotes rather
    than the nearest double (the two agree on the 15 significant digits
    that ["%!.15g"] shows; overflow to [Inf] and underflow are not
    modelled). *)

From S2P Require Import Prelude JsValue.
From Stdlib Require Import Ascii.
Local Open Scope Z_scope.

(** A stored value; [SReal m e] is the decimal [m * 10^e], [m] not a
    multiple of ten. *)
Inductive sqlval : Type :=
| SNull
| SInt (z : Z)
| SReal (m e : Z)
| STexto (s : string).

#[export] Instance sqlval_eq_dec : EqDecision sqlval.
Proof. solve_decision. Defined.

(** ** Decimal numbers *)

(** The trailing zeros of [m] moved into the exponent. *)
Fixpoint normalizar_aux (fuel : nat) (m e : Z) : Z * Z :=
  match fuel with
  | O => (m, e)
  | S f =>
      if negb (Z.eqb m 0) && Z.eqb (Z.rem m 10) 0 then normalizar_aux f (Z.quot m 10) (e + 1)
      else (m, e)
  end.

Definition normalizar (m e : Z) : Z * Z :=
  if Z.eqb m 0 then (0, 0) else normalizar_aux (S (Z.to_nat (Z.log2 (Z.abs m)))) m e.

(** The number [m * 10^e] as SQLite keeps it once the INTEGER affinity
    has seen it: an INTEGER when integral, a REAL otherwise. *)
Definition numero_sql (m e : Z) : sqlval :=
  let '(m', e') := normalizar m e in
  if Z.leb 0 e' then SInt (m' * 10 ^ e') else SReal m' e'.

(** The same number as a JavaScript value. *)
Definition numero_js (m e : Z) : jval :=
  let '(m', e') := normalizar m e in
  if Z.leb 0 e' then JNum (m' * 10 ^ e') else JReal m' e'.

(** ** Binding and reading back *)

Definition es_int32 (z : Z) : bool := Z.leb (- 2 ^ 31) z && Z.leb z (2 ^ 31 - 1).

(** node-sqlite3's binding of a parameter ([Statement::BindParameter]). *)
Definition ligar (v : jval) : sqlval :=
  match v with
  | JUndefined | JNull => SNull
  | JBool b => SInt (if b then 1 else 0)
  | JNum z => if es_int32 z then SInt z else let '(m, e) := normalizar z 0 in SReal m e
  | JReal m e => SReal m e
  | JStr s => STexto s
  | JObj => STexto "[object Object]"
  end.

(** The value a row gives to a callback. *)
Definition js_de_sql (v : sqlval) : jval :=
  match v with
  | SNull => JNull
  | SInt z => JNum z
  | SReal m e => numero_js m e
  | STexto s => JStr s
  end.

(** ** Numeric text (sqlite3AtoF) *)

(** [sqlite3Isspace]: tab, line feed, vertical tab, form feed, carriage
    return and space. *)
Definition espacio (c : ascii) : bool :=
  match nat_of_ascii c with
  | 9%nat | 10%nat | 11%nat | 12%nat | 13%nat | 32%nat => true
  | _ => false
  end.

Fixpoint sin_espacios_inicio (s : string) : string :=
  match s with
  | String c r => if espacio c then sin_espacios_inicio r else s
  | EmptyString => s
  end.

Fixpoint solo_espacios (s : string) : bool :=
  match s with
  | EmptyString => true
  | String c r => espacio c && solo_espacios r
  end.

(** The run of decimal digits at the start of [s]: their value appended
    to [acc], how many there are, and the rest of the text. *)
Fixpoint leer_cifras (s : string) (acc : Z) (n : nat) : Z * nat * string :=
  match s with
  | String c r =>
      match digit_of c with
      | Some d => leer_cifras r (acc * 10 + Z.of_nat d) (S n)
      | None => (acc, n, s)
      end
  | EmptyString => (acc, n, s)
  end.

Definition leer_signo (s : string) : bool * string :=
  match s with
  | String c r =>
      if bool_decide (c = "-"%char) then (true, r)
      else if bool_decide (c = "+"%char) then (false, r) else (false, s)
  | EmptyString => (false, s)
  end.

(** The exponent part: nothing, or [e]/[E], a sign and at least one
    digit; [None] when the [e] has no digit after it. *)
Definition leer_exponente (s : string) : option (Z * string) :=
  match s with
  | String c r =>
      if bool_decide (c = "e"%char) || bool_decide (c = "E"%char) then
        let '(neg, r1) := leer_signo r in
        let '(v, n, r2) := leer_cifras r1 0 0 in
        if Nat.eqb n 0 then None else Some (if neg then - v else v, r2)
      else Some (0, s)
  | EmptyString => Some (0, s)
  end.

(** The decimal [m * 10^e] a text denotes, when the whole text is a
    number: blanks, a sign, digits with an optional decimal point (at
    least one digit in all), an optional exponent, blanks. *)
Definition leer_numero (s : string) : option (Z * Z) :=
  let '(neg, s1) := leer_signo (sin_espacios_inicio s) in
  let '(m1, n1, s2) := leer_cifras s1 0 0 in
  let '(m2, n2, s3) :=
    match s2 with
    | String c r => if bool_decide (c = "."%char) then leer_cifras r m1 0 else (m1, 0%nat, s2)
    | EmptyString => (m1, 0%nat, s2)
    end in
  match leer_exponente s3 with
  | Some (ex, r) =>
      if Nat.eqb (n1 + n2) 0 || negb (solo_espacios r) then None
      else Some (if neg then - m2 else m2, ex - Z.of_nat n2)
  | None => None
  end.

(** [applyNumericAffinity] with [bTryForInt]: the INTEGER or REAL a
    numeric text becomes; [None] leaves the text as it is. *)
Definition texto_numerico (s : string) : option sqlval :=
  (fun '(m, e) => numero_sql m e) <$> leer_numero s.

(** The row id a text parameter denotes in [WHERE id = ?]: the integer
    it converts to, when that is a possible id. *)
Definition clave_de_texto (p : string) : option nat :=
  match texto_numerico p with
  | Some (SInt z) => if Z.leb 0 z then Some (Z.to_nat z) else None
  | _ => None
  end.

(** ** Numbers as text *)

(** The decimal text of an integer, as SQLite writes it ([%lld]). *)
Definition texto_de_z (z : Z) : string :=
  if Z.ltb z 0 then String "-" (js_string_of_nat (Z.to_nat (- z)))
  else js_string_of_nat (Z.to_nat z).

(** The decimal digits of a positive [a], most significant first. *)
Fixpoint cifras_aux (fuel : nat) (a : Z) (acc : list nat) : list nat :=
  match fuel with
  | O => acc
  | S f => if Z.ltb a 10 then Z.to_nat a :: acc
           else cifras_aux f (Z.quot a 10) (Z.to_nat (Z.rem a 10) :: acc)
  end.

Definition cifras (a : Z) : list nat := cifras_aux (S (Z.to_nat (Z.log2 a))) a [].

Definition texto_cifras (ds : list nat) : string :=
  foldr (fun d s => String (digit_char d) s) EmptyString ds.

(** [a * 10^e] rounded to 15 significant digits, half up. *)
Definition redondear15 (a e : Z) : Z * Z :=
  let n := Z.of_nat (length (cifras a)) in
  if Z.leb n 15 then (a, e)
  else
    let k := n - 15 in
    let q := Z.quot a (10 ^ k) in
    let q' := if Z.leb (5 * 10 ^ (k - 1)) (Z.rem a (10 ^ k)) then q + 1 else q in
    if Z.eqb q' (10 ^ 15) then (10 ^ 14, e + k + 1) else (q', e + k).

(** The digits without their trailing zeros (at least one kept). *)
Fixpoint quitar_ceros (l : list nat) : list nat :=
  match l with
  | O :: (_ :: _) as l' => quitar_ceros l'
  | _ => l
  end.

Definition sin_ceros_finales (ds : list nat) : list nat := reverse (quitar_ceros (reverse ds)).

(** The text of a REAL, SQLite's [printf("%!.15g")]: 15 significant
    digits, trailing zeros dropped but one digit kept after the point,
    the exponent form when the exponent is below -4 or at least 15. *)
Definition texto_real (m e : Z) : string :=
  if Z.eqb m 0 then "0.0" else
  let signo := if Z.ltb m 0 then "-" else EmptyString in
  let '(a, e1) := redondear15 (Z.abs m) e in
  let ds := cifras a in
  let x := Z.of_nat (length ds) - 1 + e1 in
  let ds' := sin_ceros_finales ds in
  let fraccion l := match l with [] => "0" | _ => texto_cifras l end in
  signo +:+
  (if Z.ltb x (-4) || Z.leb 15 x then
     texto_cifras (take 1 ds') +:+ "." +:+ fraccion (drop 1 ds') +:+ "e" +:+
     (if Z.ltb x 0 then "-" else "+") +:+ pad_start 2 "0" (js_string_of_nat (Z.to_nat (Z.abs x)))
   else if Z.leb 0 x then
     let k := Z.to_nat (x + 1) in
     texto_cifras (take k ds' ++ replicate (k - length ds')%nat 0%nat) +:+ "." +:+ fraccion (drop k ds')
   else "0." +:+ texto_cifras (replicate (Z.to_nat (- x - 1)) 0%nat ++ ds')).

(** ** Column affinity *)

(** [INTEGER] affinity. *)
Definition afinidad_entera (v : sqlval) : sqlval :=
  match v with
  | STexto s => default v (texto_numerico s)
  | SReal m e => numero_sql m e
  | _ => v
  end.

(** [TEXT] affinity. *)
Definition afinidad_texto (v : sqlval) : sqlval :=
  match v with
  | SInt z => STexto (texto_de_z z)
  | SReal m e => STexto (texto_real m e)
  | _ => v
  end.

(** The value a column of each affinity stores for a JavaScript value. *)
Definition col_entera (v : jval) : sqlval := afinidad_entera (ligar v).
Definition col_texto (v : jval) : sqlval := afinidad_texto (ligar v).

(** ** Lemmas *)

Lemma normalizar_aux_valor f m e :
  let '(m', e') := normalizar_aux f m e in e <= e' /\ m = m' * 10 ^ (e' - e).
Proof.
  revert m e. induction f as [|f IH]; intros m e; cbn [normalizar_aux].
  { split; [lia|]. rewrite Z.sub_diag. lia. }
  destruct (negb (Z.eqb m 0) && Z.eqb (Z.rem m 10) 0) eqn:E; [|split; [lia|]; rewrite Z.sub_diag; lia].
  apply andb_true_iff in E as [_ E]. apply Z.eqb_eq in E.
  specialize (IH (Z.quot m 10) (e + 1)). destruct (normalizar_aux f _ _) as [m' e'].
  destruct IH as [Hle Hv]. split; [lia|].
  replace (e' - e) with (Z.succ (e' - (e + 1))) by lia. rewrite Z.pow_succ_r by lia.
  pose proof (Z.quot_rem' m 10) as Hq. rewrite E in Hq. lia.
Qed.

Lemma numero_sql_entero z : numero_sql z 0 = SInt z.
Proof.
  unfold numero_sql, normalizar. destruct (Z.eqb_spec z 0) as [->|Hz]; [done|].
  pose proof (normalizar_aux_valor (S (Z.to_nat (Z.log2 (Z.abs z)))) z 0) as H.
  destruct (normalizar_aux _ z 0) as [m' e']. destruct H as [Hle Hv].
  rewrite Z.sub_0_r in Hv. destruct (Z.leb_spec 0 e'); [|lia]. by rewrite Hv.
Qed.

Lemma leer_cifras_digits s acc n v :
  digits_val s acc = Some v ->
  leer_cifras s (Z.of_nat acc) n = (Z.of_nat v, (n + String.length s)%nat, EmptyString).
Proof.
  revert acc n. induction s as [|c s IH]; intros acc n; cbn [digits_val leer_cifras String.length].
  - intros [= ->]. by rewrite Nat.add_0_r.
  - destruct (digit_of c) as [d|]; [|done]. intros H.
    replace (Z.of_nat acc * 10 + Z.of_nat d)%Z with (Z.of_nat (10 * acc + d)) by lia.
    rewrite (IH _ (S n) H). do 2 f_equal. lia.
Qed.

Lemma js_string_of_nat_digito n :
  exists d r, js_string_of_nat n = String (digit_char d) r /\ (d < 10)%nat.
Proof.
  unfold js_string_of_nat.
  assert (forall fuel m, (m < fuel)%nat -> exists d r, dec_aux fuel m = String (digit_char d) r /\ (d < 10)%nat) as H;
    [|apply H; lia].
  induction fuel as [|f IH]; intros m Hm; [lia|]. cbn [dec_aux].
  destruct (Nat.ltb_spec m 10); [by eexists _, _|].
  destruct (IH (m / 10)%nat) as (d & r & Hr & Hd); [apply Nat.Div0.div_lt_upper_bound; lia|].
  rewrite Hr. by eexists _, _.
Qed.

Lemma signo_digito d r :
  (d < 10)%nat -> leer_signo (sin_espacios_inicio (String (digit_char d) r)) = (false, String (digit_char d) r).
Proof. intros Hd. do 10 (destruct d as [|d]; [reflexivity|]). lia. Qed.

(** The decimal text of a natural number reads as that number. *)
Lemma leer_numero_cifras (neg : bool) n :
  leer_numero ((if neg then String "-" else id) (js_string_of_nat n)) =
    Some (if neg then - Z.of_nat n else Z.of_nat n, 0)%Z.
Proof.
  pose proof (parse_js_string_of_nat n) as Hp. pose proof (js_string_of_nat_nonempty n) as Hne.
  destruct (js_string_of_nat_digito n) as (d & r & Hr & Hd).
  assert (Hc : leer_cifras (js_string_of_nat n) 0 0 =
                 (Z.of_nat n, String.length (js_string_of_nat n), EmptyString)).
  { unfold parse_nat in Hp. destruct (js_string_of_nat n); [done|]. exact (leer_cifras_digits _ 0 0 _ Hp). }
  assert (Hl : Nat.eqb (String.length (js_string_of_nat n) + 0) 0 = false) by (rewrite Hr; done).
  assert (Hs : leer_signo (sin_espacios_inicio ((if neg then String "-" else id) (js_string_of_nat n))) =
                 (neg, js_string_of_nat n)).
  { destruct neg; [reflexivity|]. cbn [id]. by rewrite Hr, signo_digito. }
  unfold leer_numero. rewrite Hs. clear Hs Hr. set (t := js_string_of_nat n) in *. clearbody t.
  rewrite Hc. simpl. rewrite Hl. by destruct neg.
Qed.

(** Round trip: an integer written as text by a [TEXT] column reads back
    as the same integer under [INTEGER] affinity. *)
Lemma texto_numerico_de_z z : texto_numerico (texto_de_z z) = Some (SInt z).
Proof.
  unfold texto_numerico, texto_de_z. destruct (Z.ltb_spec z 0).
  - rewrite (leer_numero_cifras true). cbn. rewrite numero_sql_entero. f_equal. f_equal. lia.
  - pose proof (leer_numero_cifras false (Z.to_nat z)) as Hn. cbn [id] in Hn.
    rewrite Hn. cbn. rewrite numero_sql_entero. f_equal. f_equal. lia.
Qed.

(** The decimal text of an id denotes that id. *)
Lemma clave_de_texto_js n : clave_de_texto (js_string_of_nat n) = Some n.
Proof.
  pose proof (leer_numero_cifras false n) as H. cbn [id] in H.
  unfold clave_de_texto, texto_numerico. rewrite H. cbn.
  rewrite numero_sql_entero. destruct (Z.leb_spec 0 (Z.of_nat n)); [|lia]. by rewrite Nat2Z.id.
Qed.

Lemma afinidad_texto_idem v : afinidad_texto (afinidad_texto v) = afinidad_texto v.
Proof. by destruct v. Qed.

Lemma append_cons c s t : String c s +:+ t = String c (s +:+ t).
Proof. reflexivity. Qed.

Lemma append_vacio t : EmptyString +:+ t = t.
Proof. reflexivity. Qed.

Lemma sin_espacios_app pre s :
  solo_espacios pre = true -> sin_espacios_inicio (pre +:+ s) = sin_espacios_inicio s.
Proof.
  induction pre as [|c pre IH]; [done|]. cbn [solo_espacios]. intros [Hc Hp]%andb_prop.
  rewrite append_cons. cbn [sin_espacios_inicio]. rewrite Hc. by apply IH.
Qed.

(** A blank is neither a digit, nor a sign, nor a point, nor an [e]. *)
Lemma espacio_no_numero c :
  espacio c = true ->
  digit_of c = None /\ c <> "e"%char /\ c <> "E"%char /\ c <> "."%char /\ c <> "+"%char /\ c <> "-"%char.
Proof. destruct c as [[] [] [] [] [] [] [] []]; vm_compute; intros H; try discriminate H; repeat split; discriminate. Qed.

(** The text after the number: nothing, or blanks. *)
Lemma leer_fin post a n :
  solo_espacios post = true -> leer_cifras post a n = (a, n, post) /\ leer_exponente post = Some (0, post).
Proof.
  destruct post as [|c r]; [done|]. cbn [solo_espacios]. intros [Hc _]%andb_prop.
  destruct (espacio_no_numero c Hc) as (Hd & He & HE & _). cbn [leer_cifras leer_exponente].
  rewrite Hd. split; [done|]. by rewrite !bool_decide_false.
Qed.

Lemma leer_cifras_app s r acc n v :
  digits_val s acc = Some v ->
  leer_cifras (s +:+ r) (Z.of_nat acc) n = leer_cifras r (Z.of_nat v) (n + String.length s)%nat.
Proof.
  revert acc n. induction s as [|c s IH]; intros acc n;
    rewrite ?append_cons, ?append_vacio; cbn [digits_val leer_cifras String.length].
  - intros [= ->]. by rewrite Nat.add_0_r.
  - destruct (digit_of c) as [d|]; [|done]. intros H.
    replace (Z.of_nat acc * 10 + Z.of_nat d) with (Z.of_nat (10 * acc + d)) by lia.
    rewrite (IH _ (S n) H). f_equal. lia.
Qed.

Lemma leer_cifras_ceros k r a n :
  leer_cifras (repeat_char k "0" +:+ r) a n = leer_cifras r (a * 10 ^ Z.of_nat k) (n + k)%nat.
Proof.
  revert a n. induction k as [|k IH]; intros a n; cbn [repeat_char];
    rewrite ?append_cons, ?append_vacio; cbn [leer_cifras].
  - by rewrite Z.mul_1_r, Nat.add_0_r.
  - change (digit_of "0") with (Some 0%nat). cbv beta iota. rewrite IH. f_equal; [|lia].
    rewrite Nat2Z.inj_succ, Z.pow_succ_r by lia. lia.
Qed.

(** Trailing zeros of a decimal fraction are normalized away. *)
Lemma normalizar_aux_ceros f k m e :
  m <> 0 -> (k <= f)%nat ->
  normalizar_aux f (m * 10 ^ Z.of_nat k) e = normalizar_aux (f - k) m (e + Z.of_nat k).
Proof.
  revert f m e. induction k as [|k IH]; intros f m e Hm Hk.
  { by rewrite Z.mul_1_r, Nat.sub_0_r, Z.add_0_r. }
  destruct f as [|f]; [lia|]. cbn [normalizar_aux].
  rewrite Nat2Z.inj_succ, Z.pow_succ_r by lia.
  replace (m * (10 * 10 ^ Z.of_nat k)) with (m * 10 ^ Z.of_nat k * 10) by lia.
  rewrite Z.rem_mul, Z.quot_mul by lia.
  assert (Hp : m * 10 ^ Z.of_nat k * 10 <> 0) by (pose proof (Z.pow_pos_nonneg 10 (Z.of_nat k)); nia).
  rewrite (proj2 (Z.eqb_neq _ _) Hp). cbn [negb andb Z.eqb]. rewrite IH by lia. f_equal. lia.
Qed.

Lemma numero_sql_ceros m k : numero_sql (m * 10 ^ Z.of_nat k) (- Z.of_nat k) = SInt m.
Proof.
  unfold numero_sql, normalizar. destruct (Z.eqb_spec m 0) as [->|Hm].
  { by rewrite Z.mul_0_l. }
  assert (Hpos : 0 < 10 ^ Z.of_nat k) by (apply Z.pow_pos_nonneg; lia).
  rewrite (proj2 (Z.eqb_neq _ _)) by nia.
  assert (Hk : (k <= S (Z.to_nat (Z.log2 (Z.abs (m * 10 ^ Z.of_nat k)))))%nat).
  { assert (2 ^ Z.of_nat k <= Z.abs (m * 10 ^ Z.of_nat k)).
    { rewrite Z.abs_mul, (Z.abs_eq (10 ^ _)) by lia.
      assert (2 ^ Z.of_nat k <= 10 ^ Z.of_nat k) by (apply Z.pow_le_mono_l; lia). nia. }
    assert (Z.of_nat k <= Z.log2 (Z.abs (m * 10 ^ Z.of_nat k))) by (apply Z.log2_le_pow2; lia). lia. }
  rewrite normalizar_aux_ceros by done. rewrite Z.add_opp_diag_l.
  pose proof (normalizar_aux_valor (S (Z.to_nat (Z.log2 (Z.abs (m * 10 ^ Z.of_nat k)))) - k) m 0) as Hv.
  destruct (normalizar_aux _ m 0) as [m' e']. destruct Hv as [Hle Hv].
  rewrite Z.sub_0_r in Hv. destruct (Z.leb_spec 0 e'); [|lia]. by rewrite Hv.
Qed.

(** C20 The [:id] parameter of the ticket and appointment routes is read
    with SQLite's numeric affinity: a text made of blanks, an optional
    [+], the decimal digits of [n], an optional decimal point followed by
    zeros, and blanks (['7'], [' +7.00 '], ['7.']) denotes the row id
    [n], so all these forms address the same ticket or appointment. *)
Theorem clave_de_texto_decimal n (signo : bool) (fraccion : option nat) pre post :
  solo_espacios pre = true -> solo_espacios post = true ->
  clave_de_texto
    (pre +:+ (if signo then "+" else EmptyString) +:+ js_string_of_nat n +:+
     match fraccion with Some k => String "." (repeat_char k "0") | None => EmptyString end +:+ post) =
  Some n.
Proof.
  intros Hpre Hpost. pose proof (parse_js_string_of_nat n) as Hp.
  destruct (js_string_of_nat_digito n) as (d & r & Hr & Hd).
  assert (Hdv : digits_val (js_string_of_nat n) 0 = Some n) by (unfold parse_nat in Hp; by rewrite Hr in Hp |- *).
  set (t := match fraccion with Some k => String "." (repeat_char k "0") | None => EmptyString end +:+ post).
  assert (Hs : leer_signo (sin_espacios_inicio (pre +:+ (if signo then "+" else EmptyString) +:+
                 js_string_of_nat n +:+ t)) = (false, js_string_of_nat n +:+ t)).
  { rewrite sin_espacios_app by done. destruct signo; [reflexivity|].
    rewrite append_vacio, Hr, append_cons. by rewrite signo_digito. }
  assert (Hl : (String.length (js_string_of_nat n) =? 0)%nat = false) by (by rewrite Hr).
  unfold clave_de_texto, texto_numerico, leer_numero. rewrite Hs.
  rewrite (leer_cifras_app _ _ 0 0 n Hdv). cbn [Nat.add]. unfold t. clear t Hs.
  destruct fraccion as [k|]; rewrite ?append_cons, ?append_vacio; cbn [leer_cifras].
  - change (digit_of ".") with (@None nat). cbn beta iota. rewrite bool_decide_true by done.
    rewrite leer_cifras_ceros. destruct (leer_fin post (Z.of_nat n * 10 ^ Z.of_nat k) (0 + k) Hpost) as [-> ->].
    rewrite Hpost. replace (String.length (js_string_of_nat n) + (0 + k) =? 0)%nat with false
      by (symmetry; apply Nat.eqb_neq; apply Nat.eqb_neq in Hl; lia).
    cbn. replace (0 - Z.of_nat (0 + k)) with (- Z.of_nat k) by lia. rewrite numero_sql_ceros.
    destruct (Z.leb_spec 0 (Z.of_nat n)); [|lia]. by rewrite Nat2Z.id.
  - destruct (leer_fin post (Z.of_nat n) (String.length (js_string_of_nat n)) Hpost) as [-> He].
    assert (Hm : match post with
                 | String c r => if bool_decide (c = "."%char) then leer_cifras r (Z.of_nat n) 0
                                 else (Z.of_nat n, 0%nat, post)
                 | EmptyString => (Z.of_nat n, 0%nat, post)
                 end = (Z.of_nat n, 0%nat, post)).
    { destruct post as [|c p]; [done|]. cbn [solo_espacios] in Hpost. apply andb_prop in Hpost as [Hc _].
      destruct (espacio_no_numero c Hc) as (_ & _ & _ & Hdot & _). by rewrite bool_decide_false. }
    rewrite Hm, He, Nat.add_0_r, Hl, Hpost. cbn. rewrite numero_sql_entero.
    destruct (Z.leb_spec 0 (Z.of_nat n)); [|lia]. by rewrite Nat2Z.id.
Qed.

(** The forms of a numeric text that [WHERE id = ?] reads as an id, and
    those it does not. *)
Example clave_de_texto_ejemplos :
  clave_de_texto "7" = Some 7%nat /\ clave_de_texto " 7 " = Some 7%nat /\ clave_de_texto "+7" = Some 7%nat /\
  clave_de_texto "007" = Some 7%nat /\ clave_de_texto "7.0" = Some 7%nat /\ clave_de_texto "7." = Some 7%nat /\
  clave_de_texto "0.7e1" = Some 7%nat /\ clave_de_texto "70E-1" = Some 7%nat /\
  clave_de_texto "7.5" = None /\ clave_de_texto "7e" = None /\ clave_de_texto "7a" = None /\
  clave_de_texto "-7" = None /\ clave_de_texto "." = None /\ clave_de_texto " " = None.
Proof. vm_compute. repeat split. Qed.

(** What the columns store for numbers: a REAL binding of a number that
    is not a 32-bit integer, and the ["%!.15g"] text of a REAL. *)
Example columnas_numeros :
  col_texto (JNum 3000000000) = STexto "3000000000.0" /\ col_entera (JNum 3000000000) = SInt 3000000000 /\
  col_texto (JNum 7) = STexto "7" /\ col_entera (JStr "1.5") = SReal 15 (-1) /\
  col_entera (JStr "2.50e1") = SInt 25 /\ col_texto (JReal 15 (-1)) = STexto "1.5" /\
  col_texto (JReal 1 (-5)) = STexto "1.0e-05" /\ col_texto (JReal 1 (-4)) = STexto "0.0001" /\
  col_texto (JNum (10 ^ 15)) = STexto "1.0e+15" /\
  col_texto (JNum 123456789012345678) = STexto "1.23456789012346e+17" /\
  col_texto (JNum (- 999999999999999999)) = STexto "-1.0e+18".
Proof. vm_compute. repeat split. Qed.

(** [' +7.00 '] addresses the row with id 7. *)
Lemma clave_de_texto_decimal_witness :
  solo_espacios " " = true /\
  clave_de_texto (" " +:+ "+" +:+ js_string_of_nat 7 +:+ String "." (repeat_char 2 "0") +:+ " ") = Some 7%nat.
Proof.
  assert (H : solo_espacios " " = true) by reflexivity. split; [exact H|].
  exact (clave_de_texto_decimal 7 true (Some 2%nat) " " " " H H).
Defined.
