(* ===== verification/Turno.v ===== *)
(** * The ticket row of table [Turnos] and its number

    Table [Turnos] (server.js lines 43-52) has the columns [id] (INTEGER
    PRIMARY KEY AUTOINCREMENT), [paciente_nombre], [paciente_identificacion],
    [paciente_telefono], [clinica_id], [numero_turno], [estado] (TEXT,
    written only as 'espera', 'atendiendo', 'finalizado', 'ausente') and
    [fecha_creacion] (CURRENT_TIMESTAMP at insertion).  The patient fields
    hold the values bound from the request body, so they are [jval]s.

    The ticket number is built at line 395:
    [`T-${String(row.count + 1).padStart(3, '0')}`].  This file defines it,
    its parser, the round trip, injectivity and the length bounds. *)

From S2P Require Import Prelude JsValue.
From Stdlib Require Import Ascii.

(** The values the routes write into column [estado]. *)
Inductive estado : Type :=
| Espera       (* 'espera': waiting *)
| Atendiendo   (* 'atendiendo': being served *)
| Finalizado   (* 'finalizado': finished *)
| Ausente.     (* 'ausente': absent *)

#[export] Instance estado_eq_dec : EqDecision estado.
Proof. solve_decision. Defined.

Definition estado_text (e : estado) : string :=
  match e with
  | Espera => "espera"
  | Atendiendo => "atendiendo"
  | Finalizado => "finalizado"
  | Ausente => "ausente"
  end.

Definition estado_eqb (a b : estado) : bool := bool_decide (a = b).

Record turno : Type := mkTurno {
  turno_id : nat;
  paciente_nombre : jval;
  paciente_identificacion : jval;
  paciente_telefono : jval;
  clinica_id : jval;
  numero_turno : string;
  estado_turno : estado;
  fecha_creacion : Z
}.

#[export] Instance turno_eq_dec : EqDecision turno.
Proof. solve_decision. Defined.

(** [UPDATE Turnos SET estado = e] on one row. *)
Definition set_estado (e : estado) (t : turno) : turno :=
  {| turno_id := turno_id t;
     paciente_nombre := paciente_nombre t;
     paciente_identificacion := paciente_identificacion t;
     paciente_telefono := paciente_telefono t;
     clinica_id := clinica_id t;
     numero_turno := numero_turno t;
     estado_turno := e;
     fecha_creacion := fecha_creacion t |}.

(** Line 395: the number of the ticket created when [count] tickets exist. *)
Definition numero_de_conteo (count : nat) : string :=
  "T-" +:+ pad_start 3 "0" (js_string_of_nat (count + 1)).

(** Reading a number back: the prefix [T-] and the decimal digits. *)
Definition parse_numero (s : string) : option nat :=
  match s with
  | String "T" (String "-" rest) => parse_nat rest
  | _ => None
  end.

(** ** Lemmas *)

Lemma set_estado_id e t : turno_id (set_estado e t) = turno_id t.
Proof. done. Qed.
Lemma set_estado_numero e t : numero_turno (set_estado e t) = numero_turno t.
Proof. done. Qed.
Lemma set_estado_fecha e t : fecha_creacion (set_estado e t) = fecha_creacion t.
Proof. done. Qed.
Lemma set_estado_estado e t : estado_turno (set_estado e t) = e.
Proof. done. Qed.

#[export] Hint Rewrite set_estado_id set_estado_numero set_estado_fecha
  set_estado_estado : queue_rw.

Lemma estado_text_inj a b : estado_text a = estado_text b -> a = b.
Proof. destruct a, b; simpl; congruence. Qed.

Lemma repeat_char_length k c : String.length (repeat_char k c) = k.
Proof. induction k; simpl; auto. Qed.

Lemma string_app_length (s1 s2 : string) :
  String.length (s1 +:+ s2) = String.length s1 + String.length s2.
Proof. induction s1; simpl; auto. Qed.

Lemma pad_start_length target c s :
  String.length (pad_start target c s) = Nat.max target (String.length s).
Proof.
  unfold pad_start. destruct (Nat.leb_spec target (String.length s)).
  - lia.
  - rewrite string_app_length, repeat_char_length. lia.
Qed.

(** The decimal string of [n] has at most [k] digits when [n < 10^k], and
    at least [k+1] when [10^k <= n]. *)
Lemma dec_aux_length_le fuel n k :
  n < fuel -> 0 < k -> n < 10 ^ k -> String.length (dec_aux fuel n) <= k.
Proof.
  revert n k. induction fuel as [|f IH]; intros n k Hf Hk Hn; [lia|].
  cbn [dec_aux]. destruct (Nat.ltb_spec n 10) as [Hlt|Hge]; [simpl; lia|].
  rewrite string_app_length. cbn [String.length].
  destruct k as [|k]; [lia|].
  assert (n / 10 < n) by (apply Nat.div_lt; lia).
  assert (n / 10 < 10 ^ k).
  { apply Nat.Div0.div_lt_upper_bound. rewrite Nat.pow_succ_r' in Hn. lia. }
  destruct k as [|k]; [simpl in *; lia|].
  pose proof (IH (n / 10) (S k) ltac:(lia) ltac:(lia) ltac:(done)). lia.
Qed.

Lemma dec_aux_length_ge fuel n k :
  n < fuel -> 10 ^ k <= n -> k < String.length (dec_aux fuel n).
Proof.
  revert n k. induction fuel as [|f IH]; intros n k Hf Hn; [lia|].
  cbn [dec_aux]. destruct (Nat.ltb_spec n 10) as [Hlt|Hge].
  - destruct k as [|k]; [simpl; lia|].
    rewrite Nat.pow_succ_r' in Hn. pose proof (Nat.pow_nonzero 10 k). lia.
  - rewrite string_app_length. cbn [String.length].
    destruct k as [|k]; [lia|].
    assert (n / 10 < n) by (apply Nat.div_lt; lia).
    assert (10 ^ k <= n / 10).
    { apply Nat.div_le_lower_bound; [lia|]. rewrite <- Nat.pow_succ_r'. done. }
    pose proof (IH (n / 10) k ltac:(lia) ltac:(done)). lia.
Qed.

(** ** The ticket number: round trip, injectivity, width *)

(** The number given to the ticket created when [count] tickets exist
    reads back as [count + 1]. *)
Lemma numero_de_conteo_parse count :
  parse_numero (numero_de_conteo count) = Some (count + 1).
Proof.
  unfold numero_de_conteo.
  change ("T-" +:+ ?x) with (String "T" (String "-" x)).
  cbv beta iota delta [parse_numero].
  rewrite parse_pad_start_zero by apply js_string_of_nat_nonempty.
  apply parse_js_string_of_nat.
Qed.

(** Two different counts give two different numbers. *)
Corollary numero_de_conteo_inj a b :
  numero_de_conteo a = numero_de_conteo b -> a = b.
Proof.
  intros E. apply (f_equal parse_numero) in E.
  rewrite !numero_de_conteo_parse in E. injection E. lia.
Qed.

(** C9 Round trip of the ticket number: the number given to the ticket
    created when [count] tickets exist reads back as [count + 1], so the
    [T-] prefix and the zero padding of line 395 lose no information, and
    no other count gives the same number. *)
Theorem numero_de_conteo_roundtrip count :
  parse_numero (numero_de_conteo count) = Some (count + 1) /\
  forall count', numero_de_conteo count' = numero_de_conteo count -> count' = count.
Proof. split; [apply numero_de_conteo_parse|intros c'; apply numero_de_conteo_inj]. Qed.

(** C40 Width of the number: exactly [T-NNN] (five characters) for the
    first 999 tickets, and the padding never truncates, so from the
    1000th ticket on the number is longer than five characters. *)
Theorem numero_de_conteo_length count :
  (count + 1 < 1000 -> String.length (numero_de_conteo count) = 5) /\
  (1000 <= count + 1 -> 5 < String.length (numero_de_conteo count)).
Proof.
  unfold numero_de_conteo, js_string_of_nat.
  rewrite string_app_length, pad_start_length. cbn [String.length].
  split; intros H.
  - pose proof (dec_aux_length_le (S (count + 1)) (count + 1) 3 ltac:(lia) ltac:(lia) ltac:(done)).
    lia.
  - pose proof (dec_aux_length_ge (S (count + 1)) (count + 1) 3 ltac:(lia) ltac:(done)).
    lia.
Qed.

Example numero_de_conteo_0 : numero_de_conteo 0 = "T-001".
Proof. reflexivity. Qed.
Example numero_de_conteo_41 : numero_de_conteo 41 = "T-042".
Proof. reflexivity. Qed.
Example numero_de_conteo_999 : numero_de_conteo 999 = "T-1000".
Proof. reflexivity. Qed.

Lemma numero_de_conteo_length_witness :
  (41 + 1 < 1000 /\ String.length (numero_de_conteo 41) = 5) /\
  (1000 <= 999 + 1 /\ 5 < String.length (numero_de_conteo 999)).
Proof.
  split; (split; [lia|]).
  - apply (proj1 (numero_de_conteo_length 41)). lia.
  - apply (proj2 (numero_de_conteo_length 999)). lia.
Defined.

Lemma numero_de_conteo_roundtrip_witness :
  parse_numero (numero_de_conteo 41) = Some 42 /\
  (numero_de_conteo 41 = numero_de_conteo 41 -> 41 = 41).
Proof.
  split; [apply (proj1 (numero_de_conteo_roundtrip 41))|].
  apply (proj2 (numero_de_conteo_roundtrip 41)).
Defined.
