(* ===== verification/Store.v ===== *)
(** * The TicketStore interface and the SQL queries on [Turnos]

    The routes touch table [Turnos] only through these statements:
    - [SELECT COUNT( * ) FROM Turnos] (line 389),
    - [INSERT INTO Turnos (...) VALUES (?, ?, ?, ?, ?, 'espera')] with
      [this.lastID] (lines 399-409),
    - [UPDATE Turnos SET estado = ... WHERE id = ?] (lines 609, 630, 648),
    - [SELECT ... WHERE estado = ... ORDER BY fecha_creacion ASC [LIMIT n]]
      (lines 587, 594, 680, 687) and the join of lines 560-573.

    The class [TicketStore] names the three primitive operations (the table
    scan, the insert and the update); [TicketStoreLaws] states what a
    store promises: the scan order is the insertion order, an insert
    appends one row in state [espera] with a fresh id larger than every
    existing one (AUTOINCREMENT), an update rewrites the state of the
    matching rows and nothing else.  The engine's theorems are proved from
    the laws; [Db] discharges them for the SQLite tables.  The queries are
    combinators on the scanned rows. *)

From S2P Require Import Prelude JsValue Sqlite Turno.
From Stdlib Require Import Ascii.

(** The values bound by the INSERT of line 400. *)
Record nuevo_turno : Type := mkNuevo {
  nt_nombre : jval;
  nt_identificacion : jval;
  nt_telefono : jval;
  nt_clinica : jval;
  nt_numero : string
}.

(** What a [TEXT] and an [INTEGER] column of [Turnos] keep of a bound
    value, as the rows give it back to a callback (lines 45-48). *)
Definition guardar_texto (v : jval) : jval := js_de_sql (col_texto v).
Definition guardar_entero (v : jval) : jval := js_de_sql (col_entera v).

(** The row the INSERT creates: each value under its column's affinity,
    [estado = 'espera'] and [fecha_creacion = CURRENT_TIMESTAMP]. *)
Definition fila (d : nuevo_turno) (id : nat) (now : Z) : turno :=
  {| turno_id := id;
     paciente_nombre := guardar_texto (nt_nombre d);
     paciente_identificacion := guardar_texto (nt_identificacion d);
     paciente_telefono := guardar_texto (nt_telefono d);
     clinica_id := guardar_entero (nt_clinica d);
     numero_turno := nt_numero d;
     estado_turno := Espera;
     fecha_creacion := now |}.

(** [UPDATE Turnos SET estado = e WHERE <p id>] on the scanned rows. *)
Definition update_rows (p : nat -> bool) (e : estado) (l : list turno) : list turno :=
  map (fun t => if p (turno_id t) then set_estado e t else t) l.

Class TicketStore (S : Type) := {
  turnos : S -> list turno;
  insertar_turno : nuevo_turno -> Z -> S -> S * nat;
  actualizar_estado : (nat -> bool) -> estado -> S -> S
}.

Class TicketStoreLaws (S : Type) `{!TicketStore S} := {
  store_wf : S -> Prop;
  insertar_turnos d now s :
    store_wf s ->
    turnos (insertar_turno d now s).1 = turnos s ++ [fila d (insertar_turno d now s).2 now];
  insertar_fresh d now s :
    store_wf s -> Forall (fun t => turno_id t < (insertar_turno d now s).2) (turnos s);
  insertar_wf d now s : store_wf s -> store_wf (insertar_turno d now s).1;
  actualizar_turnos p e s : turnos (actualizar_estado p e s) = update_rows p e (turnos s);
  actualizar_wf p e s : store_wf s -> store_wf (actualizar_estado p e s)
}.

(** ** Queries *)

Definition en_estado (e : estado) (l : list turno) : list turno :=
  filter (fun t => estado_turno t = e) l.

Definition fecha_le (a b : turno) : bool := Z.leb (fecha_creacion a) (fecha_creacion b).

(** [ORDER BY fecha_creacion ASC] *)
Definition por_fecha (l : list turno) : list turno := sort_by fecha_le l.

(** The spec's order: creation time, then id. *)
Definition fecha_id_le (a b : turno) : bool :=
  Z.ltb (fecha_creacion a) (fecha_creacion b) ||
  (Z.eqb (fecha_creacion a) (fecha_creacion b) && Nat.leb (turno_id a) (turno_id b)).

Section Queries.
Context {S : Type} `{!TicketStore S}.

(** [SELECT COUNT( * ) FROM Turnos] *)
Definition contar (s : S) : nat := length (turnos s).

(** [SELECT COUNT( * ) FROM Turnos WHERE estado = e] *)
Definition contar_en (e : estado) (s : S) : nat := length (en_estado e (turnos s)).

(** [SELECT ... WHERE estado = e ORDER BY fecha_creacion ASC LIMIT n] *)
Definition primeros_en (e : estado) (n : nat) (s : S) : list turno :=
  limit n (por_fecha (en_estado e (turnos s))).

(** [... LIMIT 1] through [db.get]: the first row or [undefined]. *)
Definition primero_en (e : estado) (s : S) : option turno :=
  head (primeros_en e 1 s).
End Queries.

(** SQLite compares the INTEGER column [id] with a TEXT parameter (the
    route parameter [req.params.id]) after converting the text to a
    number; a text that is not an integer literal matches no row. *)
Definition id_param_matches (p : string) (id : nat) : bool :=
  bool_decide (clave_de_texto p = Some id).

(** [t.clinica_id = c.id]: the stored value of the INTEGER column
    [clinica_id] equals a clinic's id only when it is that integer (a
    text or a REAL the affinity kept is never equal to an INTEGER). *)
Definition sql_int (v : jval) : option nat :=
  match v with
  | JNum n => if Z.leb 0 n then Some (Z.to_nat n) else None
  | _ => None
  end.

(** ** Lemmas on the queries *)

Lemma fecha_le_total a b : fecha_le a b = false -> fecha_le b a = true.
Proof. unfold fecha_le. case_tests; done || lia. Qed.

Lemma fecha_le_trans a b c : fecha_le a b = true -> fecha_le b c = true -> fecha_le a c = true.
Proof. unfold fecha_le. case_tests; done || lia. Qed.

#[export] Hint Resolve fecha_le_total fecha_le_trans : queue.

Lemma por_fecha_perm l : por_fecha l ≡ₚ l.
Proof. apply sort_by_perm. Qed.

Lemma elem_of_por_fecha t l : t ∈ por_fecha l <-> t ∈ l.
Proof. apply elem_of_sort_by. Qed.

Lemma elem_of_en_estado t e l : t ∈ en_estado e l <-> t ∈ l /\ estado_turno t = e.
Proof. unfold en_estado. rewrite list_elem_of_filter. tauto. Qed.

Lemma update_rows_ids p e l : map turno_id (update_rows p e l) = map turno_id l.
Proof. induction l as [|t l IH]; simpl; [done|]. by destruct (p (turno_id t)); f_equal. Qed.

Lemma update_rows_numeros p e l : map numero_turno (update_rows p e l) = map numero_turno l.
Proof. induction l as [|t l IH]; simpl; [done|]. by destruct (p (turno_id t)); f_equal. Qed.

Lemma update_rows_length p e l : length (update_rows p e l) = length l.
Proof. apply length_map. Qed.

Lemma update_rows_app p e l1 l2 : update_rows p e (l1 ++ l2) = update_rows p e l1 ++ update_rows p e l2.
Proof. apply map_app. Qed.

#[export] Hint Rewrite update_rows_ids update_rows_numeros update_rows_length
  update_rows_app : queue_rw.

(** A row of the updated table is an old row, with its state changed when
    its id matches. *)
Lemma elem_of_update_rows p e l t :
  t ∈ update_rows p e l <->
  exists t0, t0 ∈ l /\ t = (if p (turno_id t0) then set_estado e t0 else t0).
Proof. unfold update_rows. rewrite list_elem_of_fmap. naive_solver. Qed.

(** ** The order of the rows

    The scan of [Turnos] lists the rows by increasing id (rowid order). *)
Definition ids_crecientes (l : list turno) : Prop :=
  StronglySorted (fun a b => turno_id a < turno_id b) l.

Lemma fecha_id_le_total a b : fecha_id_le a b = false -> fecha_id_le b a = true.
Proof. unfold fecha_id_le. case_tests; simpl; done || lia. Qed.

Lemma fecha_id_le_trans a b c :
  fecha_id_le a b = true -> fecha_id_le b c = true -> fecha_id_le a c = true.
Proof. unfold fecha_id_le. case_tests; simpl; done || lia. Qed.

Lemma fecha_id_le_antisym a b :
  fecha_id_le a b = true -> fecha_id_le b a = true ->
  fecha_creacion a = fecha_creacion b /\ turno_id a = turno_id b.
Proof. unfold fecha_id_le. case_tests; simpl; done || lia. Qed.

#[export] Hint Resolve fecha_id_le_total fecha_id_le_trans : queue.

Lemma en_estado_crecientes e l : ids_crecientes l -> ids_crecientes (en_estado e l).
Proof.
  unfold ids_crecientes, en_estado. induction 1 as [|x l Hl IH Hx]; [constructor|].
  rewrite filter_cons. case_decide; [|done]. constructor; [done|].
  apply Forall_forall. intros y Hy. apply list_elem_of_filter in Hy as [_ Hy].
  rewrite Forall_forall in Hx. by apply Hx.
Qed.

Lemma update_rows_crecientes p e l : ids_crecientes l -> ids_crecientes (update_rows p e l).
Proof.
  unfold ids_crecientes, update_rows. intros H.
  apply StronglySorted_fmap with (R1 := fun a b => turno_id a < turno_id b); [|done].
  intros x y. by destruct (p (turno_id x)), (p (turno_id y)).
Qed.

Lemma por_fecha_lex l :
  ids_crecientes l -> StronglySorted (fun a b => fecha_id_le a b = true) (por_fecha l).
Proof.
  intros H. eapply StronglySorted_weaken;
    [|apply (sort_by_sorted_lex fecha_le fecha_le_total fecha_le_trans _ l H)].
  unfold lex_rel, fecha_le, fecha_id_le. intros a b [Hab Hba].
  revert Hab Hba. case_tests; simpl; intros; try done; try lia.
Qed.

Lemma sort_fecha_id_sorted l :
  StronglySorted (fun a b => fecha_id_le a b = true) (sort_by fecha_id_le l).
Proof.
  eapply StronglySorted_weaken;
    [|apply (sort_by_sorted_lex fecha_id_le fecha_id_le_total fecha_id_le_trans _ l
               (StronglySorted_any l))].
  by intros a b [? _].
Qed.

(** [ORDER BY fecha_creacion ASC] over the id-ordered scan, ties kept
    in scan order, is the order by (creation time, id). *)
Lemma por_fecha_orden l :
  ids_crecientes l -> por_fecha l = sort_by fecha_id_le l.
Proof.
  intros H. apply StronglySorted_unique_strong with (R := fun a b => fecha_id_le a b = true).
  - intros x y Hx Hy Hxy Hyx.
    rewrite elem_of_por_fecha in Hx. rewrite elem_of_sort_by in Hy.
    destruct (fecha_id_le_antisym x y Hxy Hyx) as [_ Hid].
    eapply NoDup_map_eq; [by apply StronglySorted_lt_NoDup|done..].
  - by apply por_fecha_lex.
  - apply sort_fecha_id_sorted.
  - by rewrite por_fecha_perm, sort_by_perm.
Qed.

(** The first row of a sorted query is least in the spec's order. *)
Lemma head_por_fecha_min l t :
  ids_crecientes l -> head (por_fecha l) = Some t ->
  t ∈ l /\ Forall (fun u => fecha_id_le t u = true) l.
Proof.
  intros Hl Hh. pose proof (por_fecha_lex l Hl) as Hs.
  destruct (por_fecha l) as [|x r] eqn:E; [done|]. simpl in Hh. injection Hh as ->.
  split; [apply elem_of_por_fecha; rewrite E; left|].
  apply Forall_forall. intros u Hu. rewrite <- elem_of_por_fecha, E in Hu.
  apply elem_of_cons in Hu as [->|Hu].
  - unfold fecha_id_le. case_tests; simpl; done || lia.
  - apply StronglySorted_inv in Hs as [_ Hs]. rewrite Forall_forall in Hs. by apply Hs.
Qed.

(** C8 The queries [... WHERE estado = e ORDER BY fecha_creacion ASC LIMIT n]
    of lines 587, 594, 680 and 687 return, over the id-ordered scan, the
    first [n] rows of state [e] in the spec's order by (creation time,
    id): [ORDER BY fecha_creacion] with ties in scan order and the sort by
    both keys give the same rows. *)
Theorem primeros_en_orden_spec {St : Type} `{!TicketStore St} e n (s : St) :
  ids_crecientes (turnos s) ->
  primeros_en e n s = limit n (sort_by fecha_id_le (en_estado e (turnos s))).
Proof.
  intros H. unfold primeros_en. rewrite por_fecha_orden; [done|].
  by apply en_estado_crecientes.
Qed.
