(* ===== verification/Agenda.v ===== *)
(** * The table [Appointments] and the statements of its routes

    Table [Appointments] (lines 54-62) holds rows with an AUTOINCREMENT
    [id], [patient_id] and [clinica_id] (INTEGER NOT NULL), [fecha] and
    [hora] (TEXT NOT NULL), [reassignment_reason] (TEXT) and
    [fecha_modificacion] (DATETIME).  [tabla_citas] keeps the rows as a
    [gmap] from id to row, with the table's AUTOINCREMENT counter.

    Each appointment route issues one statement; this file holds, per
    route, the guard and the statement with its callback:
    - [POST /api/appointments] (201-233): [crear_cita];
    - [GET /api/appointments/:id] (237-254): [ver_cita];
    - [PUT /api/appointments/:id] (255-288): [cambiar_cita];
    - [DELETE /api/appointments/:id] (289-305): [borrar_cita];
    - [PUT /api/appointments/:id/reassign] (307-338 and 341-372):
      [reasignar_cita].
    The routing of these requests, with the registrations that the
    DELETE handler makes, is in [Server] (the whole process) and [Citas]
    (appointment requests alone). *)

From S2P Require Import Prelude JsValue Store Sqlite.
From stdpp Require Import gmap.

(** The fields of [req.body] the routes read (lines 202, 257, 309). *)
Record cuerpo_cita : Type := mkCuerpoCita {
  cc_paciente : jval;        (* patient_id *)
  cc_clinica : jval;         (* clinica_id *)
  cc_fecha : jval;           (* fecha *)
  cc_hora : jval;            (* hora *)
  cc_motivo : jval           (* reassignmentReason *)
}.

#[export] Instance cuerpo_cita_eq_dec : EqDecision cuerpo_cita.
Proof. solve_decision. Defined.

(** A row of [Appointments] without its id; [ci_modificada] is the time
    [DATETIME('now')] gave, when a reassignment set it. *)
Record cita : Type := mkCita {
  ci_paciente : sqlval;
  ci_clinica : sqlval;
  ci_fecha : sqlval;
  ci_hora : sqlval;
  ci_motivo : sqlval;
  ci_modificada : option Z
}.

#[export] Instance cita_eq_dec : EqDecision cita.
Proof. solve_decision. Defined.

Record tabla_citas : Type := mkTablaCitas {
  citas : gmap nat cita;
  seq_citas : nat
}.

Inductive cuerpo_cita_resp : Type :=
| CError (msg : string)                         (* { error } *)
| CMensaje (msg : string)                       (* { message } *)
| CCreada (id : nat) (b : cuerpo_cita)          (* lines 220-230 *)
| CFila (id : nat) (c : cita)                   (* the row, line 252 *)
| CActualizada (id : string) (b : cuerpo_cita)  (* lines 275-285 *)
| CBorrada                                      (* lines 300-303 *)
| CReasignada (id : string) (clinica motivo : jval). (* lines 327-335 *)

Record resp_cita : Type := mkRespCita { rc_status : nat; rc_cuerpo : cuerpo_cita_resp }.

Definition faltan_datos : resp_cita := mkRespCita 400 (CError "Missing required fields").

Definition error_servidor (m : string) : resp_cita :=
  mkRespCita 500 (CError ("Server error: " +:+ m)).

(** ** The handlers *)

(** Lines 205 and 260: [!patient_id || !clinica_id || !fecha || !hora]. *)
Definition datos_cita (b : cuerpo_cita) : bool :=
  truthy (cc_paciente b) && truthy (cc_clinica b) && truthy (cc_fecha b) && truthy (cc_hora b).

(** The row the INSERT of line 211 stores. *)
Definition nueva_cita (b : cuerpo_cita) : cita :=
  mkCita (col_entera (cc_paciente b)) (col_entera (cc_clinica b))
         (col_texto (cc_fecha b)) (col_texto (cc_hora b)) SNull None.

(** The UPDATE of line 266 on a row. *)
Definition cita_cambiada (b : cuerpo_cita) (c : cita) : cita :=
  mkCita (col_entera (cc_paciente b)) (col_entera (cc_clinica b))
         (col_texto (cc_fecha b)) (col_texto (cc_hora b)) (ci_motivo c) (ci_modificada c).

(** The UPDATE of lines 318 and 352 on a row, at time [now]. *)
Definition cita_reasignada (b : cuerpo_cita) (now : Z) (c : cita) : cita :=
  mkCita (ci_paciente c) (col_entera (cc_clinica b)) (ci_fecha c) (ci_hora c)
         (col_texto (cc_motivo b)) (Some now).

(** [WHERE id = ?] with the route parameter. *)
Definition buscar_cita (q : string) (t : tabla_citas) : option (nat * cita) :=
  match clave_de_texto q with
  | Some i => (fun c => (i, c)) <$> citas t !! i
  | None => None
  end.

Definition cambiar_fila (q : string) (f : cita -> cita) (t : tabla_citas) : tabla_citas :=
  match clave_de_texto q with
  | Some i => mkTablaCitas (alter f i (citas t)) (seq_citas t)
  | None => t
  end.

(** [POST /api/appointments], lines 201-233. *)
Definition crear_cita (err : option string) (b : cuerpo_cita) (t : tabla_citas)
    : tabla_citas * resp_cita :=
  if negb (datos_cita b) then (t, faltan_datos)
  else match err with
  | Some m => (t, error_servidor m)
  | None =>
      let id := S (seq_citas t) in
      (mkTablaCitas (<[id := nueva_cita b]> (citas t)) id, mkRespCita 200 (CCreada id b))
  end.

(** [GET /api/appointments/:id], lines 237-254. *)
Definition ver_cita (err : option string) (q : string) (t : tabla_citas) : resp_cita :=
  match err with
  | Some m => error_servidor m
  | None =>
      match buscar_cita q t with
      | None => mkRespCita 404 (CMensaje "Appointment not found")
      | Some (i, c) => mkRespCita 200 (CFila i c)
      end
  end.

(** [PUT /api/appointments/:id], lines 255-288. *)
Definition cambiar_cita (err : option string) (q : string) (b : cuerpo_cita) (t : tabla_citas)
    : tabla_citas * resp_cita :=
  if negb (datos_cita b) then (t, faltan_datos)
  else match err with
  | Some m => (t, error_servidor m)
  | None => (cambiar_fila q (cita_cambiada b) t, mkRespCita 200 (CActualizada q b))
  end.

(** [DELETE /api/appointments/:id], lines 289-305. *)
Definition borrar_cita (err : option string) (q : string) (t : tabla_citas)
    : tabla_citas * resp_cita :=
  match err with
  | Some m => (t, error_servidor m)
  | None =>
      (match clave_de_texto q with
       | Some i => mkTablaCitas (delete i (citas t)) (seq_citas t)
       | None => t
       end, mkRespCita 200 CBorrada)
  end.

(** [PUT /api/appointments/:id/reassign], lines 307-338 (and the copy at
    341-372). *)
Definition reasignar_cita (err : option string) (q : string) (b : cuerpo_cita) (now : Z)
    (t : tabla_citas) : tabla_citas * resp_cita :=
  if negb (truthy (cc_clinica b) && truthy (cc_motivo b)) then (t, faltan_datos)
  else match err with
  | Some m => (t, error_servidor m)
  | None =>
      (cambiar_fila q (cita_reasignada b now) t,
       mkRespCita 200 (CReasignada q (cc_clinica b) (cc_motivo b)))
  end.

Definition citas_vacia : tabla_citas := mkTablaCitas ∅ 0.

(** ** Lemmas on the table *)

Lemma buscar_cita_js i t : buscar_cita (js_string_of_nat i) t = (fun c => (i, c)) <$> citas t !! i.
Proof. unfold buscar_cita. by rewrite clave_de_texto_js. Qed.

Lemma buscar_cita_Some q t i c :
  buscar_cita q t = Some (i, c) -> clave_de_texto q = Some i /\ citas t !! i = Some c.
Proof.
  unfold buscar_cita. destruct (clave_de_texto q) as [j|]; [|done].
  destruct (citas t !! j) eqn:E; simpl; [|done]. by intros [= -> ->].
Qed.

Lemma cambiar_fila_None q f t : buscar_cita q t = None -> cambiar_fila q f t = t.
Proof.
  unfold buscar_cita, cambiar_fila. destruct (clave_de_texto q) as [i|]; [|done].
  destruct (citas t !! i) eqn:E; [done|]. intros _. destruct t as [m n]; simpl in *.
  f_equal. apply map_eq. intros j. rewrite lookup_alter. case_decide; subst; [by rewrite E|done].
Qed.

Lemma cambiar_fila_Some q f t i c :
  buscar_cita q t = Some (i, c) ->
  citas (cambiar_fila q f t) = <[i := f c]> (citas t) /\ seq_citas (cambiar_fila q f t) = seq_citas t.
Proof.
  intros H. apply buscar_cita_Some in H as [Hq Hc]. unfold cambiar_fila. rewrite Hq. simpl.
  split; [|done]. apply map_eq. intros j. rewrite lookup_alter, lookup_insert.
  case_decide; subst; [by rewrite Hc|done].
Qed.

Lemma borrar_cita_None q t : buscar_cita q t = None -> borrar_cita None q t = (t, mkRespCita 200 CBorrada).
Proof.
  unfold buscar_cita, borrar_cita. destruct (clave_de_texto q) as [i|]; [|done].
  destruct t as [m n]. simpl. destruct (m !! i) eqn:E; [done|]. intros _. first [by rewrite delete_id | done].
Qed.

