(* ===== verification/Db.v ===== *)
(** * The SQLite database: tables [Turnos] and [Clinicas]

    [db] is the content of the database file [database.db] that the
    routes of the queue use: the rows of [Turnos] in rowid order with the
    AUTOINCREMENT counter of the table (its [sqlite_sequence] entry), and
    the rows of [Clinicas] (lines 35-40) with theirs.  No route deletes a
    ticket, so the counter is the largest id ever given.

    [db_store] is the instance of the TicketStore interface and
    [db_laws] proves its laws under [db_wf] (every id is at most the
    counter).  [inicializar] is the start-up code of lines 76-85 that
    seeds the four clinics of an empty table. *)

From S2P Require Import Prelude JsValue Turno Store.

Record clinica : Type := mkClinica {
  clinica_pk : nat;
  clinica_nombre : string;
  clinica_descripcion : string;
  clinica_color : string
}.

#[export] Instance clinica_eq_dec : EqDecision clinica.
Proof. solve_decision. Defined.

Record db : Type := mkDb {
  db_turnos : list turno;
  db_seq_turnos : nat;
  db_clinicas : list clinica;
  db_seq_clinicas : nat
}.

(** [INSERT INTO Turnos ...]: AUTOINCREMENT gives the counter plus one,
    which is [this.lastID]. *)
Definition db_insertar (d : nuevo_turno) (now : Z) (s : db) : db * nat :=
  let id := S (db_seq_turnos s) in
  ({| db_turnos := db_turnos s ++ [fila d id now];
      db_seq_turnos := id;
      db_clinicas := db_clinicas s;
      db_seq_clinicas := db_seq_clinicas s |}, id).

(** [UPDATE Turnos SET estado = e WHERE ...] *)
Definition db_actualizar (p : nat -> bool) (e : estado) (s : db) : db :=
  {| db_turnos := update_rows p e (db_turnos s);
     db_seq_turnos := db_seq_turnos s;
     db_clinicas := db_clinicas s;
     db_seq_clinicas := db_seq_clinicas s |}.

#[export] Instance db_store : TicketStore db := {|
  turnos := db_turnos;
  insertar_turno := db_insertar;
  actualizar_estado := db_actualizar
|}.

Definition db_wf (s : db) : Prop :=
  Forall (fun t => turno_id t <= db_seq_turnos s) (db_turnos s).

(** ** Start-up (lines 76-85)

    [SELECT COUNT( * ) FROM Clinicas]; when it is 0, one INSERT of four
    clinics with the default color of line 39.  When the count fails the
    callback reads [row.count] of [undefined], throws, and the exception
    handler of line 711 logs it: nothing is inserted. *)

Definition color_por_defecto : string := "#007bff".

Definition clinicas_semilla : list (string * string) :=
  [("Medicina General", "Consulta de medicina general");
   ("Pediatría", "Atención para niños");
   ("Ginecología", "Salud femenina");
   ("Traumatología", "Lesiones óseas y musculares")].

Fixpoint insertar_clinicas (seq : nat) (l : list (string * string)) : list clinica :=
  match l with
  | [] => []
  | (n, d) :: l' => mkClinica (S seq) n d color_por_defecto :: insertar_clinicas (S seq) l'
  end.

(** The callback of the count: with an error, [row] is [undefined] and
    [row.count] throws. *)
Definition contar_clinicas_cb (err : option string) (s : db) : resultado db :=
  match err with
  | Some _ => Lanza (error_undefined "count")
  | None =>
      Hecho (if Nat.eqb (length (db_clinicas s)) 0 then
        {| db_turnos := db_turnos s;
           db_seq_turnos := db_seq_turnos s;
           db_clinicas := insertar_clinicas (db_seq_clinicas s) clinicas_semilla;
           db_seq_clinicas := db_seq_clinicas s + length clinicas_semilla |}
      else s)
  end.

Definition inicializar (err : option string) (s : db) : db :=
  al_capturar s (contar_clinicas_cb err s).

(** A database file created for the first time. *)
Definition db_vacia : db := mkDb [] 0 [] 0.

(** ** The laws of the interface *)

Lemma db_insertar_wf d now s : db_wf s -> db_wf (db_insertar d now s).1.
Proof.
  unfold db_wf. intros H. simpl. apply Forall_app. split.
  - eapply Forall_impl; [exact H|]. simpl. lia.
  - constructor; [simpl; lia|constructor].
Qed.

Lemma db_insertar_fresh d now s :
  db_wf s -> Forall (fun t => turno_id t < (db_insertar d now s).2) (db_turnos s).
Proof. unfold db_wf. intros H. eapply Forall_impl; [exact H|]. simpl. lia. Qed.

Lemma db_actualizar_wf p e s : db_wf s -> db_wf (db_actualizar p e s).
Proof.
  unfold db_wf, db_actualizar, update_rows. simpl. rewrite Forall_fmap.
  intros H. eapply Forall_impl; [exact H|]. intros t. simpl. by destruct (p (turno_id t)).
Qed.

#[export] Instance db_laws : TicketStoreLaws db := {|
  store_wf := db_wf;
  insertar_turnos d now s _ := eq_refl;
  insertar_fresh := db_insertar_fresh;
  insertar_wf := db_insertar_wf;
  actualizar_turnos p e s := eq_refl;
  actualizar_wf := db_actualizar_wf
|}.

Lemma db_vacia_wf : db_wf db_vacia.
Proof. constructor. Qed.

Lemma inicializar_wf err s : db_wf s -> db_wf (inicializar err s).
Proof. unfold inicializar, contar_clinicas_cb, db_wf. destruct err; [done|]. by destruct (Nat.eqb _ 0). Qed.

Lemma inicializar_turnos err s : db_turnos (inicializar err s) = db_turnos s.
Proof. unfold inicializar, contar_clinicas_cb. destruct err; [done|]. by destruct (Nat.eqb _ 0). Qed.

(** Two tickets created in the same second and one a second earlier, in
    id order. *)
Definition db_empates : db :=
  mkDb [fila (mkNuevo (JStr "Ana") (JStr "A1") JUndefined (JNum 1) "T-001") 1 200;
        fila (mkNuevo (JStr "Beto") (JStr "B2") JUndefined (JNum 1) "T-002") 2 200;
        fila (mkNuevo (JStr "Ciro") (JStr "C3") JUndefined (JNum 1) "T-003") 3 199]
       3 [] 0.

Lemma primeros_en_orden_spec_witness :
  ids_crecientes (turnos db_empates) /\
  primeros_en Espera 2 db_empates =
    limit 2 (sort_by fecha_id_le (en_estado Espera (turnos db_empates))).
Proof.
  assert (H : ids_crecientes (turnos db_empates)).
  { vm_compute. repeat constructor; vm_compute; lia. }
  split; [exact H|]. apply (primeros_en_orden_spec Espera 2 db_empates H).
Defined.
