(* ===== verification/Engine.v ===== *)
(** * QueueEngine: the mutating routes of the ticket queue

    Each route handler of server.js is a chain of SQL statements linked by
    callbacks.  A request in progress is a [pendiente]: the statement it
    has issued and is waiting for, with the values its callback closes
    over.  [iniciar_*] is the synchronous part of a handler (its guards),
    [ejecutar] runs one statement and its callback, which either issues
    the next statement ([Sigue]) or answers ([Responde]).  Statements of
    different requests interleave in [Server]; [correr] runs one request
    alone, as when requests do not overlap.

    - [POST /api/turnos] (lines 376-421): [iniciar_crear], [CrearContar],
      [CrearInsertar].  After answering, the callback runs lines 422-552
      (the WebSocket server, the interval, the routes it registers again);
      [RespondeEInstala] hands that part to [Broadcast] and [Server].
    - [POST /api/turnos/llamar] (585-623): [LlamarBuscar], then
      [LlamarContar] or [LlamarActualizar].
    - [POST /api/turnos/finalizar/:id] (626-641) and
      [POST /api/turnos/ausente/:id] (644-659): one UPDATE each.

    The handlers are written against the [TicketStore] interface, and the
    theorems of this file hold for every store satisfying its laws. *)

From S2P Require Import Prelude JsValue Turno Store Db.

(** The fields of [req.body] read at line 380 ([prioridad] is read and
    never used). *)
Record cuerpo_turno : Type := mkCuerpo {
  b_nombre : jval;
  b_identificacion : jval;
  b_telefono : jval;
  b_clinica : jval;
  b_prioridad : jval
}.

(** The JSON bodies the queue routes answer with. *)
Inductive cuerpo_resp : Type :=
| BError (msg : string)                                   (* { error } *)
| BMessage (msg : string)                                 (* { message } *)
| BTurnoCreado (id : nat) (numero : string) (nombre clinica : jval)
| BLlamando (id : nat) (nombre clinica : jval) (numero : string)
| BSuccess (msg : string).                                (* { success, message } *)

Record respuesta : Type := mkResp { status : nat; cuerpo : cuerpo_resp }.

(** A statement issued and not yet run, with what its callback needs. *)
Inductive pendiente : Type :=
| CrearContar (b : cuerpo_turno)
| CrearInsertar (b : cuerpo_turno) (numero : string)
| LlamarBuscar
| LlamarContar
| LlamarActualizar (t : turno)
| FinalizarActualizar (p : string)
| AusenteActualizar (p : string).

Inductive salida : Type :=
| Sigue (p : pendiente)
| Responde (r : respuesta)
| RespondeEInstala (r : respuesta) (b : cuerpo_turno) (numero : string).
    (* the answer, then lines 422-552, whose routes close over the
       body's fields and the number *)

(** ** The synchronous parts *)

(** Lines 383-386: [if (!nombre || !identificacion || !clinica_id)]. *)
Definition datos_completos (b : cuerpo_turno) : bool :=
  truthy (b_nombre b) && truthy (b_identificacion b) && truthy (b_clinica b).

Definition iniciar_crear (b : cuerpo_turno) : salida :=
  if datos_completos b then Sigue (CrearContar b)
  else Responde (mkResp 400 (BError "Faltan datos requeridos")).

Definition iniciar_llamar : salida := Sigue LlamarBuscar.
Definition iniciar_finalizar (p : string) : salida := Sigue (FinalizarActualizar p).
Definition iniciar_ausente (p : string) : salida := Sigue (AusenteActualizar p).

(** The row bound by the INSERT of lines 399-402. *)
Definition nuevo_de (b : cuerpo_turno) (numero : string) : nuevo_turno :=
  mkNuevo (b_nombre b) (b_identificacion b) (b_telefono b) (b_clinica b) numero.

Section Ejecutar.
Context {St : Type} `{!TicketStore St}.

(** One statement and its callback.  [err] is the error the statement
    reports ([Some msg]) or [None]; a failed statement changes nothing.
    [now] is [CURRENT_TIMESTAMP].  One function per handler. *)

(** [POST /api/turnos], lines 389-421: the count, then the insert. *)
Definition ejecutar_crear (p : pendiente) (err : option string) (now : Z) (s : St)
    : St * salida :=
  match p, err with
  | CrearContar _, Some _ =>
      (s, Responde (mkResp 500 (BError "Error del servidor")))
  | CrearContar b, None =>
      (s, Sigue (CrearInsertar b (numero_de_conteo (contar s))))
  | CrearInsertar _ _, Some m =>
      (s, Responde (mkResp 500 (BError ("Error del servidor: " +:+ m))))
  | CrearInsertar b num, None =>
      let '(s', id) := insertar_turno (nuevo_de b num) now s in
      (s', RespondeEInstala (mkResp 200 (BTurnoCreado id num (b_nombre b) (b_clinica b))) b num)
  | _, _ => (s, Sigue p)
  end.

(** [POST /api/turnos/llamar], lines 587-622: the search, then the count
    (nobody waits) or the update (someone does). *)
Definition ejecutar_llamar (p : pendiente) (err : option string) (s : St)
    : St * salida :=
  match p, err with
  | LlamarBuscar, Some m =>
      (s, Responde (mkResp 500 (BError ("Error al buscar el siguiente turno: " +:+ m))))
  | LlamarBuscar, None =>
      match primero_en Espera s with
      | None => (s, Sigue LlamarContar)
      | Some t => (s, Sigue (LlamarActualizar t))
      end
  | LlamarContar, Some m =>
      (s, Responde (mkResp 500 (BError ("Error getting count of turnos: " +:+ m))))
  | LlamarContar, None =>
      (s, Responde (mkResp 404 (BMessage "No hay turnos en espera")))
  | LlamarActualizar _, Some m =>
      (s, Responde (mkResp 500
            (BError ("Error al actualizar el estado del turno: " +:+ m))))
  | LlamarActualizar t, None =>
      (actualizar_estado (Nat.eqb (turno_id t)) Atendiendo s,
       Responde (mkResp 200 (BLlamando (turno_id t) (paciente_nombre t)
                               (clinica_id t) (numero_turno t))))
  | _, _ => (s, Sigue p)
  end.

(** [POST /api/turnos/finalizar/:id], lines 630-640. *)
Definition ejecutar_finalizar (q : string) (err : option string) (s : St) : St * salida :=
  match err with
  | Some _ => (s, Responde (mkResp 500 (BError "Error al finalizar el turno")))
  | None =>
      (actualizar_estado (id_param_matches q) Finalizado s,
       Responde (mkResp 200 (BSuccess "Turno finalizado exitosamente")))
  end.

(** [POST /api/turnos/ausente/:id], lines 648-658. *)
Definition ejecutar_ausente (q : string) (err : option string) (s : St) : St * salida :=
  match err with
  | Some _ => (s, Responde (mkResp 500 (BError "Error al marcar ausente el turno")))
  | None =>
      (actualizar_estado (id_param_matches q) Ausente s,
       Responde (mkResp 200 (BSuccess "Turno marcado como ausente exitosamente")))
  end.

Definition ejecutar (p : pendiente) (err : option string) (now : Z) (s : St)
    : St * salida :=
  match p with
  | CrearContar _ | CrearInsertar _ _ => ejecutar_crear p err now s
  | LlamarBuscar | LlamarContar | LlamarActualizar _ => ejecutar_llamar p err s
  | FinalizarActualizar q => ejecutar_finalizar q err s
  | AusenteActualizar q => ejecutar_ausente q err s
  end.

(** A request running alone, every statement succeeding, at time [now];
    [fuel] bounds the number of statements.  The result is the final
    store, the answer, and whether lines 422-552 run afterwards. *)
Fixpoint correr (fuel : nat) (o : salida) (now : Z) (s : St)
    : option (St * respuesta * bool) :=
  match o with
  | Responde r => Some (s, r, false)
  | RespondeEInstala r _ _ => Some (s, r, true)
  | Sigue p =>
      match fuel with
      | 0 => None
      | S f => let '(s', o') := ejecutar p None now s in correr f o' now s'
      end
  end.
End Ejecutar.

(** How many statements a request still runs at most. *)
Definition rango (p : pendiente) : nat :=
  match p with
  | CrearContar _ | LlamarBuscar => 2
  | _ => 1
  end.

Definition rango_salida (o : salida) : nat :=
  match o with Sigue p => rango p | _ => 0 end.

(** A request of the queue as it reaches the engine. *)
Inductive peticion : Type :=
| PCrear (b : cuerpo_turno)
| PLlamar
| PFinalizar (q : string)
| PAusente (q : string).

Definition iniciar (r : peticion) : salida :=
  match r with
  | PCrear b => iniciar_crear b
  | PLlamar => iniciar_llamar
  | PFinalizar q => iniciar_finalizar q
  | PAusente q => iniciar_ausente q
  end.

Section Secuencial.
Context {St : Type} `{!TicketStore St}.

(** Requests that do not overlap: each runs alone to its answer, at
    its own time. *)
Fixpoint correr_secuencia (rs : list (peticion * Z)) (s : St) : St :=
  match rs with
  | [] => s
  | (r, now) :: rs' =>
      match correr 2 (iniciar r) now s with
      | Some (s', _, _) => correr_secuencia rs' s'
      | None => correr_secuencia rs' s
      end
  end.
End Secuencial.

(** ** Invariants and lemmas *)

Lemma ids_crecientes_snoc l t :
  ids_crecientes l -> Forall (fun u => turno_id u < turno_id t) l -> ids_crecientes (l ++ [t]).
Proof.
  unfold ids_crecientes. intros Hl Ht. induction Hl as [|x l Hl IH Hx]; simpl.
  - repeat constructor.
  - apply Forall_cons in Ht as [Hxt Ht]. constructor; [by apply IH|].
    apply Forall_app. split; [done|]. by repeat constructor.
Qed.

Lemma update_rows_idem p e l : update_rows p e (update_rows p e l) = update_rows p e l.
Proof.
  induction l as [|t l IH]; simpl; [done|]. rewrite IH.
  destruct (p (turno_id t)) eqn:E; simpl; rewrite ?E; done.
Qed.

Lemma update_rows_none p e l :
  Forall (fun t => p (turno_id t) = false) l -> update_rows p e l = l.
Proof. induction 1 as [|t l Ht _ IH]; simpl; [done|]. by rewrite Ht, IH. Qed.

Section Leyes.
Context {St : Type} `{HL : TicketStoreLaws St}.

(** The engine's invariant: the store is well formed and its scan is in
    increasing id order. *)
Definition cola_ok (s : St) : Prop := store_wf s /\ ids_crecientes (turnos s).

Lemma actualizar_cola_ok p e s : cola_ok s -> cola_ok (actualizar_estado p e s).
Proof.
  intros [Hw Hc]. split; [by apply actualizar_wf|].
  rewrite actualizar_turnos. by apply update_rows_crecientes.
Qed.

Lemma insertar_cola_ok d now s : cola_ok s -> cola_ok (insertar_turno d now s).1.
Proof.
  intros [Hw Hc]. split; [by apply insertar_wf|].
  rewrite insertar_turnos by done. apply ids_crecientes_snoc; [done|].
  by apply insertar_fresh.
Qed.

#[local] Hint Resolve actualizar_cola_ok insertar_cola_ok : queue.

Lemma ejecutar_cola_ok p err now s : cola_ok s -> cola_ok (ejecutar p err now s).1.
Proof.
  intros Hs. destruct p as [b|b numero| | |t|q|q], err; simpl; auto with queue.
  - destruct (insertar_turno (nuevo_de b numero) now s) as [s' id] eqn:E. simpl.
    replace s' with (insertar_turno (nuevo_de b numero) now s).1 by (by rewrite E).
    auto with queue.
  - by destruct (primero_en Espera s).
Qed.

Lemma ejecutar_rango p err now s :
  rango_salida (ejecutar p err now s).2 < rango p.
Proof.
  destruct p as [b|b numero| | |t|q|q], err; simpl; try lia.
  - destruct (insertar_turno (nuevo_de b numero) now s); simpl; lia.
  - destruct (primero_en Espera s); simpl; lia.
Qed.

(** C32 Termination: a request running alone answers within as many
    statements as its rank (at most two), whatever the store holds. *)
Theorem correr_responde fuel o now s :
  rango_salida o <= fuel -> is_Some (correr fuel o now s).
Proof.
  revert o s. induction fuel as [|f IH]; intros o s Hf.
  - destruct o as [p| |]; simpl in *; [|by eexists..].
    destruct p; simpl in Hf; lia.
  - destruct o as [p| |]; simpl; [|by eexists..].
    destruct (ejecutar p None now s) as [s' o'] eqn:E.
    apply IH. pose proof (ejecutar_rango p None now s) as Hr.
    rewrite E in Hr. simpl in *. lia.
Qed.

Lemma primero_en_min s t :
  ids_crecientes (turnos s) -> primero_en Espera s = Some t ->
  t ∈ turnos s /\ estado_turno t = Espera /\
  Forall (fun u => estado_turno u = Espera -> fecha_id_le t u = true) (turnos s).
Proof.
  intros Hc Ht. unfold primero_en, primeros_en in Ht.
  rewrite head_limit1 in Ht.
  destruct (head_por_fecha_min _ t (en_estado_crecientes Espera _ Hc) Ht) as [Hin Hmin].
  apply elem_of_en_estado in Hin as [Hin He].
  split; [done|split; [done|]].
  apply Forall_forall. intros u Hu Hue. rewrite Forall_forall in Hmin.
  apply Hmin, elem_of_en_estado. done.
Qed.

Lemma primero_en_None s :
  primero_en Espera s = None -> en_estado Espera (turnos s) = [].
Proof.
  unfold primero_en, primeros_en. rewrite head_limit1.
  intros H. destruct (en_estado Espera (turnos s)) as [|t l] eqn:E; [done|].
  exfalso. pose proof (por_fecha_perm (t :: l)) as Hp.
  destruct (por_fecha (t :: l)); [|done]. by apply Permutation_nil_cons in Hp.
Qed.

(** A waiting ticket that is least by (creation time, id) is the one the
    [LIMIT 1] query returns. *)
Lemma primero_en_minimo s t :
  ids_crecientes (turnos s) -> t ∈ turnos s -> estado_turno t = Espera ->
  Forall (fun u => estado_turno u = Espera -> fecha_id_le t u = true) (turnos s) ->
  primero_en Espera s = Some t.
Proof.
  intros Hc Ht He Hmin. destruct (primero_en Espera s) as [u|] eqn:E.
  - destruct (primero_en_min s u Hc E) as (Hu & Hue & Hmu). rewrite Forall_forall in Hmin, Hmu.
    destruct (fecha_id_le_antisym t u (Hmin u Hu Hue) (Hmu t Ht He)) as [_ Hid].
    f_equal. apply (NoDup_map_eq turno_id (turnos s)); [by apply StronglySorted_lt_NoDup|done..].
  - apply primero_en_None in E. assert (Hin : t ∈ en_estado Espera (turnos s)) by (by apply elem_of_en_estado).
    rewrite E in Hin. by apply elem_of_nil in Hin.
Qed.

(** The [LIMIT 2] query starts with the row of the [LIMIT 1] query. *)
Lemma primeros_en_2 e s t :
  primero_en e s = Some t -> exists l, primeros_en e 2 s = t :: l.
Proof.
  unfold primero_en, primeros_en, limit. destruct (por_fecha _) as [|u r]; [done|].
  intros [= ->]. by eexists.
Qed.

(** C2 Creating a ticket, on both branches of the guard of lines
    383-386: with a name, an identification and a clinic it inserts one
    row numbered from the current count (line 395) with a fresh id and
    answers 200, then runs lines 422-552; otherwise it answers 400 and
    leaves the store as it is. *)
Theorem crear_funcional b now s :
  store_wf s ->
  if datos_completos b then
    let num := numero_de_conteo (contar s) in
    let '(s', id) := insertar_turno (nuevo_de b num) now s in
    correr 2 (iniciar_crear b) now s =
      Some (s', mkResp 200 (BTurnoCreado id num (b_nombre b) (b_clinica b)), true) /\
    turnos s' = turnos s ++ [fila (nuevo_de b num) id now] /\
    Forall (fun t => turno_id t < id) (turnos s)
  else
    correr 2 (iniciar_crear b) now s =
      Some (s, mkResp 400 (BError "Faltan datos requeridos"), false).
Proof.
  intros Hw. unfold iniciar_crear. destruct (datos_completos b); [|done].
  cbn zeta. destruct (insertar_turno _ now s) as [s' id] eqn:E.
  pose proof (insertar_turnos (nuevo_de b (numero_de_conteo (contar s))) now s Hw) as Ht.
  pose proof (insertar_fresh (nuevo_de b (numero_de_conteo (contar s))) now s Hw) as Hf.
  rewrite E in Ht, Hf. simpl in Ht, Hf. simpl. rewrite E. done.
Qed.

(** C1 Calling the next patient when someone waits: the answer is 200
    with the waiting ticket that is least by (creation time, id), the
    spec's FIFO order, and that ticket is set to [atendiendo]. *)
Theorem llamar_fifo now s :
  cola_ok s -> en_estado Espera (turnos s) <> [] ->
  exists t,
    correr 2 iniciar_llamar now s =
      Some (actualizar_estado (Nat.eqb (turno_id t)) Atendiendo s,
            mkResp 200 (BLlamando (turno_id t) (paciente_nombre t)
                          (clinica_id t) (numero_turno t)), false) /\
    t ∈ turnos s /\ estado_turno t = Espera /\
    Forall (fun u => estado_turno u = Espera -> fecha_id_le t u = true) (turnos s).
Proof.
  intros [_ Hc] Hne. destruct (primero_en Espera s) as [t|] eqn:E.
  - exists t. split; [simpl; by rewrite E|]. by apply primero_en_min.
  - by apply primero_en_None in E.
Qed.

(** C15 Calling the next patient when nobody waits answers 404 and
    changes nothing. *)
Theorem llamar_vacia now s :
  en_estado Espera (turnos s) = [] ->
  correr 2 iniciar_llamar now s =
    Some (s, mkResp 404 (BMessage "No hay turnos en espera"), false).
Proof.
  intros H. simpl. unfold primero_en, primeros_en. rewrite H. done.
Qed.

(** C14 Finishing or marking absent an id that matches no ticket still
    answers 200 with the success message, and the table is unchanged:
    the routes never report a missing ticket. *)
Theorem marcar_sin_turno q now s :
  Forall (fun t => id_param_matches q (turno_id t) = false) (turnos s) ->
  (exists s', correr 1 (iniciar_finalizar q) now s =
     Some (s', mkResp 200 (BSuccess "Turno finalizado exitosamente"), false) /\
     turnos s' = turnos s) /\
  (exists s', correr 1 (iniciar_ausente q) now s =
     Some (s', mkResp 200 (BSuccess "Turno marcado como ausente exitosamente"), false) /\
     turnos s' = turnos s).
Proof.
  intros H. split; eexists; (split; [reflexivity|]);
    rewrite actualizar_turnos; by apply update_rows_none.
Qed.

(** C39 Finishing, or marking absent, twice is the same as once: the
    second request answers as the first and leaves the table as the
    first left it. *)
Theorem marcar_idempotente q now now' s :
  (turnos (actualizar_estado (id_param_matches q) Finalizado
             (actualizar_estado (id_param_matches q) Finalizado s)) =
   turnos (actualizar_estado (id_param_matches q) Finalizado s)) /\
  (turnos (actualizar_estado (id_param_matches q) Ausente
             (actualizar_estado (id_param_matches q) Ausente s)) =
   turnos (actualizar_estado (id_param_matches q) Ausente s)) /\
  correr 1 (iniciar_finalizar q) now s =
    Some (actualizar_estado (id_param_matches q) Finalizado s,
          mkResp 200 (BSuccess "Turno finalizado exitosamente"), false) /\
  correr 1 (iniciar_ausente q) now' s =
    Some (actualizar_estado (id_param_matches q) Ausente s,
          mkResp 200 (BSuccess "Turno marcado como ausente exitosamente"), false).
Proof.
  rewrite !actualizar_turnos, !update_rows_idem. done.
Qed.

(** ** Numbering when requests do not overlap

    [numeros_en_orden s]: the rows carry the numbers T-001, T-002, ...
    in scan order.  A [CrearInsertar] is [fresca] when the number it
    carries was computed from the current count. *)
Definition numeros_en_orden (s : St) : Prop :=
  map numero_turno (turnos s) = map numero_de_conteo (seq 0 (contar s)).

Definition fresca (o : salida) (s : St) : Prop :=
  match o with
  | Sigue (CrearInsertar _ num) => num = numero_de_conteo (contar s)
  | _ => True
  end.

Lemma actualizar_numeros p e s :
  numeros_en_orden s -> numeros_en_orden (actualizar_estado p e s).
Proof.
  unfold numeros_en_orden, contar. rewrite actualizar_turnos.
  autorewrite with queue_rw. done.
Qed.

Lemma insertar_numeros d now s :
  store_wf s -> numeros_en_orden s -> nt_numero d = numero_de_conteo (contar s) ->
  numeros_en_orden (insertar_turno d now s).1.
Proof.
  unfold numeros_en_orden, contar. intros Hw Hn Hd.
  rewrite insertar_turnos by done. rewrite length_app, seq_app, !map_app, Hn.
  simpl. by rewrite Hd.
Qed.

Lemma ejecutar_numeros p now s :
  cola_ok s -> numeros_en_orden s -> fresca (Sigue p) s ->
  numeros_en_orden (ejecutar p None now s).1 /\
  fresca (ejecutar p None now s).2 (ejecutar p None now s).1.
Proof.
  intros [Hw _] Hn Hf. destruct p as [b|b num| | |t|q|q]; simpl; try done.
  - destruct (insertar_turno (nuevo_de b num) now s) as [s' id] eqn:E. simpl.
    replace s' with (insertar_turno (nuevo_de b num) now s).1 by (by rewrite E).
    split; [|done]. by apply insertar_numeros.
  - destruct (primero_en Espera s); done.
  - split; [by apply actualizar_numeros|done].
  - split; [by apply actualizar_numeros|done].
  - split; [by apply actualizar_numeros|done].
Qed.

Lemma correr_numeros fuel o now s s' r b :
  cola_ok s -> numeros_en_orden s -> fresca o s ->
  correr fuel o now s = Some (s', r, b) -> cola_ok s' /\ numeros_en_orden s'.
Proof.
  revert o s. induction fuel as [|f IH]; intros o s Hc Hn Hf Hr.
  - destruct o as [p| |]; simpl in Hr; [congruence|injection Hr as <- _ _; done..].
  - destruct o as [p| |]; simpl in Hr; [|injection Hr as <- _ _; done..].
    destruct (ejecutar p None now s) as [s1 o1] eqn:E.
    pose proof (ejecutar_cola_ok p None now s Hc) as Hc1.
    pose proof (ejecutar_numeros p now s Hc Hn Hf) as [Hn1 Hf1].
    rewrite E in Hc1, Hn1, Hf1. eapply IH; eauto.
Qed.

Lemma secuencia_inv rs s :
  cola_ok s -> numeros_en_orden s ->
  cola_ok (correr_secuencia rs s) /\ numeros_en_orden (correr_secuencia rs s).
Proof.
  revert s. induction rs as [|[r now] rs IH]; intros s Hc Hn; cbn [correr_secuencia]; [done|].
  destruct (correr 2 (iniciar r) now s) as [[[s' resp] inst]|] eqn:E; [|by apply IH].
  assert (fresca (iniciar r) s) as Hf.
  { destruct r as [b| | |]; simpl; try done; unfold iniciar_crear; by repeat case_match. }
  destruct (correr_numeros 2 (iniciar r) now s s' resp inst Hc Hn Hf E). by apply IH.
Qed.

(** C3 Requests that do not overlap, started on an empty table, number
    the tickets T-001, T-002, ..., T-00N in creation order: the numbers
    are those of the counts 0 .. N-1, pairwise distinct, and read back
    as 1 .. N, whatever calls, finishes and absences come in between. *)
Theorem secuencia_numeros rs s0 :
  store_wf s0 -> turnos s0 = [] ->
  let s := correr_secuencia rs s0 in
  map numero_turno (turnos s) = map numero_de_conteo (seq 0 (contar s)) /\
  NoDup (map numero_turno (turnos s)) /\
  map parse_numero (map numero_turno (turnos s)) = map Some (seq 1 (contar s)).
Proof.
  intros Hw Hnil. cbn zeta.
  destruct (secuencia_inv rs s0) as [_ Hn].
  - split; [done|]. rewrite Hnil. constructor.
  - unfold numeros_en_orden, contar. by rewrite Hnil.
  - unfold numeros_en_orden in Hn. rewrite Hn. split; [done|]. split.
    + apply NoDup_map_inj; [apply numero_de_conteo_inj|apply NoDup_seq].
    + rewrite map_map, (map_ext _ (fun i => Some (S i))) by
        (intros; rewrite numero_de_conteo_parse; f_equal; lia).
      rewrite <- (map_map S Some), seq_shift. done.
Qed.
End Leyes.

(** ** Concrete runs on the SQLite tables (spec section 8) *)

Definition cuerpo_de (nombre ident : string) (clinica : Z) : cuerpo_turno :=
  mkCuerpo (JStr nombre) (JStr ident) JNull (JNum clinica) JUndefined.

Definition escenario : list (peticion * Z) :=
  [(PCrear (cuerpo_de "Alice" "ID1" 1), 100%Z);
   (PCrear (cuerpo_de "Bob" "ID2" 1), 100%Z);
   (PCrear (cuerpo_de "Carl" "ID3" 2), 101%Z)].

Definition db_escenario : db := correr_secuencia escenario db_vacia.

Example escenario_numeros :
  map (fun t => (numero_turno t, estado_turno t)) (db_turnos db_escenario) =
  [("T-001", Espera); ("T-002", Espera); ("T-003", Espera)].
Proof. vm_compute. reflexivity. Qed.

Example escenario_llamar_dos :
  match correr 2 iniciar_llamar 102 db_escenario with
  | Some (s1, r1, _) =>
      match correr 2 iniciar_llamar 103 s1 with
      | Some (_, r2, _) => Some (cuerpo r1, cuerpo r2)
      | None => None
      end
  | None => None
  end =
  Some (BLlamando 1 (JStr "Alice") (JNum 1) "T-001", BLlamando 2 (JStr "Bob") (JNum 1) "T-002").
Proof. vm_compute. reflexivity. Qed.

Lemma db_escenario_cola_ok : cola_ok db_escenario.
Proof.
  split.
  - apply (bool_decide_unpack (Forall (fun t => turno_id t <= db_seq_turnos db_escenario)
                                 (db_turnos db_escenario))).
    vm_compute. exact I.
  - apply (bool_decide_unpack (StronglySorted (fun a b => turno_id a < turno_id b)
                                 (db_turnos db_escenario))).
    vm_compute. exact I.
Qed.

Lemma correr_responde_witness :
  rango_salida iniciar_llamar <= 2 /\ is_Some (correr 2 iniciar_llamar 0 db_vacia).
Proof. split; [simpl; lia|]. apply (correr_responde 2 iniciar_llamar 0 db_vacia). simpl; lia. Defined.

Lemma crear_funcional_witness :
  store_wf db_vacia /\
  correr 2 (iniciar_crear (cuerpo_de "Alice" "ID1" 1)) 100 db_vacia =
    Some (fst (db_insertar (nuevo_de (cuerpo_de "Alice" "ID1" 1) "T-001") 100 db_vacia),
          mkResp 200 (BTurnoCreado 1 "T-001" (JStr "Alice") (JNum 1)), true).
Proof.
  assert (Hw : store_wf db_vacia) by (vm_compute; constructor).
  split; [exact Hw|].
  pose proof (crear_funcional (cuerpo_de "Alice" "ID1" 1) 100 db_vacia Hw) as H.
  vm_compute in H. destruct H as [H _]. vm_compute. exact H.
Defined.

Lemma llamar_fifo_witness :
  exists t,
    correr 2 iniciar_llamar 102 db_escenario =
      Some (actualizar_estado (Nat.eqb (turno_id t)) Atendiendo db_escenario,
            mkResp 200 (BLlamando (turno_id t) (paciente_nombre t)
                          (clinica_id t) (numero_turno t)), false) /\
    t ∈ turnos db_escenario /\ estado_turno t = Espera /\
    Forall (fun u => estado_turno u = Espera -> fecha_id_le t u = true) (turnos db_escenario).
Proof.
  apply llamar_fifo; [apply db_escenario_cola_ok|]. vm_compute. discriminate.
Defined.

Lemma llamar_vacia_witness :
  en_estado Espera (turnos db_vacia) = [] /\
  correr 2 iniciar_llamar 0 db_vacia =
    Some (db_vacia, mkResp 404 (BMessage "No hay turnos en espera"), false).
Proof. split; [reflexivity|]. apply llamar_vacia. reflexivity. Defined.

Lemma marcar_sin_turno_witness :
  Forall (fun t => id_param_matches "7" (turno_id t) = false) (turnos db_escenario) /\
  (exists s', correr 1 (iniciar_finalizar "7") 104 db_escenario =
     Some (s', mkResp 200 (BSuccess "Turno finalizado exitosamente"), false) /\
     turnos s' = turnos db_escenario).
Proof.
  assert (Forall (fun t => id_param_matches "7" (turno_id t) = false) (turnos db_escenario)) as H
    by (vm_compute; repeat constructor).
  split; [exact H|]. apply (marcar_sin_turno "7" 104 db_escenario H).
Defined.

Lemma secuencia_numeros_witness :
  store_wf db_vacia /\ turnos db_vacia = [] /\
  NoDup (map numero_turno (turnos (correr_secuencia escenario db_vacia))).
Proof.
  split; [vm_compute; constructor|]. split; [reflexivity|].
  apply (secuencia_numeros escenario db_vacia); [vm_compute; constructor|reflexivity].
Defined.
