(* ===== verification/Vivacidad.v ===== *)
(** * Liveness of the call route

    Successive [POST /api/turnos/llamar] requests (lines 585-623), each
    running alone, answer in turn; [contestar_secuencia] is
    [correr_secuencia] of [Engine] keeping the answers.  A waiting ticket
    is called within as many calls as there are waiting tickets: each
    call that does not call it calls another waiting ticket, and the
    number of waiting tickets goes down by one.  The statement uses an
    inductive "eventually" over the list of answers, and is proved for
    every store satisfying the [TicketStore] laws. *)

From S2P Require Import Prelude JsValue Turno Store Db Engine.

Section Contestar.
Context {St : Type} `{!TicketStore St}.

(** The answers of requests that do not overlap, in order. *)
Fixpoint contestar_secuencia (rs : list (peticion * Z)) (s : St) : list respuesta :=
  match rs with
  | [] => []
  | (r, now) :: rs' =>
      match correr 2 (iniciar r) now s with
      | Some (s', a, _) => a :: contestar_secuencia rs' s'
      | None => contestar_secuencia rs' s
      end
  end.
End Contestar.

(** [P] holds of some element of the list. *)
Inductive eventualmente {A} (P : A -> Prop) : list A -> Prop :=
| ev_ahora a l : P a -> eventualmente P (a :: l)
| ev_despues a l : eventualmente P l -> eventualmente P (a :: l).

#[export] Hint Constructors eventualmente : queue.

(** The answer that calls ticket [t] (lines 612-617). *)
Definition llama (t : turno) (r : respuesta) : Prop :=
  r = mkResp 200 (BLlamando (turno_id t) (paciente_nombre t) (clinica_id t) (numero_turno t)).

(** ** Lemmas *)

Lemma en_estado_update_lt u l :
  u ∈ l -> estado_turno u = Espera ->
  length (en_estado Espera (update_rows (Nat.eqb (turno_id u)) Atendiendo l)) <
  length (en_estado Espera l).
Proof.
  unfold en_estado, update_rows.
  assert (Hle : forall l', length (filter (fun t => estado_turno t = Espera)
                  (map (fun t => if Nat.eqb (turno_id u) (turno_id t) then set_estado Atendiendo t else t) l'))
                <= length (filter (fun t => estado_turno t = Espera) l')).
  { induction l' as [|x l' IH]; [done|]. cbn [map]. rewrite !filter_cons.
    destruct (Nat.eqb _ _); rewrite ?set_estado_estado; repeat case_decide; simpl; try congruence; lia. }
  induction l as [|x l IH]; intros Hu He; [by apply elem_of_nil in Hu|].
  apply elem_of_cons in Hu as [->|Hu].
  - cbn [map]. rewrite Nat.eqb_refl, !filter_cons, set_estado_estado.
    repeat case_decide; try done. simpl. specialize (Hle l). lia.
  - cbn [map]. rewrite !filter_cons. specialize (IH Hu He).
    destruct (Nat.eqb _ _); rewrite ?set_estado_estado; repeat case_decide; simpl; try congruence; lia.
Qed.

Lemma update_rows_sigue_espera u t l :
  t ∈ l -> turno_id t <> turno_id u -> t ∈ update_rows (Nat.eqb (turno_id u)) Atendiendo l.
Proof.
  intros Ht Hne. apply elem_of_update_rows. exists t. split; [done|].
  by rewrite (proj2 (Nat.eqb_neq _ _) (not_eq_sym Hne)).
Qed.

Section Vivacidad.
Context {St : Type} `{HL : TicketStoreLaws St}.

(** C5 Liveness of calls: on a well-formed store whose scan is in id
    order, a waiting ticket is called by one of the next [m] calls that
    run alone, as soon as [m] is at least the number of waiting tickets:
    no ticket waits for ever while calls keep coming. *)
Theorem llamada_eventual m now s t :
  cola_ok s -> t ∈ turnos s -> estado_turno t = Espera ->
  length (en_estado Espera (turnos s)) <= m ->
  eventualmente (llama t) (contestar_secuencia (repeat (PLlamar, now) m) s).
Proof.
  revert s. induction m as [|m IH]; intros s Hs Ht He Hm.
  { assert (t ∈ en_estado Espera (turnos s)) as Hin by (by apply elem_of_en_estado).
    destruct (en_estado Espera (turnos s)); [by apply elem_of_nil in Hin|simpl in Hm; lia]. }
  destruct (primero_en Espera s) as [u|] eqn:E.
  2:{ apply primero_en_None in E. exfalso.
      assert (t ∈ en_estado Espera (turnos s)) as Hin by (by apply elem_of_en_estado).
      rewrite E in Hin. by apply elem_of_nil in Hin. }
  destruct (primero_en_min s u (proj2 Hs) E) as (Hu & Hue & _).
  cbn [repeat contestar_secuencia iniciar correr iniciar_llamar ejecutar ejecutar_llamar].
  rewrite E. cbn [correr].
  destruct (decide (turno_id t = turno_id u)) as [Hid|Hid].
  - assert (t = u) as -> by (apply (NoDup_map_eq turno_id (turnos s)); [apply StronglySorted_lt_NoDup, Hs|done..]).
    by apply ev_ahora.
  - apply ev_despues, IH.
    + by apply actualizar_cola_ok.
    + rewrite actualizar_turnos. by apply update_rows_sigue_espera.
    + done.
    + rewrite actualizar_turnos. pose proof (en_estado_update_lt u (turnos s) Hu Hue). lia.
Qed.
End Vivacidad.

(** The last of three waiting tickets is called by the third call. *)
Lemma llamada_eventual_witness :
  let t := mkTurno 3 (JStr "Carl") (JStr "ID3") JNull (JNum 2) "T-003" Espera 101 in
  cola_ok db_escenario /\ t ∈ turnos db_escenario /\ estado_turno t = Espera /\
  eventualmente (llama t)
    (contestar_secuencia (repeat (PLlamar, 104%Z) (length (en_estado Espera (turnos db_escenario))))
       db_escenario).
Proof.
  intros t. assert (Ht : t ∈ turnos db_escenario) by (apply (bool_decide_unpack _); vm_compute; reflexivity).
  split; [exact db_escenario_cola_ok|]. split; [exact Ht|]. split; [reflexivity|].
  exact (llamada_eventual _ 104 db_escenario t db_escenario_cola_ok Ht eq_refl (le_n _)).
Defined.
