(* ===== verification/Snapshot.v ===== *)
(** * QuerySnapshot: the read-only views of the queue

    - [GET /api/turnos] (lines 559-582) and [sendQueueUpdates] (lines
      436-450) run the same query: the waiting tickets joined with their
      clinic ([INNER JOIN Clinicas c ON t.clinica_id = c.id]), ordered by
      [fecha_creacion].  [lista_espera] is that query, [obtener_turnos]
      the route.
    - [GET /api/pacientes] (lines 678-709) runs two statements: the oldest
      ticket being served, then the first two waiting tickets (no join).
      Its phases are [PacientesActual] and [PacientesProximos], so that the
      statements of other requests can run between them ([Server]).

    The views read the concrete tables of [Db]: the clinics are not part
    of the TicketStore interface. *)

From S2P Require Import Prelude JsValue Turno Store Db Engine.

(** A row of the join (the columns selected at lines 437-445). *)
Record vista_turno : Type := mkVista {
  v_id : nat;
  v_numero : string;
  v_estado : estado;
  v_fecha : Z;
  v_nombre : jval;
  v_identificacion : jval;
  v_clinica_nombre : string;
  v_color : string
}.

#[export] Instance vista_turno_eq_dec : EqDecision vista_turno.
Proof. solve_decision. Defined.

Definition vista (t : turno) (c : clinica) : vista_turno :=
  mkVista (turno_id t) (numero_turno t) (estado_turno t) (fecha_creacion t)
          (paciente_nombre t) (paciente_identificacion t)
          (clinica_nombre c) (clinica_color c).

(** [t.clinica_id = c.id]: the stored value, with INTEGER affinity,
    equals the clinic's id. *)
Definition misma_clinica (t : turno) (c : clinica) : bool :=
  bool_decide (sql_int (clinica_id t) = Some (clinica_pk c)).

(** The inner join in scan order of [Turnos], each ticket with every
    clinic that matches it. *)
Definition unir (l : list turno) (cs : list clinica) : list (turno * clinica) :=
  l ≫= (fun t => (fun c => (t, c)) <$> filter (fun c => misma_clinica t c = true) cs).

Definition par_fecha_le (a b : turno * clinica) : bool := fecha_le a.1 b.1.

(** The query of lines 560-573 (and 436-449). *)
Definition lista_espera (s : db) : list vista_turno :=
  (fun p => vista p.1 p.2) <$>
    sort_by par_fecha_le (unir (en_estado Espera (db_turnos s)) (db_clinicas s)).

(** ** The routes *)

Inductive cuerpo_snap : Type :=
| SError (msg : string)
| SLista (l : list vista_turno)
| SPacientes (actual : option (string * jval)) (proximos : list (string * jval)).

Record respuesta_snap : Type := mkRespSnap { s_status : nat; s_cuerpo : cuerpo_snap }.

(** [GET /api/turnos]: one statement. *)
Definition obtener_turnos (err : option string) (s : db) : respuesta_snap :=
  match err with
  | Some _ => mkRespSnap 500 (SError "Error del servidor")
  | None => mkRespSnap 200 (SLista (lista_espera s))
  end.

(** [GET /api/pacientes]: the first statement has run when the phase is
    [PacientesProximos] with its result. *)
Inductive pendiente_snap : Type :=
| PacientesActual
| PacientesProximos (actual : option turno).

Inductive salida_snap : Type :=
| SigueSnap (p : pendiente_snap)
| RespondeSnap (r : respuesta_snap).

Definition numero_nombre (t : turno) : string * jval := (numero_turno t, paciente_nombre t).

Definition ejecutar_pacientes (p : pendiente_snap) (err : option string) (s : db) : salida_snap :=
  match p, err with
  | PacientesActual, Some _ =>
      RespondeSnap (mkRespSnap 500 (SError "Error al buscar el paciente actual"))
  | PacientesActual, None => SigueSnap (PacientesProximos (primero_en Atendiendo s))
  | PacientesProximos _, Some _ =>
      RespondeSnap (mkRespSnap 500 (SError "Error al buscar los próximos pacientes"))
  | PacientesProximos a, None =>
      RespondeSnap (mkRespSnap 200 (SPacientes (numero_nombre <$> a)
                                              (numero_nombre <$> primeros_en Espera 2 s)))
  end.

(** The display when both statements see the same tables. *)
Definition pacientes (s : db) : cuerpo_snap :=
  SPacientes (numero_nombre <$> primero_en Atendiendo s)
             (numero_nombre <$> primeros_en Espera 2 s).

(** ** Lemmas on the join *)

Lemma elem_of_unir p l cs :
  p ∈ unir l cs <-> p.1 ∈ l /\ p.2 ∈ cs /\ misma_clinica p.1 p.2 = true.
Proof.
  destruct p as [t c]. unfold unir. rewrite list_elem_of_bind.
  setoid_rewrite list_elem_of_fmap. setoid_rewrite list_elem_of_filter. naive_solver.
Qed.

Lemma unir_cons t l cs :
  unir (t :: l) cs = ((fun c => (t, c)) <$> filter (fun c => misma_clinica t c = true) cs) ++ unir l cs.
Proof. done. Qed.

Lemma unir_sorted l cs :
  ids_crecientes l -> StronglySorted (fun a b => turno_id a.1 <= turno_id b.1) (unir l cs).
Proof.
  induction 1 as [|t l Hl IH Ht]; [constructor|]. rewrite unir_cons.
  apply StronglySorted_app_2; [|clear IH|done].
  - intros [t1 c1] [t2 c2] H1 H2. rewrite list_elem_of_fmap in H1.
    destruct H1 as (c & [= -> ->] & _). apply elem_of_unir in H2 as (H2 & _).
    rewrite Forall_forall in Ht. simpl in *. specialize (Ht t2 H2). lia.
  - induction (filter _ cs) as [|c cs' IHc]; simpl; constructor; [done|].
    apply Forall_forall. intros p Hp. apply list_elem_of_fmap in Hp as (? & -> & _). done.
Qed.

Lemma par_fecha_le_total a b : par_fecha_le a b = false -> par_fecha_le b a = true.
Proof. unfold par_fecha_le. apply fecha_le_total. Qed.

Lemma par_fecha_le_trans a b c :
  par_fecha_le a b = true -> par_fecha_le b c = true -> par_fecha_le a c = true.
Proof. unfold par_fecha_le. intros H1 H2. eapply fecha_le_trans; eassumption. Qed.

(** ** The waiting list *)

(** C12 The waiting list holds exactly the tickets in state [espera] whose
    clinic exists, each joined with that clinic: a ticket leaves the list
    as soon as it leaves [espera]. *)
Theorem lista_espera_miembros s v :
  v ∈ lista_espera s <->
  exists t c, t ∈ db_turnos s /\ estado_turno t = Espera /\ c ∈ db_clinicas s /\
              misma_clinica t c = true /\ v = vista t c.
Proof.
  unfold lista_espera. rewrite list_elem_of_fmap. setoid_rewrite elem_of_sort_by.
  setoid_rewrite elem_of_unir. setoid_rewrite elem_of_en_estado.
  split.
  - intros ([t c] & -> & [Ht He] & Hc & Hm). exists t, c. naive_solver.
  - intros (t & c & Ht & He & Hc & Hm & ->). exists (t, c). naive_solver.
Qed.

(** C10 The waiting list is in the spec's order: by creation time, and by
    id among tickets created in the same second, whenever the table scan
    is in id order. *)
Theorem lista_espera_ordenada s :
  ids_crecientes (db_turnos s) ->
  StronglySorted (fun a b => (v_fecha a < v_fecha b)%Z \/
                             (v_fecha a = v_fecha b /\ v_id a <= v_id b))
                 (lista_espera s).
Proof.
  intros Hc. unfold lista_espera.
  apply StronglySorted_fmap with
    (R1 := lex_rel par_fecha_le (fun a b => turno_id a.1 <= turno_id b.1)).
  - intros [t1 c1] [t2 c2]. unfold lex_rel, par_fecha_le, fecha_le. simpl.
    case_tests; intros [H1 H2]; try done; [right; split; [lia|by apply H2]|left; lia].
  - apply sort_by_sorted_lex; [apply par_fecha_le_total|apply par_fecha_le_trans|].
    apply unir_sorted. by apply en_estado_crecientes.
Qed.

(** ** The display view *)

(** C35 When both of its statements succeed and no statement runs
    between them, [GET /api/pacientes] first passes the result of the
    first query to the second callback and then answers 200 with the
    ticket being served that is least by (creation time, id) and the
    first two waiting tickets in that order: the display view of the
    spec, read over the id-ordered table. *)
Theorem pacientes_orden_spec s :
  ids_crecientes (db_turnos s) ->
  exists p,
    ejecutar_pacientes PacientesActual None s = SigueSnap p /\
    ejecutar_pacientes p None s =
      RespondeSnap (mkRespSnap 200
        (SPacientes
          (numero_nombre <$> head (sort_by fecha_id_le (en_estado Atendiendo (db_turnos s))))
          (numero_nombre <$> limit 2 (sort_by fecha_id_le (en_estado Espera (db_turnos s)))))).
Proof.
  intros Hc. eexists. split; [reflexivity|]. cbn [ejecutar_pacientes].
  unfold primero_en, primeros_en. rewrite head_limit1. simpl.
  rewrite !por_fecha_orden by (by apply en_estado_crecientes). done.
Qed.

(** ** A ticket of an unknown clinic *)

(** The clinics are seeded at start-up; a ticket is created for clinic
    99, which does not exist (line 383 only tests that [clinica_id] is
    truthy, and nothing checks it against [Clinicas]). *)
Definition db_clinica_desconocida : db :=
  correr_secuencia [(PCrear (cuerpo_de "Dana" "ID4" 99), 200%Z)] (inicializar None db_vacia).

(** C37 A waiting ticket whose clinic matches no row of [Clinicas]
    never appears in the waiting list of [GET /api/turnos] (and of the
    broadcasts); yet when it is the waiting ticket least by (creation
    time, id), the display of [GET /api/pacientes] shows it as next and
    [llamar] calls it, answering 200 and setting it to [atendiendo]. *)
Theorem turno_sin_clinica s t now :
  cola_ok s -> t ∈ db_turnos s -> estado_turno t = Espera ->
  Forall (fun c => misma_clinica t c = false) (db_clinicas s) ->
  Forall (fun v => v_id v <> turno_id t) (lista_espera s) /\
  (Forall (fun u => estado_turno u = Espera -> fecha_id_le t u = true) (db_turnos s) ->
   (exists l, pacientes s = SPacientes (numero_nombre <$> primero_en Atendiendo s) (numero_nombre t :: l)) /\
   correr 2 iniciar_llamar now s =
     Some (actualizar_estado (Nat.eqb (turno_id t)) Atendiendo s,
           mkResp 200 (BLlamando (turno_id t) (paciente_nombre t) (clinica_id t) (numero_turno t)), false)).
Proof.
  intros [_ Hc] Ht He Hcl. split.
  - apply Forall_forall. intros v Hv Hid.
    apply lista_espera_miembros in Hv as (t' & c & Ht' & _ & Hc' & Hm & ->). cbn [v_id vista] in Hid.
    assert (t' = t) as -> by (apply (NoDup_map_eq turno_id (db_turnos s)); [by apply StronglySorted_lt_NoDup|done..]).
    rewrite Forall_forall in Hcl. by rewrite (Hcl c Hc') in Hm.
  - intros Hmin. pose proof (primero_en_minimo s t Hc Ht He Hmin) as E. split.
    + destruct (primeros_en_2 Espera s t E) as [l Hl]. exists (numero_nombre <$> l). unfold pacientes. by rewrite Hl.
    + simpl. by rewrite E.
Qed.

Lemma lista_espera_ordenada_witness :
  ids_crecientes (db_turnos db_escenario) /\
  StronglySorted (fun a b => (v_fecha a < v_fecha b)%Z \/
                             (v_fecha a = v_fecha b /\ v_id a <= v_id b))
                 (lista_espera db_escenario).
Proof.
  assert (H : ids_crecientes (db_turnos db_escenario)) by apply db_escenario_cola_ok.
  split; [exact H|]. apply lista_espera_ordenada. exact H.
Defined.

Lemma pacientes_orden_spec_witness :
  ids_crecientes (db_turnos db_escenario) /\
  exists p,
    ejecutar_pacientes PacientesActual None db_escenario = SigueSnap p /\
    ejecutar_pacientes p None db_escenario =
      RespondeSnap (mkRespSnap 200
        (SPacientes
          (numero_nombre <$> head (sort_by fecha_id_le (en_estado Atendiendo (db_turnos db_escenario))))
          (numero_nombre <$> limit 2 (sort_by fecha_id_le (en_estado Espera (db_turnos db_escenario)))))).
Proof.
  assert (H : ids_crecientes (db_turnos db_escenario)) by apply db_escenario_cola_ok.
  split; [exact H|]. apply (pacientes_orden_spec db_escenario H).
Defined.

(** Dana's ticket, for clinic 99, in the store after its creation. *)
Definition turno_dana : turno := mkTurno 1 (JStr "Dana") (JStr "ID4") JNull (JNum 99) "T-001" Espera 200.

Lemma turno_sin_clinica_witness :
  cola_ok db_clinica_desconocida /\ turno_dana ∈ db_turnos db_clinica_desconocida /\
  estado_turno turno_dana = Espera /\
  Forall (fun c => misma_clinica turno_dana c = false) (db_clinicas db_clinica_desconocida) /\
  Forall (fun v => v_id v <> turno_id turno_dana) (lista_espera db_clinica_desconocida) /\
  Forall (fun u => estado_turno u = Espera -> fecha_id_le turno_dana u = true)
         (db_turnos db_clinica_desconocida) /\
  ((exists l, pacientes db_clinica_desconocida =
                SPacientes (numero_nombre <$> primero_en Atendiendo db_clinica_desconocida)
                           (numero_nombre turno_dana :: l)) /\
   correr 2 iniciar_llamar 300 db_clinica_desconocida =
     Some (actualizar_estado (Nat.eqb (turno_id turno_dana)) Atendiendo db_clinica_desconocida,
           mkResp 200 (BLlamando (turno_id turno_dana) (paciente_nombre turno_dana)
                         (clinica_id turno_dana) (numero_turno turno_dana)), false)).
Proof.
  assert (Hok : cola_ok db_clinica_desconocida).
  { split.
    - apply (bool_decide_unpack (Forall (fun t => turno_id t <= db_seq_turnos db_clinica_desconocida)
                                   (db_turnos db_clinica_desconocida))). vm_compute. exact I.
    - apply (bool_decide_unpack (StronglySorted (fun a b => turno_id a < turno_id b)
                                   (db_turnos db_clinica_desconocida))). vm_compute. exact I. }
  assert (Ht : turno_dana ∈ db_turnos db_clinica_desconocida)
    by (apply (bool_decide_unpack _); vm_compute; exact I).
  assert (He : estado_turno turno_dana = Espera) by (vm_compute; reflexivity).
  assert (Hcl : Forall (fun c => misma_clinica turno_dana c = false) (db_clinicas db_clinica_desconocida))
    by (apply (bool_decide_unpack _); vm_compute; exact I).
  assert (Hmin : Forall (fun u => estado_turno u = Espera -> fecha_id_le turno_dana u = true)
                        (db_turnos db_clinica_desconocida)).
  { apply Forall_forall. intros u Hu _. apply list_elem_of_singleton in Hu as ->. reflexivity. }
  destruct (turno_sin_clinica db_clinica_desconocida turno_dana 300 Hok Ht He Hcl) as [H1 H2].
  do 4 (split; [assumption|]). split; [exact H1|]. split; [exact Hmin|]. exact (H2 Hmin).
Defined.
