(* ===== verification/Broadcast.v ===== *)
(** * Broadcaster and PushScheduler: WebSocket pushes of the waiting list

    The code that pushes the queue to the displays is inside the callback
    of the ticket insert (lines 422-465): every successful [POST
    /api/turnos] runs [new WebSocket.Server({ port: 8080 })], registers
    its connection handler, defines [sendQueueUpdates] over that server
    and calls [setInterval(sendQueueUpdates, 5000)].

    [push] keeps every server object created, in creation order, every
    interval with the server its [sendQueueUpdates] closes over, and the
    messages sent.  Only the first server can listen: a later one finds
    port 8080 taken, emits an [error] event that nothing handles, and the
    exception handler of line 711 logs it; that server never accepts a
    connection.  [instalar] is lines 422-465, [conectar], [empezar_cierre]
    and [cerrar] the life of a client (lines 428-432 and the [ws]
    library), [enviar_cola] the body of [sendQueueUpdates]
    (lines 435-462). *)

From S2P Require Import Prelude JsValue Turno Store Db Engine Snapshot.

Inductive ready_state : Type := Connecting | Open | Closing | Closed.

#[export] Instance ready_state_eq_dec : EqDecision ready_state.
Proof. solve_decision. Defined.

Record cliente : Type := mkCliente { cliente_id : nat; cliente_estado : ready_state }.

Record servidor_ws : Type := mkServidor {
  ws_escuchando : bool;
  ws_clientes : list cliente    (* wss.clients, in connection order *)
}.

(** [{ type: 'queue_update', queue: turnos }] (line 458). *)
Inductive mensaje : Type := QueueUpdate (cola : list vista_turno).

Record envio : Type := mkEnvio { e_servidor : nat; e_cliente : nat; e_mensaje : mensaje }.

Record push : Type := mkPush {
  servidores : list servidor_ws;
  intervalos : list nat;
  enviados : list envio
}.

Definition push_inicial : push := mkPush [] [] [].

(** Lines 425-432 and 465: a new server, which listens only when no
    earlier one does, and an interval bound to it. *)
Definition instalar (p : push) : push :=
  let escucha := negb (existsb ws_escuchando (servidores p)) in
  mkPush (servidores p ++ [mkServidor escucha []])
         (intervalos p ++ [length (servidores p)])
         (enviados p).

(** Apply [f] to server [k], when it exists. *)
Definition cambiar_servidor (k : nat) (f : servidor_ws -> servidor_ws) (p : push) : push :=
  mkPush (alter f k (servidores p)) (intervalos p) (enviados p).

(** Line 428: a display connects to server [k]; only a listening server
    accepts connections. *)
Definition conectar (k cid : nat) (p : push) : push :=
  cambiar_servidor k (fun w =>
    if ws_escuchando w then mkServidor true (ws_clientes w ++ [mkCliente cid Open]) else w) p.

(** The closing handshake starts: the client is still in [wss.clients]
    but no longer [OPEN]. *)
Definition empezar_cierre (k cid : nat) (p : push) : push :=
  cambiar_servidor k (fun w =>
    mkServidor (ws_escuchando w)
      ((fun c => if Nat.eqb (cliente_id c) cid then mkCliente cid Closing else c)
         <$> ws_clientes w)) p.

(** Line 431: the connection is closed and [ws] removes the client. *)
Definition cerrar (k cid : nat) (p : push) : push :=
  cambiar_servidor k (fun w =>
    mkServidor (ws_escuchando w)
      (filter (fun c => cliente_id c <> cid) (ws_clientes w))) p.

(** Lines 435-462 for the server [k]: the query (line 436), then one
    message to every client whose [readyState] is [OPEN] (lines 456-460);
    when the query fails the error is logged and nothing is sent. *)
Definition enviar_cola (k : nat) (err : option string) (s : db) (p : push) : push :=
  match err with
  | Some _ => p
  | None =>
      let clientes := default [] (ws_clientes <$> servidores p !! k) in
      mkPush (servidores p) (intervalos p)
        (enviados p ++
           ((fun c => mkEnvio k (cliente_id c) (QueueUpdate (lista_espera s)))
              <$> filter (fun c => cliente_estado c = Open) clientes))
  end.

(** The [i]-th interval fires. *)
Definition disparar (i : nat) (err : option string) (s : db) (p : push) : push :=
  match intervalos p !! i with
  | Some k => enviar_cola k err s p
  | None => p
  end.

(** ** Invariant of the push machinery

    Server 0 listens as soon as it exists, no other server listens, a
    server that does not listen has no client, and interval [i] is bound
    to server [i]. *)
Definition push_ok (p : push) : Prop :=
  (forall k w, servidores p !! k = Some w -> ws_escuchando w = true <-> k = 0) /\
  (forall k w, servidores p !! k = Some w -> ws_escuchando w = false -> ws_clientes w = []) /\
  intervalos p = seq 0 (length (servidores p)).

Lemma push_inicial_ok : push_ok push_inicial.
Proof. split; [|split]; [intros k w Hk; done..|done]. Qed.

Lemma existsb_escucha_ok (p : push) :
  push_ok p -> existsb ws_escuchando (servidores p) = bool_decide (servidores p <> []).
Proof.
  intros [Hl _]. destruct (servidores p) as [|w ws] eqn:E; [done|].
  rewrite bool_decide_eq_true_2 by done. simpl.
  assert (ws_escuchando w = true) as -> by (apply (proj2 (Hl 0 w ltac:(rewrite ?E; done))); done). done.
Qed.

Lemma instalar_ok p : push_ok p -> push_ok (instalar p).
Proof.
  intros Hp. pose proof (existsb_escucha_ok p Hp) as Hx.
  destruct Hp as (Hl & Hc & Hi). unfold instalar. rewrite Hx.
  split; [|split]; simpl.
  - intros k w Hk. apply lookup_app_Some in Hk as [Hk|[Hlen Hk]].
    + by apply Hl.
    + apply list_lookup_singleton_Some in Hk as [Hk <-]. simpl.
      assert (k = length (servidores p)) as -> by lia.
      destruct (servidores p) as [|w0 ws]; simpl.
      * done.
      * split; [done|lia].
  - intros k w Hk. apply lookup_app_Some in Hk as [Hk|[Hlen Hk]].
    + by apply (Hc k).
    + by apply list_lookup_singleton_Some in Hk as [_ <-].
  - by rewrite Hi, length_app, seq_app.
Qed.

Lemma cambiar_servidor_ok k f p :
  push_ok p ->
  (forall w, ws_escuchando (f w) = ws_escuchando w) ->
  (forall w, ws_escuchando w = false -> ws_clientes w = [] -> ws_clientes (f w) = []) ->
  push_ok (cambiar_servidor k f p).
Proof.
  intros (Hl & Hc & Hi) Hf1 Hf2. unfold cambiar_servidor. split; [|split]; simpl.
  - intros j w Hj. destruct (decide (k = j)) as [->|Hne].
    + rewrite list_lookup_alter_eq in Hj. destruct (servidores p !! j) as [w0|] eqn:E; simpl in Hj; [|done].
      injection Hj as <-. rewrite Hf1. by apply (Hl j).
    + rewrite list_lookup_alter_ne in Hj by done. by apply Hl.
  - intros j w Hj Hw. destruct (decide (k = j)) as [->|Hne].
    + rewrite list_lookup_alter_eq in Hj. destruct (servidores p !! j) as [w0|] eqn:E; simpl in Hj; [|done].
      injection Hj as <-. rewrite Hf1 in Hw. apply Hf2; [done|]. by apply (Hc j).
    + rewrite list_lookup_alter_ne in Hj by done. by apply (Hc j).
  - by rewrite length_alter.
Qed.

Lemma conectar_ok k cid p : push_ok p -> push_ok (conectar k cid p).
Proof.
  intros Hp. apply cambiar_servidor_ok; [done| |].
  - intros w. by destruct (ws_escuchando w) eqn:E.
  - intros w Hw Hc. by rewrite Hw.
Qed.

Lemma empezar_cierre_ok k cid p : push_ok p -> push_ok (empezar_cierre k cid p).
Proof. intros Hp. apply cambiar_servidor_ok; [done|done|]. intros w _ Hc. simpl. by rewrite Hc. Qed.

Lemma cerrar_ok k cid p : push_ok p -> push_ok (cerrar k cid p).
Proof. intros Hp. apply cambiar_servidor_ok; [done|done|]. intros w _ Hc. simpl. by rewrite Hc. Qed.

Lemma enviar_cola_ok k err s p : push_ok p -> push_ok (enviar_cola k err s p).
Proof. unfold enviar_cola. by destruct err. Qed.

Lemma disparar_ok i err s p : push_ok p -> push_ok (disparar i err s p).
Proof. unfold disparar. destruct (intervalos p !! i); [apply enviar_cola_ok|done]. Qed.

#[export] Hint Resolve instalar_ok conectar_ok empezar_cierre_ok cerrar_ok
  enviar_cola_ok disparar_ok push_inicial_ok : queue.

(** Every interval fires once, in creation order (timers due at the same
    time run in the order they were set). *)
Definition ronda (err : option string) (s : db) (p : push) : push :=
  fold_left (fun q i => disparar i err s q) (seq 0 (length (intervalos p))) p.

(** The message every open client of server [k] gets from one run of
    [sendQueueUpdates]. *)
Definition mensajes_a (k : nat) (s : db) (w : servidor_ws) : list envio :=
  (fun c => mkEnvio k (cliente_id c) (QueueUpdate (lista_espera s)))
    <$> filter (fun c => cliente_estado c = Open) (ws_clientes w).

Lemma enviar_cola_campos k err s p :
  servidores (enviar_cola k err s p) = servidores p /\
  intervalos (enviar_cola k err s p) = intervalos p.
Proof. unfold enviar_cola. by destruct err. Qed.

Lemma disparar_campos i err s p :
  servidores (disparar i err s p) = servidores p /\
  intervalos (disparar i err s p) = intervalos p.
Proof. unfold disparar. destruct (intervalos p !! i); [apply enviar_cola_campos|done]. Qed.

(** An interval other than the first sends nothing: its server does not
    listen and has no client. *)
Lemma disparar_silencio i err s p :
  push_ok p -> 0 < i -> disparar i err s p = p.
Proof.
  intros (Hl & Hc & Hi) Hpos. unfold disparar. rewrite Hi.
  destruct (seq 0 (length (servidores p)) !! i) as [k|] eqn:E; [|done].
  apply lookup_seq in E as [Hk Hlt]. simpl in Hk. subst k.
  unfold enviar_cola. destruct err; [done|].
  destruct (servidores p !! i) as [w|] eqn:Ew.
  - assert (ws_escuchando w = false) as Hw.
    { destruct (ws_escuchando w) eqn:Hw; [|done]. apply (Hl i w Ew) in Hw. lia. }
    simpl. rewrite (Hc i w Ew Hw). simpl. rewrite app_nil_r.
    destruct p as [sv iv ev]; simpl in *. by rewrite Hi.
  - apply lookup_ge_None in Ew. lia.
Qed.

Lemma fold_disparar_silencio l err s p :
  push_ok p -> Forall (fun i => 0 < i) l ->
  fold_left (fun q i => disparar i err s q) l p = p.
Proof.
  intros Hp Hl. induction Hl as [|i l Hi Hl IH]; simpl; [done|].
  by rewrite disparar_silencio.
Qed.

(** C30 However many intervals successive ticket creations have installed,
    one round in which every interval fires sends each display connected
    and [OPEN] exactly one [queue_update], carrying the waiting list of
    that instant, and nothing to the others. *)
Theorem ronda_un_mensaje s p w0 :
  push_ok p -> servidores p !! 0 = Some w0 ->
  enviados (ronda None s p) = enviados p ++ mensajes_a 0 s w0.
Proof.
  intros Hp Hw0. unfold ronda. pose proof Hp as (_ & _ & Hi). rewrite Hi.
  destruct (servidores p) as [|w ws] eqn:E; [done|]. simpl in Hw0. injection Hw0 as <-.
  cbn [length seq fold_left].
  rewrite fold_disparar_silencio.
  - unfold disparar. rewrite Hi. simpl. rewrite E. done.
  - by apply disparar_ok.
  - apply Forall_forall. intros i Hin. apply elem_of_seq in Hin. lia.
Qed.

(** Two ticket creations installed two servers; a display connected to
    the first. *)
Definition push_demo : push := conectar 0 7 (instalar (instalar push_inicial)).

Lemma ronda_un_mensaje_witness :
  push_ok push_demo /\ servidores push_demo !! 0 = Some (mkServidor true [mkCliente 7 Open]) /\
  enviados (ronda None db_escenario push_demo) =
    [mkEnvio 0 7 (QueueUpdate (lista_espera db_escenario))].
Proof.
  assert (H1 : push_ok push_demo) by (unfold push_demo; auto with queue).
  assert (H2 : servidores push_demo !! 0 = Some (mkServidor true [mkCliente 7 Open]))
    by reflexivity.
  split; [exact H1|]. split; [exact H2|].
  apply (ronda_un_mensaje db_escenario push_demo _ H1 H2).
Defined.
