(* ===== verification/Server.v ===== *)
(** * The server: routing, concurrent requests, timers and displays

    [mundo] is the whole state of the process: the database, the push
    machinery of [Broadcast], the Express routing table, the clock, the
    requests in progress (each waiting for its next SQL statement) and the
    answers sent.  An [evento] is one thing that happens: a request
    arrives and runs its synchronous part, one SQL statement of a request
    in progress runs with its callback, the clock advances, an interval
    fires, a display connects or disconnects.  [aplicar] is executable;
    [paso] is the step relation and [alcanzable] its reflexive transitive
    closure from [inicio].  The statements of different requests
    interleave in every order, which is how Node runs them: a callback
    only issues the next statement, and other requests' statements may run
    before it.

    Routing (lines 106-119 and the [app.*] calls): the table lists the
    routes in registration order and a request goes to the first route
    whose method and path match ([coincide] is Express's path matching);
    [authenticateToken] answers 401 or 403 or passes on.  The successful
    create callback appends four routes (lines 469-552) every time it
    runs, and every DELETE of an appointment appends the reassign route
    twice (lines 307 and 341).  The appointment routes ([Agenda]) and the
    re-registered handlers are events of the world: the re-registered
    create handler inserts and then runs [sendQueueUpdates] (lines
    469-495), the other three throw a [ReferenceError] (they use
    variables their scope does not define), which Express answers with
    500.  The theorems show that the re-registered routes are never
    reached.  [GET /], login, register, the clinic list and the medical
    data are modelled in [Usuarios] and [Arranque]; they change no table
    of this world and are not events of it. *)

From S2P Require Import Prelude JsValue Turno Store Sqlite Agenda Db Engine Snapshot Broadcast.
From stdpp Require Import gmap.
Open Scope queue_scope.

(** ** Routing *)

Inductive metodo : Type := GET | POST | PUT | DELETE.

#[export] Instance metodo_eq_dec : EqDecision metodo.
Proof. solve_decision. Defined.

(** A path pattern segment: a literal or a parameter ([:id]). *)
Inductive segmento : Type := Lit (s : string) | Param.

#[export] Instance cuerpo_turno_eq_dec : EqDecision cuerpo_turno.
Proof. solve_decision. Defined.

(** The handlers of server.js, by the line of their registration.  The
    handler of line 469 closes over the body's fields and the number of
    the creation that registered it, and over its WebSocket server [k]. *)
Inductive manejador : Type :=
| HRaiz                (* 122 *)
| HLogin               (* 127 *)
| HRegister            (* 157 *)
| HClinics             (* 190 *)
| HCrearCita           (* 201 *)
| HVerCita             (* 237 *)
| HCambiarCita         (* 255 *)
| HBorrarCita          (* 289 *)
| HReasignarCita       (* 307 and 341 *)
| HCrearTurno          (* 376 *)
| HCrearTurnoBis (k : nat) (b : cuerpo_turno) (numero : string)  (* 469 *)
| HListarTurnos        (* 559 *)
| HLlamar              (* 585 *)
| HLlamarBis           (* 500 *)
| HFinalizar           (* 626 *)
| HFinalizarBis        (* 519 *)
| HAusente             (* 644 *)
| HAusenteBis          (* 537 *)
| HMedicalData         (* 662 *)
| HPacientes.          (* 678 *)

#[export] Instance manejador_eq_dec : EqDecision manejador.
Proof. solve_decision. Defined.

#[export] Instance segmento_eq_dec : EqDecision segmento.
Proof. solve_decision. Defined.

Record ruta : Type := mkRuta {
  r_metodo : metodo;
  r_patron : list segmento;
  r_auth : bool;              (* authenticateToken runs first *)
  r_manejador : manejador
}.

#[export] Instance ruta_eq_dec : EqDecision ruta.
Proof. solve_decision. Defined.

Definition api (l : list segmento) : list segmento := Lit "api" :: l.

(** The routes registered when the module is loaded, in order. *)
Definition rutas_iniciales : list ruta :=
  [mkRuta GET [] false HRaiz;
   mkRuta POST (api [Lit "login"]) false HLogin;
   mkRuta POST (api [Lit "register"]) false HRegister;
   mkRuta GET (api [Lit "clinics"]) false HClinics;
   mkRuta POST (api [Lit "appointments"]) true HCrearCita;
   mkRuta GET (api [Lit "appointments"; Param]) true HVerCita;
   mkRuta PUT (api [Lit "appointments"; Param]) true HCambiarCita;
   mkRuta DELETE (api [Lit "appointments"; Param]) true HBorrarCita;
   mkRuta POST (api [Lit "turnos"]) true HCrearTurno;
   mkRuta GET (api [Lit "turnos"]) true HListarTurnos;
   mkRuta POST (api [Lit "turnos"; Lit "llamar"]) true HLlamar;
   mkRuta POST (api [Lit "turnos"; Lit "finalizar"; Param]) true HFinalizar;
   mkRuta POST (api [Lit "turnos"; Lit "ausente"; Param]) true HAusente;
   mkRuta GET (api [Lit "medical-data"]) false HMedicalData;
   mkRuta GET (api [Lit "pacientes"]) false HPacientes].

(** Lines 469-552: what every successful create callback registers. *)
Definition rutas_repetidas (k : nat) (b : cuerpo_turno) (numero : string) : list ruta :=
  [mkRuta POST (api [Lit "turnos"]) true (HCrearTurnoBis k b numero);
   mkRuta POST (api [Lit "turnos"; Lit "llamar"]) true HLlamarBis;
   mkRuta POST (api [Lit "turnos"; Lit "finalizar"; Param]) true HFinalizarBis;
   mkRuta POST (api [Lit "turnos"; Lit "ausente"; Param]) true HAusenteBis].

(** ASCII lower case; the [i] flag of the route's regular expression
    folds no other character onto an ASCII letter. *)
Definition minuscula (c : Ascii.ascii) : Ascii.ascii :=
  let n := Ascii.nat_of_ascii c in
  if (65 <=? n) && (n <=? 90) then Ascii.ascii_of_nat (n + 32) else c.

Fixpoint minusculas (s : string) : string :=
  match s with
  | EmptyString => EmptyString
  | String c r => String (minuscula c) (minusculas r)
  end.

(** path-to-regexp as Express 4 uses it: the pattern becomes
    [^\/seg\/seg\/?$] with the [i] flag, so a literal segment matches
    ignoring ASCII case, a parameter [([^\/]+?)] matches a non-empty
    segment, and one trailing slash (a last empty segment) is allowed.
    A path is the list of the segments between the slashes of the URL
    path, so ["/api/turnos/"] is [["api"; "turnos"; ""]]. *)
Fixpoint coincide (pat : list segmento) (path : list string) : bool :=
  match pat, path with
  | [], [] => true
  | [], [b] => bool_decide (b = EmptyString)
  | Lit a :: pat', b :: path' => bool_decide (minusculas a = minusculas b) && coincide pat' path'
  | Param :: pat', b :: path' => negb (bool_decide (b = EmptyString)) && coincide pat' path'
  | _, _ => false
  end.

(** Express: the first route whose method and path match. *)
Definition despachar (rs : list ruta) (m : metodo) (path : list string) : option ruta :=
  List.find (fun r => bool_decide (r_metodo r = m) && coincide (r_patron r) path) rs.

(** The route of lines 307 and 341, registered by the DELETE handler. *)
Definition ruta_reasignar : ruta :=
  mkRuta PUT (api [Lit "appointments"; Param; Lit "reassign"]) true HReasignarCita.

(** [req.params.id]: the segment of the path at the pattern's parameter. *)
Fixpoint parametro_de (pat : list segmento) (path : list string) : string :=
  match pat, path with
  | Param :: _, x :: _ => x
  | Lit _ :: pat', _ :: path' => parametro_de pat' path'
  | _, _ => EmptyString
  end.

(** Case, a trailing slash and an empty parameter. *)
Example despachar_formas :
  despachar rutas_iniciales POST ["API"; "Turnos"; "Llamar"; ""] =
    Some (mkRuta POST (api [Lit "turnos"; Lit "llamar"]) true HLlamar) /\
  despachar rutas_iniciales GET [""] = Some (mkRuta GET [] false HRaiz) /\
  despachar rutas_iniciales POST ["api"; "turnos"; "finalizar"; ""] = None /\
  despachar rutas_iniciales POST ["api"; "turnos"; ""; ""] = None.
Proof. vm_compute. repeat split. Qed.

(** ** Requests, answers and the state of the process *)

(** What [jwt.verify] makes of the [Authorization] header. *)
Inductive autorizacion : Type := SinToken | TokenInvalido | TokenValido.

#[export] Instance autorizacion_eq_dec : EqDecision autorizacion.
Proof. solve_decision. Defined.

Record peticion_http : Type := mkPeticion {
  h_metodo : metodo;
  h_ruta : list string;            (* the path, split at '/' *)
  h_auth : autorizacion;
  h_cuerpo : cuerpo_turno;        (* the body, as the queue routes read it *)
  h_cita : cuerpo_cita             (* the body, as the appointment routes read it *)
}.

(** The statement of an appointment route (lines 210, 241, 265, 292,
    317/351). *)
Inductive op_cita : Type :=
| OCrear (b : cuerpo_cita)
| OVer (q : string)
| OCambiar (q : string) (b : cuerpo_cita)
| OBorrar (q : string)
| OReasignar (q : string) (b : cuerpo_cita).

(** The statement runs with its outcome [err] at time [now]. *)
Definition ejecutar_cita (o : op_cita) (err : option string) (now : Z) (t : tabla_citas)
    : tabla_citas * resp_cita :=
  match o with
  | OCrear b => crear_cita err b t
  | OVer q => (t, ver_cita err q t)
  | OCambiar q b => cambiar_cita err q b t
  | OBorrar q => borrar_cita err q t
  | OReasignar q b => reasignar_cita err q b now t
  end.

(** A request in progress: the statement it waits for. *)
Inductive en_curso : Type :=
| EnCola (p : pendiente)            (* a QueueEngine handler *)
| EnLista                           (* GET /api/turnos *)
| EnPacientes (p : pendiente_snap)  (* GET /api/pacientes *)
| EnCita (o : op_cita)              (* an appointment route *)
| EnColaBis (k : nat) (p : pendiente) (* the INSERT of line 471 *)
| EnvioBis (k : nat).               (* its sendQueueUpdates, line 495 *)

Inductive respuesta_http : Type :=
| RCola (r : respuesta)
| RSnap (r : respuesta_snap)
| RCita (r : resp_cita)
| RAuth (status : nat)              (* 401 'Token requerido', 403 'Token inválido' *)
| RExcepcion (msg : string)         (* Express's 500 for a handler that throws *)
| RNoEncontrada.                    (* Express's 404 for an unknown route *)

Record mundo : Type := mkMundo {
  m_db : db;
  m_push : push;
  m_rutas : list ruta;
  m_reloj : Z;
  m_curso : gmap nat en_curso;
  m_respuestas : list (nat * respuesta_http);
  m_citas : tabla_citas
}.

(** After start-up (lines 23-103) on a new file: the tables exist, the
    clinics are seeded, there is no appointment, the routes are
    registered, nothing is pushed yet. *)
Definition inicio (s : db) (reloj : Z) : mundo :=
  mkMundo s push_inicial rutas_iniciales reloj ∅ [] citas_vacia.

Inductive evento : Type :=
| ELlega (rid : nat) (req : peticion_http)
| EEjecuta (rid : nat) (err : option string)
| EReloj (d : Z)
| EDispara (i : nat) (err : option string)
| EConecta (k cid : nat)
| EEmpiezaCierre (k cid : nat)
| ECierra (k cid : nat).

Definition con_db (s : db) (w : mundo) : mundo :=
  mkMundo s (m_push w) (m_rutas w) (m_reloj w) (m_curso w) (m_respuestas w) (m_citas w).

Definition con_citas (t : tabla_citas) (w : mundo) : mundo :=
  mkMundo (m_db w) (m_push w) (m_rutas w) (m_reloj w) (m_curso w) (m_respuestas w) t.

Definition con_rutas (rs : list ruta) (w : mundo) : mundo :=
  mkMundo (m_db w) (m_push w) rs (m_reloj w) (m_curso w) (m_respuestas w) (m_citas w).

Definition con_push (p : push) (w : mundo) : mundo :=
  mkMundo (m_db w) p (m_rutas w) (m_reloj w) (m_curso w) (m_respuestas w) (m_citas w).

Definition responder (rid : nat) (r : respuesta_http) (w : mundo) : mundo :=
  mkMundo (m_db w) (m_push w) (m_rutas w) (m_reloj w) (m_curso w) (m_respuestas w ++ [(rid, r)])
          (m_citas w).

Definition esperar (rid : nat) (c : en_curso) (w : mundo) : mundo :=
  mkMundo (m_db w) (m_push w) (m_rutas w) (m_reloj w) (<[rid := c]> (m_curso w)) (m_respuestas w)
          (m_citas w).

(** What follows a QueueEngine callback: the next statement, the answer,
    or the answer and lines 422-552 (a server, an interval, four routes). *)
Definition seguir (rid : nat) (o : salida) (w : mundo) : mundo :=
  match o with
  | Sigue p => esperar rid (EnCola p) w
  | Responde r => responder rid (RCola r) w
  | RespondeEInstala r b num =>
      let w' := responder rid (RCola r) w in
      mkMundo (m_db w') (instalar (m_push w'))
              (m_rutas w' ++ rutas_repetidas (length (servidores (m_push w'))) b num)
              (m_reloj w') (m_curso w') (m_respuestas w') (m_citas w')
  end.

(** What follows the INSERT of line 471 (lines 475-495): the answer, and
    on success the query of [sendQueueUpdates] for server [k]. *)
Definition seguir_bis (k : nat) (rid : nat) (o : salida) (w : mundo) : mundo :=
  match o with
  | RespondeEInstala r _ _ => esperar rid (EnvioBis k) (responder rid (RCola r) w)
  | _ => seguir rid o w
  end.

Definition seguir_snap (rid : nat) (o : salida_snap) (w : mundo) : mundo :=
  match o with
  | SigueSnap p => esperar rid (EnPacientes p) w
  | RespondeSnap r => responder rid (RSnap r) w
  end.

(** A request arrives: routing, [authenticateToken], and the synchronous
    part of the handler.  [None] when the handler is not modelled. *)
Definition llegar (rid : nat) (req : peticion_http) (w : mundo) : option mundo :=
  match despachar (m_rutas w) (h_metodo req) (h_ruta req) with
  | None => Some (responder rid RNoEncontrada w)
  | Some r =>
      match r_auth r, h_auth req with
      | true, SinToken => Some (responder rid (RAuth 401) w)
      | true, TokenInvalido => Some (responder rid (RAuth 403) w)
      | _, _ =>
          match r_manejador r with
          | HCrearTurno => Some (seguir rid (iniciar_crear (h_cuerpo req)) w)
          | HListarTurnos => Some (esperar rid EnLista w)
          | HLlamar => Some (seguir rid iniciar_llamar w)
          | HFinalizar => Some (seguir rid (iniciar_finalizar (parametro_de (r_patron r) (h_ruta req))) w)
          | HAusente => Some (seguir rid (iniciar_ausente (parametro_de (r_patron r) (h_ruta req))) w)
          | HPacientes => Some (esperar rid (EnPacientes PacientesActual) w)
          | HCrearCita =>
              if datos_cita (h_cita req) then Some (esperar rid (EnCita (OCrear (h_cita req))) w)
              else Some (responder rid (RCita faltan_datos) w)
          | HVerCita => Some (esperar rid (EnCita (OVer (parametro_de (r_patron r) (h_ruta req)))) w)
          | HCambiarCita =>
              if datos_cita (h_cita req)
              then Some (esperar rid (EnCita (OCambiar (parametro_de (r_patron r) (h_ruta req)) (h_cita req))) w)
              else Some (responder rid (RCita faltan_datos) w)
          | HBorrarCita =>
              Some (con_rutas (m_rutas w ++ [ruta_reasignar; ruta_reasignar])
                      (esperar rid (EnCita (OBorrar (parametro_de (r_patron r) (h_ruta req)))) w))
          | HReasignarCita =>
              if truthy (cc_clinica (h_cita req)) && truthy (cc_motivo (h_cita req))
              then Some (esperar rid (EnCita (OReasignar (parametro_de (r_patron r) (h_ruta req))
                                                         (h_cita req))) w)
              else Some (responder rid (RCita faltan_datos) w)
          | HCrearTurnoBis k b num => Some (esperar rid (EnColaBis k (CrearInsertar b num)) w)
          | HLlamarBis => Some (responder rid (RExcepcion "ReferenceError: turno is not defined") w)
          | HFinalizarBis | HAusenteBis =>
              Some (responder rid (RExcepcion "ReferenceError: turnoId is not defined") w)
          | HRaiz | HLogin | HRegister | HClinics | HMedicalData => None
          end
      end
  end.

(** One SQL statement of request [rid] runs, with its callback. *)
Definition ejecutar_peticion (rid : nat) (err : option string) (w : mundo) : option mundo :=
  match m_curso w !! rid with
  | None => None
  | Some c =>
      let w0 := mkMundo (m_db w) (m_push w) (m_rutas w) (m_reloj w)
                        (delete rid (m_curso w)) (m_respuestas w) (m_citas w) in
      match c with
      | EnCola p =>
          let '(s', o) := ejecutar p err (m_reloj w) (m_db w) in
          Some (seguir rid o (con_db s' w0))
      | EnLista => Some (responder rid (RSnap (obtener_turnos err (m_db w))) w0)
      | EnPacientes p => Some (seguir_snap rid (ejecutar_pacientes p err (m_db w)) w0)
      | EnCita o =>
          let '(t', r) := ejecutar_cita o err (m_reloj w) (m_citas w) in
          Some (responder rid (RCita r) (con_citas t' w0))
      | EnColaBis k p =>
          let '(s', o) := ejecutar p err (m_reloj w) (m_db w) in
          Some (seguir_bis k rid o (con_db s' w0))
      | EnvioBis k => Some (con_push (enviar_cola k err (m_db w) (m_push w)) w0)
      end
  end.

Definition nuevo_rid (rid : nat) (w : mundo) : bool :=
  bool_decide (m_curso w !! rid = None) && negb (bool_decide (rid ∈ (fst <$> m_respuestas w))).

Definition aplicar (e : evento) (w : mundo) : option mundo :=
  match e with
  | ELlega rid req => if nuevo_rid rid w then llegar rid req w else None
  | EEjecuta rid err => ejecutar_peticion rid err w
  | EReloj d =>
      if Z.leb 0 d then
        Some (mkMundo (m_db w) (m_push w) (m_rutas w) (m_reloj w + d) (m_curso w) (m_respuestas w)
                      (m_citas w))
      else None
  | EDispara i err => Some (con_push (disparar i err (m_db w) (m_push w)) w)
  | EConecta k cid => Some (con_push (conectar k cid (m_push w)) w)
  | EEmpiezaCierre k cid => Some (con_push (empezar_cierre k cid (m_push w)) w)
  | ECierra k cid => Some (con_push (cerrar k cid (m_push w)) w)
  end.

Definition paso (w w' : mundo) : Prop := exists e, aplicar e w = Some w'.

Definition alcanzable (w0 w : mundo) : Prop := rtc paso w0 w.

Notation "w ~~> w'" := (paso w w') (at level 70, no associativity) : queue_scope.
Notation "w0 ~~>* w" := (alcanzable w0 w) (at level 70, no associativity) : queue_scope.

(** A run of events, stopping at the first that cannot happen. *)
Fixpoint traza (es : list evento) (w : mundo) : option mundo :=
  match es with
  | [] => Some w
  | e :: es' => match aplicar e w with Some w' => traza es' w' | None => None end
  end.

(** ** Runs *)

Lemma traza_alcanzable es w w' : traza es w = Some w' -> w ~~>* w'.
Proof.
  revert w. induction es as [|e es IH]; intros w H; simpl in H.
  - injection H as <-. apply rtc_refl.
  - destruct (aplicar e w) as [w1|] eqn:E; [|done].
    eapply rtc_l; [by exists e|]. by apply IH.
Qed.

Definition sin_cuerpo : cuerpo_turno := mkCuerpo JUndefined JUndefined JUndefined JUndefined JUndefined.
Definition sin_cita : cuerpo_cita := mkCuerpoCita JUndefined JUndefined JUndefined JUndefined JUndefined.

Definition pedir_crear (b : cuerpo_turno) : peticion_http :=
  mkPeticion POST ["api"; "turnos"] TokenValido b sin_cita.
Definition pedir_llamar : peticion_http :=
  mkPeticion POST ["api"; "turnos"; "llamar"] TokenValido sin_cuerpo sin_cita.
Definition pedir_finalizar (q : string) : peticion_http :=
  mkPeticion POST ["api"; "turnos"; "finalizar"; q] TokenValido sin_cuerpo sin_cita.
Definition pedir_ausente (q : string) : peticion_http :=
  mkPeticion POST ["api"; "turnos"; "ausente"; q] TokenValido sin_cuerpo sin_cita.
Definition pedir_pacientes : peticion_http :=
  mkPeticion GET ["api"; "pacientes"] SinToken sin_cuerpo sin_cita.

(** The process just started on a new database file. *)
Definition mundo_inicial : mundo := inicio (inicializar None db_vacia) 1000.

(** The state of the ticket with id [i]. *)
Definition estado_de (i : nat) (w : mundo) : option estado :=
  estado_turno <$> List.find (fun t => Nat.eqb (turno_id t) i) (db_turnos (m_db w)).

Definition alice : cuerpo_turno := cuerpo_de "Alice" "ID1" 1.
Definition bob : cuerpo_turno := cuerpo_de "Bob" "ID2" 1.

(** [rid] creates a ticket and runs alone to its answer. *)
Definition crear_solo (rid : nat) (b : cuerpo_turno) : list evento :=
  [ELlega rid (pedir_crear b); EEjecuta rid None; EEjecuta rid None].

(** ** Interleavings the code allows *)

(** C6 Two ticket creations whose statements interleave (both counts
    before either insert) give two tickets the same number: the
    read-then-write of lines 389-402 is not atomic. *)
Theorem numeros_duplicados :
  exists w, alcanzable mundo_inicial w /\
    map numero_turno (db_turnos (m_db w)) = ["T-001"; "T-001"].
Proof.
  set (es := [ELlega 1 (pedir_crear alice); ELlega 2 (pedir_crear bob);
              EEjecuta 1 None; EEjecuta 2 None; EEjecuta 1 None; EEjecuta 2 None]).
  destruct (traza es mundo_inicial) as [w|] eqn:E; [|vm_compute in E; discriminate].
  exists w. split; [by apply (traza_alcanzable es)|].
  vm_compute in E. injection E as <-. vm_compute. reflexivity.
Qed.

(** C7 Two calls whose searches both run before either update answer
    with the same ticket: two staff members are sent the same patient. *)
Theorem llamadas_duplicadas :
  exists w, alcanzable mundo_inicial w /\
    (2, RCola (mkResp 200 (BLlamando 1 (JStr "Alice") (JNum 1) "T-001"))) ∈ m_respuestas w /\
    (3, RCola (mkResp 200 (BLlamando 1 (JStr "Alice") (JNum 1) "T-001"))) ∈ m_respuestas w.
Proof.
  set (es := crear_solo 1 alice ++
             [ELlega 2 pedir_llamar; ELlega 3 pedir_llamar;
              EEjecuta 2 None; EEjecuta 3 None; EEjecuta 2 None; EEjecuta 3 None]).
  destruct (traza es mundo_inicial) as [w|] eqn:E; [|vm_compute in E; discriminate].
  exists w. split; [by apply (traza_alcanzable es)|].
  vm_compute in E. injection E as <-. vm_compute. split; repeat constructor.
Qed.

(** C13 The terminal states are not final: a ticket marked absent while a
    call that selected it is in flight becomes [atendiendo] again, and a
    finished ticket can be marked absent. *)
Theorem estados_terminales_no_finales :
  (exists w1 w2, alcanzable mundo_inicial w1 /\ paso w1 w2 /\
     estado_de 1 w1 = Some Ausente /\ estado_de 1 w2 = Some Atendiendo) /\
  (exists w1 w2, alcanzable mundo_inicial w1 /\ paso w1 w2 /\
     estado_de 1 w1 = Some Finalizado /\ estado_de 1 w2 = Some Ausente).
Proof.
  split.
  - set (es := crear_solo 1 alice ++
               [ELlega 2 pedir_llamar; EEjecuta 2 None;
                ELlega 3 (pedir_ausente "1"); EEjecuta 3 None]).
    destruct (traza es mundo_inicial) as [w1|] eqn:E; [|vm_compute in E; discriminate].
    destruct (aplicar (EEjecuta 2 None) w1) as [w2|] eqn:E2;
      [|vm_compute in E; injection E as <-; vm_compute in E2; discriminate].
    exists w1, w2. split; [by apply (traza_alcanzable es)|]. split; [by exists (EEjecuta 2 None)|].
    vm_compute in E. injection E as <-. vm_compute in E2. injection E2 as <-.
    vm_compute. split; reflexivity.
  - set (es := crear_solo 1 alice ++
               [ELlega 2 pedir_llamar; EEjecuta 2 None; EEjecuta 2 None;
                ELlega 3 (pedir_finalizar "1"); EEjecuta 3 None; ELlega 4 (pedir_ausente "1")]).
    destruct (traza es mundo_inicial) as [w1|] eqn:E; [|vm_compute in E; discriminate].
    destruct (aplicar (EEjecuta 4 None) w1) as [w2|] eqn:E2;
      [|vm_compute in E; injection E as <-; vm_compute in E2; discriminate].
    exists w1, w2. split; [by apply (traza_alcanzable es)|]. split; [by exists (EEjecuta 4 None)|].
    vm_compute in E. injection E as <-. vm_compute in E2. injection E2 as <-.
    vm_compute. split; reflexivity.
Qed.

(** C36 The display of [GET /api/pacientes] can show a state the queue was
    never in: a call that runs between its two queries makes the called
    patient appear neither as current nor as next. *)
Theorem pantalla_inconsistente :
  exists w, alcanzable mundo_inicial w /\
    (4, RSnap (mkRespSnap 200 (SPacientes None [("T-002", JStr "Bob")]))) ∈ m_respuestas w.
Proof.
  set (es := crear_solo 1 alice ++ crear_solo 2 bob ++
             [ELlega 4 pedir_pacientes; EEjecuta 4 None;
              ELlega 5 pedir_llamar; EEjecuta 5 None; EEjecuta 5 None; EEjecuta 4 None]).
  destruct (traza es mundo_inicial) as [w|] eqn:E; [|vm_compute in E; discriminate].
  exists w. split; [by apply (traza_alcanzable es)|].
  vm_compute in E. injection E as <-. vm_compute. repeat constructor.
Qed.

(** ** What one event changes *)

Lemma seguir_db rid o w : m_db (seguir rid o w) = m_db w.
Proof. by destruct o. Qed.
Lemma seguir_reloj rid o w : m_reloj (seguir rid o w) = m_reloj w.
Proof. by destruct o. Qed.
Lemma seguir_enviados rid o w : enviados (m_push (seguir rid o w)) = enviados (m_push w).
Proof. by destruct o. Qed.
Lemma seguir_snap_db rid o w : m_db (seguir_snap rid o w) = m_db w.
Proof. by destruct o. Qed.
Lemma seguir_snap_push rid o w : m_push (seguir_snap rid o w) = m_push w.
Proof. by destruct o. Qed.
Lemma seguir_snap_rutas rid o w : m_rutas (seguir_snap rid o w) = m_rutas w.
Proof. by destruct o. Qed.

#[export] Hint Rewrite seguir_db seguir_reloj seguir_enviados seguir_snap_db
  seguir_snap_push seguir_snap_rutas : queue_rw.

Lemma llegar_campos rid req w w' :
  llegar rid req w = Some w' ->
  m_db w' = m_db w /\ enviados (m_push w') = enviados (m_push w).
Proof.
  unfold llegar. repeat case_match; intros Hl; simplify_eq/=; autorewrite with queue_rw; done.
Qed.

(** A request in progress whose next statement runs on [Turnos]. *)
Definition en_cola (c : en_curso) : option pendiente :=
  match c with EnCola p | EnColaBis _ p => Some p | _ => None end.

(** The database after an event: unchanged, or one statement of a
    QueueEngine request has run on it. *)
Lemma aplicar_db e w w' :
  aplicar e w = Some w' ->
  m_db w' = m_db w \/
  exists rid c p err, m_curso w !! rid = Some c /\ en_cola c = Some p /\
    m_db w' = (ejecutar p err (m_reloj w) (m_db w)).1.
Proof.
  destruct e as [rid req|rid err|d|i err|k cid|k cid|k cid]; simpl; try (intros [= <-]; by left).
  - destruct (nuevo_rid rid w); [|done]. intros H. left. by apply (llegar_campos rid req).
  - unfold ejecutar_peticion. destruct (m_curso w !! rid) as [c|] eqn:Ec; [|done].
    destruct c as [p| |p|o|k p|k].
    + destruct (ejecutar p err (m_reloj w) (m_db w)) as [s' o] eqn:Ej. intros [= <-].
      right. exists rid, (EnCola p), p, err. split; [done|]. split; [done|]. rewrite Ej. simpl.
      by autorewrite with queue_rw.
    + intros [= <-]. by left.
    + intros [= <-]. left. by autorewrite with queue_rw.
    + destruct (ejecutar_cita o err _ _). intros [= <-]. by left.
    + destruct (ejecutar p err (m_reloj w) (m_db w)) as [s' o] eqn:Ej. intros [= <-].
      right. exists rid, (EnColaBis k p), p, err. split; [done|]. split; [done|]. rewrite Ej.
      destruct o; simpl; by autorewrite with queue_rw.
    + intros [= <-]. by left.
  - destruct (Z.leb 0 d); [|done]. intros [= <-]. by left.
Qed.

(** ** Routing never reaches the routes registered again

    The table of a reachable state is the initial one followed by routes
    registered at run time: the four of lines 469-552 after every
    successful creation, and the reassign route of lines 307 and 341 after
    every authenticated DELETE of an appointment.  Each of the four has
    the method and path of an initial route, which Express finds first;
    the reassign route has a path no initial route matches. *)

Lemma find_app {A} (f : A -> bool) l1 l2 :
  List.find f (l1 ++ l2) = match List.find f l1 with Some x => Some x | None => List.find f l2 end.
Proof. induction l1 as [|x l1 IH]; simpl; [done|]. by destruct (f x). Qed.

Definition ruta_extra (r : ruta) : Prop :=
  r = ruta_reasignar \/ exists k b num, r ∈ rutas_repetidas k b num.

Lemma repetidas_sombreadas k b num r :
  r ∈ rutas_repetidas k b num ->
  exists r0, r0 ∈ rutas_iniciales /\ r_metodo r0 = r_metodo r /\ r_patron r0 = r_patron r.
Proof.
  intros Hr. unfold rutas_repetidas in Hr.
  repeat (apply elem_of_cons in Hr as [->|Hr]); [| | | |by apply elem_of_nil in Hr].
  - exists (mkRuta POST (api [Lit "turnos"]) true HCrearTurno).
    split; [repeat constructor|done].
  - exists (mkRuta POST (api [Lit "turnos"; Lit "llamar"]) true HLlamar).
    split; [repeat constructor|done].
  - exists (mkRuta POST (api [Lit "turnos"; Lit "finalizar"; Param]) true HFinalizar).
    split; [repeat constructor|done].
  - exists (mkRuta POST (api [Lit "turnos"; Lit "ausente"; Param]) true HAusente).
    split; [repeat constructor|done].
Qed.

Lemma despachar_extra extra m path :
  Forall ruta_extra extra ->
  (forall r, despachar rutas_iniciales m path = Some r -> despachar (rutas_iniciales ++ extra) m path = Some r) /\
  (forall r, despachar (rutas_iniciales ++ extra) m path = Some r ->
             despachar rutas_iniciales m path = Some r \/ r = ruta_reasignar).
Proof.
  intros Hx. unfold despachar. rewrite find_app.
  destruct (List.find _ rutas_iniciales) as [r0|] eqn:E; [split; [done|by left]|].
  split; [done|]. intros r E2. right. apply find_some in E2 as [Hin Hr].
  rewrite Forall_forall in Hx. apply list_elem_of_In, Hx in Hin as [->|(k & b & num & Hin)]; [done|].
  apply repetidas_sombreadas in Hin as (r0 & Hr0 & Hm & Hp).
  apply list_elem_of_In in Hr0. pose proof (find_none _ _ E r0 Hr0) as Hf.
  cbn beta in Hf, Hr. rewrite Hm, Hp, Hr in Hf. discriminate.
Qed.

(** The handlers of lines 469-552 and the statements they issue. *)
Definition es_bis (h : manejador) : bool :=
  match h with HCrearTurnoBis _ _ _ | HLlamarBis | HFinalizarBis | HAusenteBis => true | _ => false end.

Definition sin_bis (c : en_curso) : bool :=
  match c with EnColaBis _ _ | EnvioBis _ => false | _ => true end.

Definition rutas_ok (w : mundo) : Prop :=
  (exists extra, m_rutas w = rutas_iniciales ++ extra /\ Forall ruta_extra extra) /\
  map_Forall (fun _ c => sin_bis c = true) (m_curso w).

Lemma despachar_ok w m path r :
  rutas_ok w -> despachar (m_rutas w) m path = Some r -> es_bis (r_manejador r) = false.
Proof.
  intros [(extra & He & Hx) _] Hd. rewrite He in Hd.
  destruct (proj2 (despachar_extra extra m path Hx) r Hd) as [Hi| ->]; [|done].
  unfold despachar in Hi. apply find_some in Hi as [Hin _].
  apply list_elem_of_In in Hin. unfold rutas_iniciales in Hin.
  repeat (apply elem_of_cons in Hin as [->|Hin]; [done|]). by apply elem_of_nil in Hin.
Qed.

Lemma rutas_ok_campos w w' :
  m_rutas w' = m_rutas w -> m_curso w' = m_curso w -> rutas_ok w -> rutas_ok w'.
Proof. intros E1 E2 Hw. unfold rutas_ok in *. by rewrite E1, E2. Qed.

Lemma rutas_ok_esperar rid c w : sin_bis c = true -> rutas_ok w -> rutas_ok (esperar rid c w).
Proof. intros Hc [Hr Hm]. split; [done|]. by apply map_Forall_insert_2. Qed.

Lemma rutas_ok_responder rid r w : rutas_ok w -> rutas_ok (responder rid r w).
Proof. by apply rutas_ok_campos. Qed.

Lemma rutas_ok_seguir rid o w : rutas_ok w -> rutas_ok (seguir rid o w).
Proof.
  intros Hw. destruct o as [p|r|r b num]; simpl.
  - by apply rutas_ok_esperar.
  - by apply rutas_ok_responder.
  - destruct Hw as [(extra & He & Hx) Hm]. split; [|done].
    exists (extra ++ rutas_repetidas (length (servidores (m_push w))) b num).
    rewrite He, app_assoc. split; [done|]. apply Forall_app. split; [done|].
    apply Forall_forall. intros r' Hr'. right. by exists (length (servidores (m_push w))), b, num.
Qed.

Lemma rutas_ok_seguir_snap rid o w : rutas_ok w -> rutas_ok (seguir_snap rid o w).
Proof. intros Hw. destruct o; simpl; [by apply rutas_ok_esperar|by apply rutas_ok_responder]. Qed.

#[export] Hint Resolve rutas_ok_esperar rutas_ok_responder rutas_ok_seguir rutas_ok_seguir_snap : queue.

Lemma rutas_ok_borrar rid c w :
  sin_bis c = true -> rutas_ok w ->
  rutas_ok (con_rutas (m_rutas w ++ [ruta_reasignar; ruta_reasignar]) (esperar rid c w)).
Proof.
  intros Hc Hw. pose proof (rutas_ok_esperar rid c w Hc Hw) as [_ Hm].
  destruct Hw as [(extra & He & Hx) _]. split; [|done].
  exists (extra ++ [ruta_reasignar; ruta_reasignar]). cbn [m_rutas con_rutas].
  split; [by rewrite He, <- app_assoc|]. apply Forall_app. split; [done|]. repeat constructor; by left.
Qed.

Lemma llegar_rutas_ok rid req w w' : llegar rid req w = Some w' -> rutas_ok w -> rutas_ok w'.
Proof.
  intros H Hw. unfold llegar in H.
  destruct (despachar _ _ _) as [r|] eqn:Ed; [|injection H as <-; by apply rutas_ok_responder].
  pose proof (despachar_ok w _ _ r Hw Ed) as Hb.
  destruct (r_manejador r) eqn:Em; simpl in Hb; try discriminate Hb;
    repeat case_match; simplify_eq; auto with queue.
  all: try (by apply rutas_ok_borrar).
  all: unfold iniciar_crear; repeat case_match; auto with queue.
Qed.

Lemma rutas_ok_delete rid w w0 :
  m_rutas w0 = m_rutas w -> m_curso w0 = delete rid (m_curso w) -> rutas_ok w -> rutas_ok w0.
Proof.
  intros E1 E2 [Hr Hm]. unfold rutas_ok. rewrite E1, E2. split; [done|]. by apply map_Forall_delete.
Qed.

Lemma aplicar_rutas_ok e w w' : aplicar e w = Some w' -> rutas_ok w -> rutas_ok w'.
Proof.
  intros H Hw. destruct e as [rid req|rid err|d|i err|k cid|k cid|k cid]; simpl in H.
  - destruct (nuevo_rid rid w); [|done]. by apply (llegar_rutas_ok rid req w).
  - unfold ejecutar_peticion in H. destruct (m_curso w !! rid) as [c|] eqn:Ec; [|done].
    assert (Hw0 : rutas_ok (mkMundo (m_db w) (m_push w) (m_rutas w) (m_reloj w)
                              (delete rid (m_curso w)) (m_respuestas w) (m_citas w)))
      by (by apply (rutas_ok_delete rid w)).
    pose proof (proj2 Hw rid c Ec) as Hc.
    destruct c as [p| |p|o|k p|k]; simpl in Hc; try discriminate Hc.
    + destruct (ejecutar p err _ _) as [s' o]. injection H as <-.
      apply rutas_ok_seguir. by apply (rutas_ok_campos _ _ eq_refl eq_refl).
    + injection H as <-. by apply rutas_ok_responder.
    + injection H as <-. by apply rutas_ok_seguir_snap.
    + destruct (ejecutar_cita o err _ _) as [t' r]. injection H as <-.
      apply rutas_ok_responder. by apply (rutas_ok_campos _ _ eq_refl eq_refl).
  - destruct (Z.leb 0 d); [|done]. injection H as <-. by apply (rutas_ok_campos w).
  - injection H as <-. by apply (rutas_ok_campos w).
  - injection H as <-. by apply (rutas_ok_campos w).
  - injection H as <-. by apply (rutas_ok_campos w).
  - injection H as <-. by apply (rutas_ok_campos w).
Qed.

Lemma inicio_rutas_ok s reloj : rutas_ok (inicio s reloj).
Proof. split; [exists []; by rewrite app_nil_r|apply map_Forall_empty]. Qed.

Lemma alcanzable_rutas_ok s reloj w : alcanzable (inicio s reloj) w -> rutas_ok w.
Proof.
  intros Hr. apply (rtc_invariante paso rutas_ok (inicio s reloj)); [apply inicio_rutas_ok| |exact Hr].
  intros a b [e He]. by apply (aplicar_rutas_ok e a).
Qed.

(** C16 Routing in every reachable state: a request that a start-up
    route matches is routed to that same route, and any other request
    reaches either nothing or the reassign route that a DELETE of an
    appointment registered (lines 307 and 341).  The four routes that
    every ticket creation registers again (lines 469-552) come after
    routes with the same method and path and are never reached: their
    handlers, the only ones that call [sendQueueUpdates] after a change,
    never run. *)
Theorem despachar_alcanzable s reloj w m path :
  alcanzable (inicio s reloj) w ->
  (forall r, despachar rutas_iniciales m path = Some r -> despachar (m_rutas w) m path = Some r) /\
  (forall r, despachar (m_rutas w) m path = Some r ->
             despachar rutas_iniciales m path = Some r \/ r = ruta_reasignar).
Proof.
  intros Hr. destruct (alcanzable_rutas_ok s reloj w Hr) as [(extra & -> & Hx) _].
  by apply despachar_extra.
Qed.

(** C29 Only an interval sends anything: in every reachable state, no
    event but an interval's tick, whichever route a request reaches and
    however the statements interleave, pushes an update to the displays.
    The handlers that would send (lines 469-497) are modelled, but routing
    never reaches them. *)
Theorem peticiones_no_envian s reloj w e w' :
  alcanzable (inicio s reloj) w -> aplicar e w = Some w' -> (forall i err, e <> EDispara i err) ->
  enviados (m_push w') = enviados (m_push w).
Proof.
  intros Hr H He. pose proof (alcanzable_rutas_ok s reloj w Hr) as [_ Hm].
  destruct e as [rid req|rid err|d|i err|k cid|k cid|k cid]; simpl in H.
  - destruct (nuevo_rid rid w); [|done]. by apply (llegar_campos rid req).
  - unfold ejecutar_peticion in H. destruct (m_curso w !! rid) as [c|] eqn:Ec; [|done].
    pose proof (Hm rid c Ec) as Hc.
    destruct c as [p| |p|o|k p|k]; simpl in Hc; try discriminate Hc.
    + destruct (ejecutar p err (m_reloj w) (m_db w)) as [s' o]. injection H as <-.
      by autorewrite with queue_rw.
    + by injection H as <-.
    + injection H as <-. by autorewrite with queue_rw.
    + destruct (ejecutar_cita o err _ _). by injection H as <-.
  - destruct (Z.leb 0 d); [|done]. by injection H as <-.
  - by destruct (He i err).
  - injection H as <-. simpl. unfold conectar, cambiar_servidor. done.
  - injection H as <-. simpl. unfold empezar_cierre, cambiar_servidor. done.
  - injection H as <-. simpl. unfold cerrar, cambiar_servidor. done.
Qed.

(** ** How the rows change *)

(** A row after a statement: the same, or its state set to one that is
    not [espera]. *)
Definition fila_avanza (t t' : turno) : Prop :=
  t' = t \/ exists e, e <> Espera /\ t' = set_estado e t.

(** The table after a statement: the old rows, each unchanged or moved
    out of [espera], then new rows in [espera]. *)
Definition avanza (l l' : list turno) : Prop :=
  exists l1 extra, l' = l1 ++ extra /\ Forall2 fila_avanza l l1 /\
                   Forall (fun t => estado_turno t = Espera) extra.

Lemma fila_avanza_refl l : Forall2 fila_avanza l l.
Proof. induction l; constructor; [by left|done]. Qed.

Lemma avanza_refl l : avanza l l.
Proof.
  exists l, []. rewrite app_nil_r. split; [done|]. split; [apply fila_avanza_refl|constructor].
Qed.

Lemma avanza_update p e l : e <> Espera -> avanza l (update_rows p e l).
Proof.
  intros He. exists (update_rows p e l), []. rewrite app_nil_r. split; [done|].
  split; [|constructor]. unfold update_rows. induction l as [|t l IH]; simpl; constructor; [|done].
  destruct (p (turno_id t)); [right; by exists e|by left].
Qed.

Lemma avanza_insert l t : estado_turno t = Espera -> avanza l (l ++ [t]).
Proof.
  intros Ht. exists l, [t]. split; [done|].
  split; [apply fila_avanza_refl|by repeat constructor].
Qed.

#[export] Hint Resolve avanza_refl avanza_update avanza_insert : queue.

Lemma ejecutar_avanza p err now s :
  avanza (db_turnos s) (db_turnos (ejecutar p err now s).1).
Proof.
  destruct p as [b|b num| | |t|q|q], err; simpl; try apply avanza_refl.
  all: try (destruct (primero_en Espera s); apply avanza_refl).
  all: try (apply avanza_update; discriminate).
  apply avanza_insert. reflexivity.
Qed.

Lemma paso_avanza w w' : w ~~> w' -> avanza (db_turnos (m_db w)) (db_turnos (m_db w')).
Proof.
  intros [e He]. destruct (aplicar_db e w w' He) as [->|(rid & c & p & err & _ & _ & ->)].
  - apply avanza_refl.
  - apply ejecutar_avanza.
Qed.

(** C33 One step of the server, whatever it is: no row is deleted, a row
    keeps its id, number and creation time, and a row that is not in
    [espera] never comes back to [espera] (the number is given once and
    never reused, no transition reinstates waiting). *)
Theorem paso_filas w w' i t :
  paso w w' -> db_turnos (m_db w) !! i = Some t ->
  exists t', db_turnos (m_db w') !! i = Some t' /\
    turno_id t' = turno_id t /\ numero_turno t' = numero_turno t /\
    fecha_creacion t' = fecha_creacion t /\
    (estado_turno t' = Espera -> estado_turno t = Espera).
Proof.
  intros Hp Ht. destruct (paso_avanza w w' Hp) as (l1 & extra & E & H1 & _).
  destruct (Forall2_lookup_l _ _ _ _ _ H1 Ht) as (t' & Ht' & Ha).
  exists t'. rewrite E. split; [by apply lookup_app_l_Some|].
  destruct Ha as [->|(e & He & ->)]; [done|]. simpl. done.
Qed.

(** ** The push machinery grows with every ticket *)

Definition instala (o : salida) : bool :=
  match o with RespondeEInstala _ _ _ => true | _ => false end.

Lemma seguir_push rid o w :
  m_push (seguir rid o w) = if instala o then instalar (m_push w) else m_push w.
Proof. by destruct o. Qed.

Lemma ejecutar_instala p err now s :
  length (db_turnos (ejecutar p err now s).1) =
  length (db_turnos s) + (if instala (ejecutar p err now s).2 then 1 else 0).
Proof.
  destruct p as [b|b num| | |t|q|q], err; simpl; try lia.
  all: try (destruct (primero_en Espera s); simpl; lia).
  all: try (rewrite update_rows_length; lia).
  rewrite length_app. simpl. lia.
Qed.

Lemma llegar_push rid req w w' : llegar rid req w = Some w' -> m_push w' = m_push w.
Proof.
  unfold llegar. repeat case_match; intros Hl; simplify_eq/=; try done.
  all: rewrite seguir_push; try done; unfold iniciar_crear; by destruct (datos_completos _).
Qed.

Definition push_crece (n0 : nat) (w : mundo) : Prop :=
  push_ok (m_push w) /\ length (servidores (m_push w)) + n0 = length (db_turnos (m_db w)).

Lemma instalar_length p : length (servidores (instalar p)) = S (length (servidores p)).
Proof. unfold instalar. simpl. rewrite length_app. simpl. lia. Qed.

Lemma cambiar_servidor_length k f p :
  length (servidores (cambiar_servidor k f p)) = length (servidores p).
Proof. apply length_alter. Qed.

Lemma aplicar_push_crece n0 e w w' :
  aplicar e w = Some w' -> rutas_ok w -> push_crece n0 w -> push_crece n0 w'.
Proof.
  intros H [_ Hm] [Hp Hn]. destruct e as [rid req|rid err|d|i err|k cid|k cid|k cid]; simpl in H.
  - destruct (nuevo_rid rid w); [|done].
    unfold push_crece. rewrite (llegar_push rid req w w' H), (proj1 (llegar_campos rid req w w' H)).
    done.
  - unfold ejecutar_peticion in H. destruct (m_curso w !! rid) as [c|] eqn:Ec; [|done].
    pose proof (Hm rid c Ec) as Hc.
    destruct c as [p| |p|o|k p|k]; simpl in Hc; try discriminate Hc.
    + pose proof (ejecutar_instala p err (m_reloj w) (m_db w)) as Hl.
      destruct (ejecutar p err (m_reloj w) (m_db w)) as [s' o]. injection H as <-.
      unfold push_crece. rewrite seguir_push, seguir_db. simpl in *.
      destruct (instala o); [split; [by apply instalar_ok|rewrite instalar_length; lia]|].
      split; [done|lia].
    + by injection H as <-.
    + injection H as <-. unfold push_crece. by rewrite seguir_snap_push, seguir_snap_db.
    + destruct (ejecutar_cita o err _ _). by injection H as <-.
  - destruct (Z.leb 0 d); [|done]. by injection H as <-.
  - injection H as <-. unfold push_crece. simpl.
    rewrite (proj1 (disparar_campos i err (m_db w) (m_push w))). split; [by apply disparar_ok|done].
  - injection H as <-. unfold push_crece. simpl.
    split; [by apply conectar_ok|unfold conectar, cambiar_servidor; simpl; by rewrite length_alter].
  - injection H as <-. unfold push_crece. simpl.
    split; [by apply empezar_cierre_ok|unfold empezar_cierre, cambiar_servidor; simpl; by rewrite length_alter].
  - injection H as <-. unfold push_crece. simpl.
    split; [by apply cerrar_ok|unfold cerrar, cambiar_servidor; simpl; by rewrite length_alter].
Qed.

(** C31 After start-up, every ticket created installs one more WebSocket
    server and one more interval running [sendQueueUpdates] every 5 s
    (lines 425 and 465 run inside the create callback): the servers and
    intervals are exactly as many as the tickets created, only the first
    server listens on port 8080, the others never have a client, and
    interval [i] pushes through server [i]. *)
Theorem push_por_turno s reloj w :
  alcanzable (inicio s reloj) w ->
  length (servidores (m_push w)) + length (db_turnos s) = length (db_turnos (m_db w)) /\
  intervalos (m_push w) = seq 0 (length (servidores (m_push w))) /\
  (forall k sv, servidores (m_push w) !! k = Some sv -> ws_escuchando sv = true <-> k = 0) /\
  (forall k sv, servidores (m_push w) !! k = Some sv -> k <> 0 -> ws_clientes sv = []).
Proof.
  intros Hr.
  assert (rutas_ok w /\ push_crece (length (db_turnos s)) w) as [_ [(Hl & Hc & Hi) Hn]].
  { apply (rtc_invariante paso (fun w => rutas_ok w /\ push_crece (length (db_turnos s)) w)
                          (inicio s reloj)); [| |exact Hr].
    - split; [apply inicio_rutas_ok|]. split; [apply push_inicial_ok|done].
    - intros a b [e He] [Ha Hb]. split; [by apply (aplicar_rutas_ok e a)|].
      by apply (aplicar_push_crece _ e a). }
  split; [done|]. split; [done|]. split; [done|].
  intros k sv Hk Hk0. apply (Hc k sv Hk).
  destruct (ws_escuchando sv) eqn:E; [|done]. by apply (Hl k sv Hk) in E.
Qed.

(** ** Numbers never run ahead of the table *)

Definition filas_acotadas (l : list turno) : Prop :=
  forall i t, l !! i = Some t -> exists c, c <= i /\ numero_turno t = numero_de_conteo c.

Definition pendiente_acotada (n : nat) (p : pendiente) : Prop :=
  match p with
  | CrearInsertar _ num => exists c, c <= n /\ num = numero_de_conteo c
  | _ => True
  end.

Definition curso_acotado (n : nat) (c : en_curso) : Prop :=
  match c with EnCola p | EnColaBis _ p => pendiente_acotada n p | _ => True end.

Definition numeros_acotados (w : mundo) : Prop :=
  filas_acotadas (db_turnos (m_db w)) /\
  map_Forall (fun _ c => curso_acotado (length (db_turnos (m_db w))) c) (m_curso w).

Lemma curso_acotado_mono n n' c : n <= n' -> curso_acotado n c -> curso_acotado n' c.
Proof.
  intros Hn. destruct c as [p| |p|o|k p|k]; simpl; try done;
    destruct p; simpl; try done; intros (c & Hc & ->); exists c; split; [lia|done|lia|done].
Qed.

Lemma filas_acotadas_update p e l : filas_acotadas l -> filas_acotadas (update_rows p e l).
Proof.
  intros H i t Ht. unfold update_rows in Ht. rewrite list_lookup_fmap in Ht.
  destruct (l !! i) as [t0|] eqn:E; [|done]. simpl in Ht. injection Ht as <-.
  destruct (H i t0 E) as (c & Hc & Hn). exists c. split; [done|].
  by destruct (p (turno_id t0)).
Qed.

Lemma filas_acotadas_insert l t c :
  filas_acotadas l -> c <= length l -> numero_turno t = numero_de_conteo c ->
  filas_acotadas (l ++ [t]).
Proof.
  intros H Hc Ht i u Hu. apply lookup_app_Some in Hu as [Hu|[Hlen Hu]]; [by apply H|].
  apply list_lookup_singleton_Some in Hu as [Hi <-]. exists c. split; [lia|done].
Qed.

(** One statement keeps the rows bounded, grows the table, and what it
    issues next is bounded by the new length. *)
Lemma ejecutar_acotado p err now s :
  filas_acotadas (db_turnos s) -> pendiente_acotada (length (db_turnos s)) p ->
  filas_acotadas (db_turnos (ejecutar p err now s).1) /\
  length (db_turnos s) <= length (db_turnos (ejecutar p err now s).1) /\
  match (ejecutar p err now s).2 with
  | Sigue p' => pendiente_acotada (length (db_turnos (ejecutar p err now s).1)) p'
  | _ => True
  end.
Proof.
  intros Hf Hp. destruct p as [b|b num| | |t|q|q], err; simpl.
  all: try (split; [done|split; [lia|done]]).
  all: try (split; [done|split; [lia|by exists (length (db_turnos s))]]).
  all: try (destruct (primero_en Espera s); simpl; (split; [done|split; [lia|done]])).
  all: try (split; [by apply filas_acotadas_update|rewrite update_rows_length; split; [lia|done]]).
  destruct Hp as (c & Hc & ->). split; [by apply (filas_acotadas_insert _ _ c)|].
  rewrite length_app. simpl. split; [lia|done].
Qed.

Definition curso_libre (c : en_curso) : Prop := forall n, curso_acotado n c.

Lemma seguir_acotado rid o w n :
  (match o with Sigue p => pendiente_acotada n p | _ => True end) ->
  map_Forall (fun _ c => curso_acotado n c) (m_curso w) ->
  map_Forall (fun _ c => curso_acotado n c) (m_curso (seguir rid o w)).
Proof. intros Ho Hm. destruct o; simpl; [by apply map_Forall_insert_2|done..]. Qed.

Lemma iniciar_libre o :
  o = iniciar_llamar \/ (exists q, o = iniciar_finalizar q \/ o = iniciar_ausente q) \/
  (exists b, o = iniciar_crear b) ->
  forall n, match o with Sigue p => pendiente_acotada n p | _ => True end.
Proof.
  intros [->|[(q & [->| ->])|(b & ->)]] n; simpl; try done;
    unfold iniciar_crear; destruct (datos_completos b); simpl; done.
Qed.

Lemma llegar_acotado rid req w w' n :
  llegar rid req w = Some w' -> rutas_ok w ->
  map_Forall (fun _ c => curso_acotado n c) (m_curso w) ->
  map_Forall (fun _ c => curso_acotado n c) (m_curso w').
Proof.
  unfold llegar. intros H Hw Hm.
  destruct (despachar _ _ _) as [r|] eqn:Ed; [|by injection H as <-].
  pose proof (despachar_ok w _ _ r Hw Ed) as Hb.
  destruct (r_manejador r) eqn:Em; simpl in Hb; try discriminate Hb;
    repeat case_match; simplify_eq/=; try done.
  all: first [ apply seguir_acotado; [apply iniciar_libre; naive_solver|exact Hm]
             | apply map_Forall_insert_2; [exact I|exact Hm] ].
Qed.

Lemma aplicar_acotado e w w' :
  aplicar e w = Some w' -> rutas_ok w -> numeros_acotados w -> numeros_acotados w'.
Proof.
  intros H Hw [Hf Hc]. destruct e as [rid req|rid err|d|i err|k cid|k cid|k cid]; simpl in H.
  - destruct (nuevo_rid rid w); [|done]. unfold numeros_acotados.
    rewrite (proj1 (llegar_campos rid req w w' H)).
    split; [done|]. by apply (llegar_acotado rid req w).
  - unfold ejecutar_peticion in H. destruct (m_curso w !! rid) as [c|] eqn:Ec; [|done].
    pose proof (map_Forall_lookup_1 _ _ _ _ Hc Ec) as Hcur.
    pose proof (proj2 Hw rid c Ec) as Hsb.
    destruct c as [p| |p|o|k p|k]; simpl in Hsb; try discriminate Hsb.
    + destruct (ejecutar_acotado p err (m_reloj w) (m_db w) Hf Hcur) as (Hf' & Hlen & Hnext).
      destruct (ejecutar p err (m_reloj w) (m_db w)) as [s' o]. injection H as <-.
      split; [by rewrite seguir_db|]. rewrite seguir_db. apply seguir_acotado; [done|].
      simpl. apply map_Forall_delete. eapply map_Forall_impl; [exact Hc|].
      intros ? c. apply curso_acotado_mono. simpl. exact Hlen.
    + injection H as <-. split; [done|]. by apply map_Forall_delete.
    + injection H as <-. unfold numeros_acotados. rewrite seguir_snap_db. split; [done|].
      destruct (ejecutar_pacientes p err (m_db w)); simpl;
        [apply map_Forall_insert_2; [done|]|]; by apply map_Forall_delete.
    + destruct (ejecutar_cita o err _ _). injection H as <-. split; [done|]. by apply map_Forall_delete.
  - destruct (Z.leb 0 d); [|done]. by injection H as <-.
  - by injection H as <-.
  - by injection H as <-.
  - by injection H as <-.
  - by injection H as <-.
Qed.

(** C34 However the statements of concurrent creations interleave, the
    ticket in position [i] of the table (0-based) carries the number of
    a count [c <= i], that is T-(c+1) with c+1 <= i+1: numbers can repeat
    ([numeros_duplicados]) but never run ahead of the table. *)
Theorem numeros_no_adelantan s reloj w :
  filas_acotadas (db_turnos s) -> alcanzable (inicio s reloj) w ->
  forall i t, db_turnos (m_db w) !! i = Some t ->
  exists c, c <= i /\ numero_turno t = numero_de_conteo c.
Proof.
  intros Hs Hr.
  assert (rutas_ok w /\ numeros_acotados w) as [_ [Hf _]]; [|exact Hf].
  apply (rtc_invariante paso (fun w => rutas_ok w /\ numeros_acotados w) (inicio s reloj));
    [| |exact Hr].
  - split; [apply inicio_rutas_ok|]. split; [done|apply map_Forall_empty].
  - intros a b [e He] [Ha Hb]. split; [by apply (aplicar_rutas_ok e a)|].
    by apply (aplicar_acotado e a).
Qed.

(** ** A run used by the witnesses

    Alice's and Bob's tickets are created one after the other, an
    appointment is deleted, a display connects to the first WebSocket
    server, and a call has run its search ([mundo_demo]); the call's
    update then runs ([mundo_demo2]). *)
Definition pedir_borrar_cita (q : string) : peticion_http :=
  mkPeticion DELETE ["api"; "appointments"; q] TokenValido sin_cuerpo sin_cita.

Definition eventos_demo : list evento :=
  crear_solo 1 alice ++ crear_solo 2 bob ++
  [ELlega 4 (pedir_borrar_cita "9"); EEjecuta 4 None;
   EConecta 0 7; ELlega 3 pedir_llamar; EEjecuta 3 None].

Definition mundo_demo : mundo := default mundo_inicial (traza eventos_demo mundo_inicial).

Definition mundo_demo2 : mundo :=
  default mundo_demo (aplicar (EEjecuta 3 None) mundo_demo).

Definition turno_de (i : nat) (w : mundo) : turno :=
  default (fila (nuevo_de sin_cuerpo EmptyString) 0 0) (db_turnos (m_db w) !! i).

(** After the DELETE, a reassignment reaches the route it registered. *)
Lemma despachar_alcanzable_witness :
  alcanzable (inicio (inicializar None db_vacia) 1000) mundo_demo /\
  despachar (m_rutas mundo_demo) PUT ["api"; "appointments"; "1"; "reassign"] = Some ruta_reasignar /\
  (despachar rutas_iniciales PUT ["api"; "appointments"; "1"; "reassign"] = Some ruta_reasignar \/
   ruta_reasignar = ruta_reasignar).
Proof.
  assert (H : alcanzable (inicio (inicializar None db_vacia) 1000) mundo_demo)
    by (apply (traza_alcanzable eventos_demo); vm_compute; reflexivity).
  assert (H2 : despachar (m_rutas mundo_demo) PUT ["api"; "appointments"; "1"; "reassign"] =
                 Some ruta_reasignar) by (vm_compute; reflexivity).
  split; [exact H|]. split; [exact H2|].
  exact (proj2 (despachar_alcanzable _ _ _ PUT ["api"; "appointments"; "1"; "reassign"] H) _ H2).
Defined.

Lemma peticiones_no_envian_witness :
  alcanzable (inicio (inicializar None db_vacia) 1000) mundo_demo /\
  aplicar (EEjecuta 3 None) mundo_demo = Some mundo_demo2 /\
  (forall i err, EEjecuta 3 None <> EDispara i err) /\
  enviados (m_push mundo_demo2) = enviados (m_push mundo_demo).
Proof.
  assert (H1 : aplicar (EEjecuta 3 None) mundo_demo = Some mundo_demo2)
    by (vm_compute; reflexivity).
  assert (H2 : forall i err, EEjecuta 3 None <> EDispara i err) by (intros i err; discriminate).
  assert (H : alcanzable (inicio (inicializar None db_vacia) 1000) mundo_demo)
    by (apply (traza_alcanzable eventos_demo); vm_compute; reflexivity).
  split; [exact H|]. split; [exact H1|]. split; [exact H2|].
  apply (peticiones_no_envian _ _ mundo_demo (EEjecuta 3 None) mundo_demo2 H H1 H2).
Defined.

Lemma paso_filas_witness :
  paso mundo_demo mundo_demo2 /\
  db_turnos (m_db mundo_demo) !! 0 = Some (turno_de 0 mundo_demo) /\
  exists t', db_turnos (m_db mundo_demo2) !! 0 = Some t' /\
    turno_id t' = turno_id (turno_de 0 mundo_demo) /\
    numero_turno t' = numero_turno (turno_de 0 mundo_demo) /\
    fecha_creacion t' = fecha_creacion (turno_de 0 mundo_demo) /\
    (estado_turno t' = Espera -> estado_turno (turno_de 0 mundo_demo) = Espera).
Proof.
  assert (H1 : paso mundo_demo mundo_demo2) by (exists (EEjecuta 3 None); vm_compute; reflexivity).
  assert (H2 : db_turnos (m_db mundo_demo) !! 0 = Some (turno_de 0 mundo_demo))
    by (vm_compute; reflexivity).
  split; [exact H1|]. split; [exact H2|].
  apply (paso_filas mundo_demo mundo_demo2 0 (turno_de 0 mundo_demo) H1 H2).
Defined.

Lemma push_por_turno_witness :
  alcanzable (inicio (inicializar None db_vacia) 1000) mundo_demo /\
  length (servidores (m_push mundo_demo)) + length (db_turnos (inicializar None db_vacia)) =
    length (db_turnos (m_db mundo_demo)).
Proof.
  assert (H : alcanzable (inicio (inicializar None db_vacia) 1000) mundo_demo)
    by (apply (traza_alcanzable eventos_demo); vm_compute; reflexivity).
  split; [exact H|]. apply (push_por_turno _ _ _ H).
Defined.

Lemma numeros_no_adelantan_witness :
  filas_acotadas (db_turnos (inicializar None db_vacia)) /\
  alcanzable (inicio (inicializar None db_vacia) 1000) mundo_demo /\
  db_turnos (m_db mundo_demo) !! 1 = Some (turno_de 1 mundo_demo) /\
  exists c, c <= 1 /\ numero_turno (turno_de 1 mundo_demo) = numero_de_conteo c.
Proof.
  assert (H0 : filas_acotadas (db_turnos (inicializar None db_vacia)))
    by (intros i t Ht; vm_compute in Ht; discriminate).
  assert (H : alcanzable (inicio (inicializar None db_vacia) 1000) mundo_demo)
    by (apply (traza_alcanzable eventos_demo); vm_compute; reflexivity).
  assert (H1 : db_turnos (m_db mundo_demo) !! 1 = Some (turno_de 1 mundo_demo))
    by (vm_compute; reflexivity).
  split; [exact H0|]. split; [exact H|]. split; [exact H1|].
  apply (numeros_no_adelantan _ _ _ H0 H 1 _ H1).
Defined.
