(* ===== verification/Refinement.v ===== *)
(** * Refinement: the QueueEngine contract of the spec and the handlers

    The spec (sections 3, 4.1 and 7) describes the queue as a list of
    tickets, each with an id, an issuance number, the patient data, a
    state and a creation time, and four operations with structured
    results: [Enqueue] (a [ValidationError] when a required field is
    empty or missing), [CallNext] (the waiting ticket least by (creation
    time, id), or [NotFoundError]), [Finish] and [MarkAbsent] (a
    [NotFoundError] for an unknown id, idempotent, only along the
    transitions of the state machine of section 4.1).

    This file states that contract as relations on the abstract list
    ([spec_encolar], [spec_llamar], [spec_marcar]) and proves that each
    handler of [Engine], running alone, implements it: [abs] maps the
    rows to abstract tickets (the number [T-NNN] read back as [NNN]),
    [resultado_de] maps the HTTP answer to a result.  The theorems are
    proved against the [TicketStore] interface, for every store that
    satisfies its laws.  Where the code leaves the contract (an unknown
    id answers 200; a numeric zero or [false] counts as missing) the
    refinement theorems carry the hypothesis and separate theorems show
    the difference. *)

From S2P Require Import Prelude JsValue Sqlite Turno Store Db Engine.

(** ** The abstract queue *)

Record ticket : Type := mkTicket {
  tk_id : nat;
  tk_numero : nat;                 (* the issuance count: T-001 is 1 *)
  tk_nombre : jval;
  tk_identificacion : jval;
  tk_telefono : jval;
  tk_clinica : jval;
  tk_estado : estado;
  tk_fecha : Z
}.

#[export] Instance ticket_eq_dec : EqDecision ticket.
Proof. solve_decision. Defined.

Inductive error_cola : Type := ValidationError | NotFoundError | StorageError.

Inductive resultado : Type :=
| RTicket (id numero : nat)
| RHecho
| RError (e : error_cola).

(** The spec's FIFO key: (creation time, id). *)
Definition antes (a b : ticket) : Prop :=
  (tk_fecha a < tk_fecha b)%Z \/ (tk_fecha a = tk_fecha b /\ tk_id a <= tk_id b).

Definition con_estado (e : estado) (k : ticket) : ticket :=
  mkTicket (tk_id k) (tk_numero k) (tk_nombre k) (tk_identificacion k)
           (tk_telefono k) (tk_clinica k) e (tk_fecha k).

(** The transition of the ticket with id [i] to state [e]. *)
Definition marcar (i : nat) (e : estado) (σ : list ticket) : list ticket :=
  (fun k => if Nat.eqb i (tk_id k) then con_estado e k else k) <$> σ.

(** "Empty or missing" in the spec's sense: absent, [null] or the empty
    string. *)
Definition vacio (v : jval) : bool :=
  match v with
  | JUndefined | JNull => true
  | JStr s => bool_decide (s = EmptyString)
  | _ => false
  end.

Definition faltan_campos (b : cuerpo_turno) : bool :=
  vacio (b_nombre b) || vacio (b_identificacion b) || vacio (b_clinica b).

(** [Enqueue]: section 4.1.  The spec leaves the types of the patient
    data open; the new ticket holds them as the store's typed columns
    keep them (a number given as the name is kept as its text). *)
Inductive spec_encolar (b : cuerpo_turno) (now : Z) (σ : list ticket)
    : list ticket -> resultado -> Prop :=
| encolar_invalido :
    faltan_campos b = true -> spec_encolar b now σ σ (RError ValidationError)
| encolar_ok id :
    faltan_campos b = false -> Forall (fun k => tk_id k < id) σ ->
    spec_encolar b now σ
      (σ ++ [mkTicket id (S (length σ)) (guardar_texto (b_nombre b)) (guardar_texto (b_identificacion b))
                      (guardar_texto (b_telefono b)) (guardar_entero (b_clinica b)) Espera now])
      (RTicket id (S (length σ))).

(** [CallNext]: section 4.1. *)
Inductive spec_llamar (σ : list ticket) : list ticket -> resultado -> Prop :=
| llamar_ok k :
    k ∈ σ -> tk_estado k = Espera ->
    (forall u, u ∈ σ -> tk_estado u = Espera -> antes k u) ->
    spec_llamar σ (marcar (tk_id k) Atendiendo σ) (RTicket (tk_id k) (tk_numero k))
| llamar_ninguno :
    (forall u, u ∈ σ -> tk_estado u <> Espera) -> spec_llamar σ σ (RError NotFoundError).

(** The states from which [Finish] ([e = Finalizado]) and [MarkAbsent]
    ([e = Ausente]) may move a ticket: the transitions of section 4.1
    and the idempotent repetition. *)
Definition desde (e : estado) : list estado :=
  match e with
  | Finalizado => [Atendiendo; Finalizado]
  | Ausente => [Espera; Atendiendo; Ausente]
  | _ => []
  end.

(** [Finish] and [MarkAbsent] on an id (the route parameter read as a
    number; [None] when it is not one). *)
Inductive spec_marcar (e : estado) (i : option nat) (σ : list ticket)
    : list ticket -> resultado -> Prop :=
| marcar_ok k :
    k ∈ σ -> i = Some (tk_id k) -> tk_estado k ∈ desde e ->
    spec_marcar e i σ (marcar (tk_id k) e σ) RHecho
| marcar_no_existe :
    (forall k, k ∈ σ -> i <> Some (tk_id k)) -> spec_marcar e i σ σ (RError NotFoundError).

(** ** The abstraction *)

Definition abs_turno (t : turno) : ticket :=
  mkTicket (turno_id t) (default 0 (parse_numero (numero_turno t)))
           (paciente_nombre t) (paciente_identificacion t) (paciente_telefono t)
           (clinica_id t) (estado_turno t) (fecha_creacion t).

Definition abs (l : list turno) : list ticket := abs_turno <$> l.

(** The HTTP answer as a result of the contract. *)
Definition resultado_de (r : respuesta) : resultado :=
  match status r, cuerpo r with
  | 200, BTurnoCreado id num _ _ => RTicket id (default 0 (parse_numero num))
  | 200, BLlamando id _ _ num => RTicket id (default 0 (parse_numero num))
  | 200, BSuccess _ => RHecho
  | 400, _ => RError ValidationError
  | 404, _ => RError NotFoundError
  | _, _ => RError StorageError
  end.

(** ** Lemmas on the abstraction *)

Lemma abs_update_rows p i e l :
  (forall j, p j = Nat.eqb i j) -> abs (update_rows p e l) = marcar i e (abs l).
Proof.
  intros Hp. induction l as [|t l IH]; [done|]. simpl. f_equal; [|done].
  rewrite Hp. by destruct (Nat.eqb i _).
Qed.

Lemma elem_of_abs k l : k ∈ abs l <-> exists t, k = abs_turno t /\ t ∈ l.
Proof. unfold abs. apply list_elem_of_fmap. Qed.

Lemma fecha_id_le_antes t u : fecha_id_le t u = true -> antes (abs_turno t) (abs_turno u).
Proof. unfold fecha_id_le, antes. simpl. case_tests; simpl; intros; try done; lia. Qed.

Lemma id_param_matches_eqb q i :
  clave_de_texto q = Some i -> forall j, id_param_matches q j = Nat.eqb i j.
Proof.
  intros Hq j. unfold id_param_matches. rewrite Hq.
  destruct (Nat.eqb_spec i j) as [->|Hne]; [by rewrite bool_decide_eq_true_2|].
  rewrite bool_decide_eq_false_2; [done|congruence].
Qed.

#[export] Hint Resolve fecha_id_le_antes : queue.

Lemma length_abs l : length (abs l) = length l.
Proof. apply length_fmap. Qed.

Lemma abs_app l1 l2 : abs (l1 ++ l2) = abs l1 ++ abs l2.
Proof. apply fmap_app. Qed.

Lemma abs_fila d id now num :
  parse_numero (nt_numero d) = Some num ->
  abs_turno (fila d id now) =
    mkTicket id num (guardar_texto (nt_nombre d)) (guardar_texto (nt_identificacion d))
             (guardar_texto (nt_telefono d)) (guardar_entero (nt_clinica d)) Espera now.
Proof. intros H. unfold abs_turno, fila. simpl. by rewrite H. Qed.

(** The rows a [WHERE id = q] matches are those of the ticket [i] that
    [q] reads as. *)
Lemma abs_update_param q i e l :
  clave_de_texto q = Some i -> abs (update_rows (id_param_matches q) e l) = marcar i e (abs l).
Proof. intros Hq. apply abs_update_rows. by apply id_param_matches_eqb. Qed.

Lemma abs_update_none q e l :
  Forall (fun t => id_param_matches q (turno_id t) = false) l ->
  abs (update_rows (id_param_matches q) e l) = abs l.
Proof. intros H. by rewrite update_rows_none. Qed.

Section Refina.
Context {St : Type} `{HL : TicketStoreLaws St}.

(** [Enqueue]: the create handler, when its guard agrees with the
    spec's notion of a missing field. *)
Lemma crear_refina b now s s' r inst :
  store_wf s -> datos_completos b = negb (faltan_campos b) ->
  correr 2 (iniciar_crear b) now s = Some (s', r, inst) ->
  spec_encolar b now (abs (turnos s)) (abs (turnos s')) (resultado_de r).
Proof.
  intros Hw Hb H. unfold iniciar_crear in H. rewrite Hb in H.
  destruct (faltan_campos b) eqn:Ef; simpl in H.
  - injection H as <- <- _. by apply encolar_invalido.
  - destruct (insertar_turno _ now s) as [s1 id] eqn:E. injection H as <- <- _.
    pose proof (insertar_turnos (nuevo_de b (numero_de_conteo (contar s))) now s Hw) as Ht.
    pose proof (insertar_fresh (nuevo_de b (numero_de_conteo (contar s))) now s Hw) as Hf.
    rewrite E in Ht, Hf. simpl in Ht, Hf.
    assert (Hn : parse_numero (numero_de_conteo (contar s)) = Some (S (length (abs (turnos s)))))
      by (rewrite numero_de_conteo_parse, length_abs; unfold contar; f_equal; lia).
    set (num := numero_de_conteo (contar s)) in *. clearbody num.
    rewrite Ht, abs_app.
    change (abs [fila (nuevo_de b num) id now]) with [abs_turno (fila (nuevo_de b num) id now)].
    rewrite (abs_fila (nuevo_de b num) id now _ Hn).
    change (resultado_de _) with (RTicket id (default 0 (parse_numero num))). rewrite Hn.
    apply encolar_ok; [done|].
    apply Forall_fmap. eapply Forall_impl; [exact Hf|]. done.
Qed.

(** [CallNext]: the call handler. *)
Lemma llamar_refina now s s' r inst :
  ids_crecientes (turnos s) ->
  correr 2 iniciar_llamar now s = Some (s', r, inst) ->
  spec_llamar (abs (turnos s)) (abs (turnos s')) (resultado_de r).
Proof.
  intros Hc H. simpl in H. destruct (primero_en Espera s) as [t|] eqn:E; simpl in H;
    injection H as <- <- _.
  - destruct (primero_en_min s t Hc E) as (Hin & He & Hmin).
    rewrite actualizar_turnos, (abs_update_rows _ (turno_id t)) by done.
    apply (llamar_ok _ (abs_turno t)).
    + apply elem_of_abs. by exists t.
    + done.
    + intros u Hu Hue. apply elem_of_abs in Hu as (t' & -> & Ht').
      rewrite Forall_forall in Hmin. auto with queue.
  - apply primero_en_None in E. apply llamar_ninguno.
    intros u Hu Hue. apply elem_of_abs in Hu as (t' & -> & Ht').
    assert (t' ∈ en_estado Espera (turnos s)) as Hin by (by apply elem_of_en_estado).
    rewrite E in Hin. set_solver.
Qed.

(** The rows matching the route parameter are all in a state the
    operation may leave. *)
Definition marcado_permitido (e : estado) (q : string) (l : list turno) : Prop :=
  forallb (fun t => negb (id_param_matches q (turno_id t)) ||
                    bool_decide (estado_turno t ∈ desde e)) l = true.

Lemma marcado_permitido_spec e q l t :
  marcado_permitido e q l -> t ∈ l -> id_param_matches q (turno_id t) = true ->
  estado_turno t ∈ desde e.
Proof.
  unfold marcado_permitido. rewrite forallb_forall. intros H Ht Hm.
  apply list_elem_of_In in Ht. specialize (H t Ht). rewrite Hm in H.
  simpl in H. by apply bool_decide_eq_true_1 in H.
Qed.

(** [Finish] and [MarkAbsent] on the table: the update of lines 630 and
    648, when every matching row may make the transition. *)
Lemma marcar_refina e q l :
  marcado_permitido e q l ->
  (Forall (fun t => id_param_matches q (turno_id t) = false) l /\
     abs (update_rows (id_param_matches q) e l) = abs l /\
     spec_marcar e (clave_de_texto q) (abs l) (abs l) (RError NotFoundError)) \/
  spec_marcar e (clave_de_texto q) (abs l) (abs (update_rows (id_param_matches q) e l)) RHecho.
Proof.
  intros Hp. destruct (decide (Exists (fun t => id_param_matches q (turno_id t) = true) l))
    as [Hex|Hno].
  - right. apply Exists_exists in Hex as (t & Hin & Hm).
    unfold id_param_matches in Hm. apply bool_decide_eq_true_1 in Hm.
    rewrite (abs_update_param q (turno_id t)) by done.
    apply (marcar_ok _ _ _ (abs_turno t)); [apply elem_of_abs; by exists t|done|].
    apply (marcado_permitido_spec e q l); [done..|].
    unfold id_param_matches. by rewrite Hm, bool_decide_eq_true_2.
  - left. assert (Hf : Forall (fun t => id_param_matches q (turno_id t) = false) l).
    { apply Forall_forall. intros t Ht. apply not_true_is_false. intros Hm.
      apply Hno, Exists_exists. by exists t. }
    split; [done|]. split; [by apply abs_update_none|].
    apply marcar_no_existe. intros k Hk Hq. apply elem_of_abs in Hk as (t & -> & Ht).
    rewrite Forall_forall in Hf. specialize (Hf t Ht).
    unfold id_param_matches in Hf. rewrite Hq in Hf. by rewrite bool_decide_eq_false in Hf.
Qed.

Lemma correr_cola_ok fuel o now s s' r inst :
  cola_ok s -> correr fuel o now s = Some (s', r, inst) -> cola_ok s'.
Proof.
  revert o s. induction fuel as [|f IH]; intros o s Hc H;
    destruct o as [p| |]; simpl in H; try (by injection H as <- _ _); [done|].
  destruct (ejecutar p None now s) as [s1 o1] eqn:E. apply (IH o1 s1); [|done].
  pose proof (ejecutar_cola_ok p None now s Hc) as Hc1. by rewrite E in Hc1.
Qed.

Lemma correr_iniciar r now s : exists x, correr 2 (iniciar r) now s = Some x.
Proof.
  destruct r as [b| | |]; simpl; [|destruct (primero_en Espera s)|..]; simpl; eauto.
  unfold iniciar_crear. destruct (datos_completos b); simpl; [|eauto].
  destruct (insertar_turno _ now s); simpl. eauto.
Qed.

(** The requests that keep to the contract: the guard of the create
    route agrees with the spec's notion of a missing field, and the rows
    an update matches may make the transition. *)
Definition permitida (r : peticion) (s : St) : Prop :=
  match r with
  | PCrear b => datos_completos b = negb (faltan_campos b)
  | PLlamar => True
  | PFinalizar q => marcado_permitido Finalizado q (turnos s)
  | PAusente q => marcado_permitido Ausente q (turnos s)
  end.

(** One operation of the contract. *)
Definition spec_paso (r : peticion) (now : Z) (σ σ' : list ticket) (res : resultado) : Prop :=
  match r with
  | PCrear b => spec_encolar b now σ σ' res
  | PLlamar => spec_llamar σ σ' res
  | PFinalizar q => spec_marcar Finalizado (clave_de_texto q) σ σ' res
  | PAusente q => spec_marcar Ausente (clave_de_texto q) σ σ' res
  end.

(** One request running alone: the contract's step, with the answer of
    the contract except for the unknown id, where the code answers 200
    and the contract [NotFoundError] with the same (unchanged) table. *)
Lemma paso_refina r now s s' resp inst :
  cola_ok s -> permitida r s -> correr 2 (iniciar r) now s = Some (s', resp, inst) ->
  exists res, spec_paso r now (abs (turnos s)) (abs (turnos s')) res /\
    (res = resultado_de resp \/
     (res = RError NotFoundError /\ resultado_de resp = RHecho /\ abs (turnos s') = abs (turnos s))).
Proof.
  intros [Hw Hc] Hp H. destruct r as [b| |q|q]; simpl in Hp |- *.
  - exists (resultado_de resp). split; [|by left]. by apply (crear_refina b now s s' resp inst).
  - exists (resultado_de resp). split; [|by left]. by apply (llamar_refina now s s' resp inst).
  - simpl in H. injection H as <- <- _. rewrite actualizar_turnos.
    destruct (marcar_refina Finalizado q (turnos s) Hp) as [(_ & -> & Hs)|Hs].
    + eexists. split; [exact Hs|]. by right.
    + eexists. split; [exact Hs|]. by left.
  - simpl in H. injection H as <- <- _. rewrite actualizar_turnos.
    destruct (marcar_refina Ausente q (turnos s) Hp) as [(_ & -> & Hs)|Hs].
    + eexists. split; [exact Hs|]. by right.
    + eexists. split; [exact Hs|]. by left.
Qed.

(** Runs of the contract. *)
Inductive spec_run : list (peticion * Z) -> list ticket -> list ticket -> Prop :=
| spec_run_nil σ : spec_run [] σ σ
| spec_run_cons r now rs σ σ' σ'' res :
    spec_paso r now σ σ' res -> spec_run rs σ' σ'' -> spec_run ((r, now) :: rs) σ σ''.

(** Every request of a sequence keeps to the contract, in the state the
    earlier ones leave. *)
Fixpoint permitidas (rs : list (peticion * Z)) (s : St) : Prop :=
  match rs with
  | [] => True
  | (r, now) :: rs' =>
      permitida r s /\
      permitidas rs' (match correr 2 (iniciar r) now s with Some (s', _, _) => s' | None => s end)
  end.

(** C11 Refinement, one request: a queue request that keeps to the
    contract, running alone on a well-formed store, answers, keeps the
    store well formed, and moves the abstract queue as the spec's
    operation does, with the spec's result, except that an unknown id
    is answered 200 where the spec answers [NotFoundError] (the table
    unchanged in both). *)
Theorem peticion_refina r now s :
  cola_ok s -> permitida r s ->
  exists s' resp inst,
    correr 2 (iniciar r) now s = Some (s', resp, inst) /\ cola_ok s' /\
    exists res, spec_paso r now (abs (turnos s)) (abs (turnos s')) res /\
      (res = resultado_de resp \/
       (res = RError NotFoundError /\ resultado_de resp = RHecho /\
        abs (turnos s') = abs (turnos s))).
Proof.
  intros Hc Hp. destruct (correr_iniciar r now s) as [[[s' resp] inst] E].
  exists s', resp, inst. split; [done|]. split; [by apply (correr_cola_ok _ _ _ _ _ _ _ Hc E)|].
  by apply (paso_refina r now s s' resp inst).
Qed.

(** C4 Refinement, whole runs: requests that do not overlap and keep to
    the contract move the abstract queue along a run of the spec's
    operations, from the abstraction of the first store to that of the
    last. *)
Theorem secuencia_refina rs s :
  cola_ok s -> permitidas rs s ->
  spec_run rs (abs (turnos s)) (abs (turnos (correr_secuencia rs s))).
Proof.
  revert s. induction rs as [|[r now] rs IH]; intros s Hc Hp; [constructor|].
  destruct Hp as [Hp Hps]. cbn [correr_secuencia].
  destruct (correr 2 (iniciar r) now s) as [[[s' resp] inst]|] eqn:E.
  - destruct (paso_refina r now s s' resp inst Hc Hp E) as (res & Hs & _).
    apply (spec_run_cons _ _ _ _ _ _ res Hs), IH; [|done].
    by apply (correr_cola_ok _ _ _ _ _ _ _ Hc E).
  - destruct (correr_iniciar r now s) as [x Ex]. congruence.
Qed.

End Refina.

(** ** The scenarios of spec section 8 *)

(** Alice, Bob and Carl are enqueued; a call; Alice finishes; Carl, still
    waiting, is marked absent. *)
Definition escenario_contrato : list (peticion * Z) :=
  escenario ++ [(PLlamar, 102%Z); (PFinalizar "1", 103%Z); (PAusente "3", 104%Z)].

Example escenario_contrato_estados :
  map (fun t => (numero_turno t, estado_turno t))
      (db_turnos (correr_secuencia escenario_contrato db_vacia)) =
  [("T-001", Finalizado); ("T-002", Espera); ("T-003", Ausente)].
Proof. vm_compute. reflexivity. Qed.


Lemma secuencia_refina_witness :
  cola_ok db_vacia /\ permitidas escenario_contrato db_vacia /\
  spec_run escenario_contrato (abs (turnos db_vacia))
           (abs (turnos (correr_secuencia escenario_contrato db_vacia))).
Proof.
  assert (H1 : cola_ok db_vacia) by (split; [vm_compute; constructor|constructor]).
  assert (H2 : permitidas escenario_contrato db_vacia) by (vm_compute; repeat split).
  split; [exact H1|]. split; [exact H2|]. apply (secuencia_refina _ _ H1 H2).
Defined.

Lemma peticion_refina_witness :
  cola_ok db_escenario /\ permitida PLlamar db_escenario /\
  exists s' resp inst,
    correr 2 (iniciar PLlamar) 102 db_escenario = Some (s', resp, inst) /\ cola_ok s' /\
    exists res, spec_paso PLlamar 102 (abs (turnos db_escenario)) (abs (turnos s')) res /\
      (res = resultado_de resp \/
       (res = RError NotFoundError /\ resultado_de resp = RHecho /\
        abs (turnos s') = abs (turnos db_escenario))).
Proof.
  assert (H1 : cola_ok db_escenario) by apply db_escenario_cola_ok.
  assert (H2 : permitida PLlamar db_escenario) by exact I.
  split; [exact H1|]. split; [exact H2|]. apply (peticion_refina PLlamar 102 db_escenario H1 H2).
Defined.
