(* ===== verification/Citas.v ===== *)
(** * Appointments served one after another

    The table [Appointments] and the five handlers are in [Agenda]:
    - [POST /api/appointments] (201-233): [crear_cita];
    - [GET /api/appointments/:id] (237-254): [ver_cita];
    - [PUT /api/appointments/:id] (255-288): [cambiar_cita];
    - [DELETE /api/appointments/:id] (289-373): [borrar_cita]; the body
      of this handler also calls [app.put('/api/appointments/:id/reassign',
      ...)] twice (lines 307 and 341), after issuing the DELETE, so every
      DELETE that passes authentication registers two more routes;
    - [PUT /api/appointments/:id/reassign] (307-338, 341-372):
      [reasignar_cita], reachable only through those registrations.

    [mundo_citas] is the state these routes share (the table, the routing
    table, the answers) and [atender] one request with the outcome of its
    statement and the time of [DATETIME('now')].  A handler issues a
    single statement, so no other request can observe it half done: a
    request served alone is one step, and [atender_todas] serves a
    sequence of them.  [Server] runs the same handlers among the other
    requests. *)

From S2P Require Import Prelude JsValue Turno Store Sqlite Agenda Db Engine Snapshot Broadcast Server.
From stdpp Require Import gmap.

(** ** Routing *)

Record peticion_cita : Type := mkPeticionCita {
  pc_metodo : metodo;
  pc_ruta : list string;
  pc_auth : autorizacion;
  pc_cuerpo : cuerpo_cita
}.

Inductive respuesta_cita_http : Type :=
| CRCita (r : resp_cita)
| CRAuth (status : nat)
| CRNoEncontrada.

Record mundo_citas : Type := mkMundoCitas {
  mc_tabla : tabla_citas;
  mc_rutas : list ruta;
  mc_respuestas : list respuesta_cita_http
}.

Definition mundo_citas_inicial (t : tabla_citas) : mundo_citas :=
  mkMundoCitas t rutas_iniciales [].

Definition contestar (r : respuesta_cita_http) (t : tabla_citas) (rs : list ruta) (w : mundo_citas)
    : mundo_citas :=
  mkMundoCitas t rs (mc_respuestas w ++ [r]).

(** A request to an appointment route at time [now], with the outcome
    [err] of its statement: routing, [authenticateToken], the handler.
    [None] when the request reaches a handler of another component. *)
Definition atender (req : peticion_cita) (err : option string) (now : Z) (w : mundo_citas)
    : option mundo_citas :=
  let t := mc_tabla w in
  match despachar (mc_rutas w) (pc_metodo req) (pc_ruta req) with
  | None => Some (contestar CRNoEncontrada t (mc_rutas w) w)
  | Some r =>
      match r_auth r, pc_auth req with
      | true, SinToken => Some (contestar (CRAuth 401) t (mc_rutas w) w)
      | true, TokenInvalido => Some (contestar (CRAuth 403) t (mc_rutas w) w)
      | _, _ =>
          let q := parametro_de (r_patron r) (pc_ruta req) in
          let b := pc_cuerpo req in
          match r_manejador r with
          | HCrearCita =>
              let '(t', resp) := crear_cita err b t in Some (contestar (CRCita resp) t' (mc_rutas w) w)
          | HVerCita => Some (contestar (CRCita (ver_cita err q t)) t (mc_rutas w) w)
          | HCambiarCita =>
              let '(t', resp) := cambiar_cita err q b t in Some (contestar (CRCita resp) t' (mc_rutas w) w)
          | HBorrarCita =>
              let '(t', resp) := borrar_cita err q t in
              Some (contestar (CRCita resp) t' (mc_rutas w ++ [ruta_reasignar; ruta_reasignar]) w)
          | HReasignarCita =>
              let '(t', resp) := reasignar_cita err q b now t in
              Some (contestar (CRCita resp) t' (mc_rutas w) w)
          | _ => None
          end
      end
  end.

(** Requests one after the other, each with the outcome of its statement;
    a request outside the component is skipped. *)
Fixpoint atender_todas (rs : list (peticion_cita * option string * Z)) (w : mundo_citas)
    : mundo_citas :=
  match rs with
  | [] => w
  | (req, err, now) :: rs' => atender_todas rs' (default w (atender req err now w))
  end.

(** ** Functional behaviour *)

(** C21 Round trip of an appointment: creating one with every required
    field and then reading it back by the id the answer carries gives
    the row as the columns store it ([patient_id] and [clinica_id] under
    INTEGER affinity, [fecha] and [hora] under TEXT affinity), whatever
    the table held before. *)
Theorem cita_roundtrip b t :
  datos_cita b = true ->
  let '(t', r) := crear_cita None b t in
  r = mkRespCita 200 (CCreada (S (seq_citas t)) b) /\
  ver_cita None (js_string_of_nat (S (seq_citas t))) t' =
    mkRespCita 200 (CFila (S (seq_citas t)) (nueva_cita b)).
Proof.
  intros Hb. unfold crear_cita. rewrite Hb. simpl. split; [done|].
  unfold ver_cita. rewrite buscar_cita_js. simpl. by rewrite lookup_insert_eq.
Qed.

(** C22 Updating an existing appointment: the answer is 200 and a read of
    the same id gives the row with the new values (its reassignment
    fields kept); every other row is unchanged. *)
Theorem cambiar_cita_ver q b t i c :
  datos_cita b = true -> buscar_cita q t = Some (i, c) ->
  let '(t', r) := cambiar_cita None q b t in
  r = mkRespCita 200 (CActualizada q b) /\
  ver_cita None q t' = mkRespCita 200 (CFila i (cita_cambiada b c)) /\
  forall j, j <> i -> citas t' !! j = citas t !! j.
Proof.
  intros Hb Hf. unfold cambiar_cita. rewrite Hb. simpl.
  destruct (cambiar_fila_Some q (cita_cambiada b) t i c Hf) as [Hc _].
  pose proof (buscar_cita_Some _ _ _ _ Hf) as [Hq _].
  split; [done|]. split.
  - unfold ver_cita, buscar_cita. rewrite Hq, Hc, lookup_insert_eq. done.
  - intros j Hj. rewrite Hc. by apply lookup_insert_ne.
Qed.

(** C23 Deleting an appointment: the answer is 200 and a later read of
    the same id answers 404; the other rows and the counter are
    unchanged, so a deleted id is never given again. *)
Theorem borrar_cita_ver q t :
  let '(t', r) := borrar_cita None q t in
  r = mkRespCita 200 CBorrada /\
  ver_cita None q t' = mkRespCita 404 (CMensaje "Appointment not found") /\
  seq_citas t' = seq_citas t /\
  forall j, clave_de_texto q <> Some j -> citas t' !! j = citas t !! j.
Proof.
  unfold borrar_cita, ver_cita, buscar_cita. destruct (clave_de_texto q) as [i|] eqn:Hq; simpl.
  - rewrite lookup_delete_eq. split; [done|]. split; [done|]. split; [done|].
    intros j Hj. apply lookup_delete_ne. congruence.
  - done.
Qed.

(** C24 An id that matches no appointment is not reported: the update,
    the deletion and the reassignment answer 200 with their success
    message and leave the table as it was, while the read of the same id
    answers 404. *)
Theorem cita_inexistente_exito q b now t :
  datos_cita b = true -> truthy (cc_motivo b) = true -> buscar_cita q t = None ->
  cambiar_cita None q b t = (t, mkRespCita 200 (CActualizada q b)) /\
  borrar_cita None q t = (t, mkRespCita 200 CBorrada) /\
  reasignar_cita None q b now t = (t, mkRespCita 200 (CReasignada q (cc_clinica b) (cc_motivo b))) /\
  ver_cita None q t = mkRespCita 404 (CMensaje "Appointment not found").
Proof.
  intros Hb Hm Hn.
  assert (truthy (cc_clinica b) = true) as Hc.
  { unfold datos_cita in Hb. repeat (apply andb_prop in Hb as [Hb ?]). done. }
  split; [unfold cambiar_cita; rewrite Hb; simpl; by rewrite cambiar_fila_None|].
  split; [by apply borrar_cita_None|].
  split; [unfold reasignar_cita; rewrite Hc, Hm; simpl; by rewrite cambiar_fila_None|].
  unfold ver_cita. by rewrite Hn.
Qed.

(** ** Routing of the reassign route *)

(** The requests whose DELETE handler runs: routed to line 289 and past
    [authenticateToken].  The appended routes are [PUT] routes, so the
    DELETE route is found in the initial table. *)
Definition registra_reasignar (req : peticion_cita) : bool :=
  match despachar rutas_iniciales (pc_metodo req) (pc_ruta req) with
  | Some r => bool_decide (r_manejador r = HBorrarCita) && bool_decide (pc_auth req = TokenValido)
  | None => false
  end.

Lemma despachar_reasignar k m path :
  despachar (rutas_iniciales ++ repeat ruta_reasignar k) m path =
  match despachar rutas_iniciales m path with
  | Some r => Some r
  | None => despachar (repeat ruta_reasignar k) m path
  end.
Proof. unfold despachar. rewrite find_app. by destruct (List.find _ rutas_iniciales). Qed.

Lemma despachar_repeat k m path r :
  despachar (repeat ruta_reasignar k) m path = Some r -> r = ruta_reasignar.
Proof.
  unfold despachar. intros H. apply find_some in H as [H _].
  by apply repeat_spec in H.
Qed.

(** The DELETE route of the initial table runs [authenticateToken]. *)
Lemma borrar_con_token m path r :
  despachar rutas_iniciales m path = Some r -> r_manejador r = HBorrarCita -> r_auth r = true.
Proof.
  unfold despachar. intros H Hm. apply find_some in H as [H _].
  apply list_elem_of_In in H. unfold rutas_iniciales in H.
  repeat (apply elem_of_cons in H as [->|H]; [done|]). by apply elem_of_nil in H.
Qed.

Ltac rutas_tras :=
  cbn [mc_rutas contestar]; repeat case_bool_decide; simplify_eq; cbn [andb];
  rewrite ?Nat.add_0_r; try rewrite <- app_assoc; rewrite ?repeat_app; done.

Lemma atender_rutas req err now w w' k :
  mc_rutas w = rutas_iniciales ++ repeat ruta_reasignar k ->
  atender req err now w = Some w' ->
  mc_rutas w' = rutas_iniciales ++
    repeat ruta_reasignar (k + if registra_reasignar req then 2 else 0).
Proof.
  intros Hr H. unfold atender in H. rewrite Hr, despachar_reasignar in H.
  unfold registra_reasignar.
  destruct (despachar rutas_iniciales _ _) as [r|] eqn:E.
  - pose proof (borrar_con_token _ _ r E) as Hb.
    destruct (r_auth r) eqn:Ea, (pc_auth req) eqn:Ep;
      try (injection H as <-; rutas_tras);
      destruct (r_manejador r) eqn:Em; try discriminate H;
      repeat case_match; injection H as <-; try rutas_tras; by pose proof (Hb eq_refl).
  - destruct (despachar (repeat ruta_reasignar k) _ _) as [r|] eqn:E2;
      [|injection H as <-; rutas_tras].
    apply despachar_repeat in E2 as ->. simpl in H.
    destruct (pc_auth req); repeat case_match; injection H as <-; rutas_tras.
Qed.

Definition pedir_reasignar (q : string) (b : cuerpo_cita) : peticion_cita :=
  mkPeticionCita PUT ["api"; "appointments"; q; "reassign"] TokenValido b.

Lemma reasignar_no_inicial q : despachar rutas_iniciales PUT ["api"; "appointments"; q; "reassign"] = None.
Proof. unfold despachar. simpl. by rewrite andb_false_r. Qed.

Lemma reasignar_registrada q k :
  q <> EmptyString -> 0 < k ->
  despachar (repeat ruta_reasignar k) PUT ["api"; "appointments"; q; "reassign"] = Some ruta_reasignar.
Proof.
  intros Hq Hk. destruct k as [|k]; [lia|]. unfold despachar. simpl.
  by rewrite bool_decide_eq_false_2.
Qed.

Lemma atender_None_registra req err now w k :
  mc_rutas w = rutas_iniciales ++ repeat ruta_reasignar k ->
  atender req err now w = None -> registra_reasignar req = false.
Proof.
  intros Hr H. unfold atender in H. rewrite Hr, despachar_reasignar in H.
  unfold registra_reasignar. destruct (despachar rutas_iniciales _ _) as [r|] eqn:E; [|done].
  destruct (bool_decide (r_manejador r = HBorrarCita)) eqn:Hm; [|done].
  apply bool_decide_eq_true_1 in Hm. rewrite Hm in H.
  destruct (r_auth r), (pc_auth req); repeat case_match; done.
Qed.

Lemma atender_todas_rutas rs w k :
  mc_rutas w = rutas_iniciales ++ repeat ruta_reasignar k ->
  mc_rutas (atender_todas rs w) =
    rutas_iniciales ++ repeat ruta_reasignar (k + 2 * length (List.filter (fun x => registra_reasignar x.1.1) rs)).
Proof.
  revert w k. induction rs as [|[[req err] now] rs IH]; intros w k Hr; simpl; [by rewrite Nat.add_0_r|].
  destruct (atender req err now w) as [w'|] eqn:E; simpl.
  - rewrite (IH w' _ (atender_rutas req err now w w' k Hr E)).
    assert (Hab : forall a c, a = c ->
      rutas_iniciales ++ repeat ruta_reasignar a = rutas_iniciales ++ repeat ruta_reasignar c)
      by (intros; by subst).
    destruct (registra_reasignar req); cbn [List.filter length]; apply Hab; lia.
  - rewrite (atender_None_registra req err now w k Hr E). by apply IH.
Qed.

(** C18 The reassign route exists only through DELETE: after any sequence
    of appointment requests, the routing table is the initial one plus
    two copies of [PUT /api/appointments/:id/reassign] for every DELETE
    whose handler ran; before the first such DELETE a reassignment is
    answered 404 by Express, after it the reassignment handler runs. *)
Theorem reasignar_tras_borrar rs t q b err now :
  let w := atender_todas rs (mundo_citas_inicial t) in
  let k := length (List.filter (fun x => registra_reasignar x.1.1) rs) in
  mc_rutas w = rutas_iniciales ++ repeat ruta_reasignar (2 * k) /\
  (k = 0 -> atender (pedir_reasignar q b) err now w =
              Some (contestar CRNoEncontrada (mc_tabla w) (mc_rutas w) w)) /\
  (0 < k -> q <> EmptyString ->
   atender (pedir_reasignar q b) err now w =
     Some (contestar (CRCita (reasignar_cita err q b now (mc_tabla w)).2)
                     (reasignar_cita err q b now (mc_tabla w)).1 (mc_rutas w) w)).
Proof.
  cbn zeta. pose proof (atender_todas_rutas rs (mundo_citas_inicial t) 0 eq_refl) as Hr.
  rewrite Nat.add_0_l in Hr. set (w := atender_todas rs (mundo_citas_inicial t)) in *.
  set (k := length (List.filter _ rs)) in *.
  split; [done|]. split.
  - intros Hk. rewrite Hk in Hr. unfold atender, pedir_reasignar. cbn [pc_metodo pc_ruta].
    rewrite Hr, despachar_reasignar, reasignar_no_inicial. done.
  - intros Hk Hq. unfold atender, pedir_reasignar. cbn [pc_metodo pc_ruta]. rewrite Hr, despachar_reasignar, reasignar_no_inicial.
    rewrite reasignar_registrada; [|done|lia]. cbn -[reasignar_cita].
    by destruct (reasignar_cita err q b now (mc_tabla w)).
Qed.

(** ** Column types *)

(** ** Concrete runs *)

(** An appointment for patient 7 at clinic "2" (a text the INTEGER
    column stores as 2), at hour 930 (a number the TEXT column stores as
    "930"). *)
Definition cuerpo_ejemplo : cuerpo_cita :=
  mkCuerpoCita (JNum 7) (JStr "2") (JStr "2026-11-10") (JNum 930) (JStr "cambio de sala").

Definition tabla_ejemplo : tabla_citas := (crear_cita None cuerpo_ejemplo citas_vacia).1.

Example nueva_cita_ejemplo :
  nueva_cita cuerpo_ejemplo =
    mkCita (SInt 7) (SInt 2) (STexto "2026-11-10") (STexto "930") SNull None.
Proof. vm_compute. reflexivity. Qed.

Definition token_borrar (q : string) : peticion_cita :=
  mkPeticionCita DELETE ["api"; "appointments"; q] TokenValido cuerpo_ejemplo.

Lemma cita_roundtrip_witness :
  datos_cita cuerpo_ejemplo = true /\
  ver_cita None "1" tabla_ejemplo = mkRespCita 200 (CFila 1 (nueva_cita cuerpo_ejemplo)).
Proof.
  assert (H : datos_cita cuerpo_ejemplo = true) by reflexivity.
  split; [exact H|].
  pose proof (cita_roundtrip cuerpo_ejemplo citas_vacia H) as Hr.
  vm_compute in Hr. destruct Hr as [_ Hr]. vm_compute. exact Hr.
Defined.

Lemma cambiar_cita_ver_witness :
  datos_cita cuerpo_ejemplo = true /\
  buscar_cita "1" tabla_ejemplo = Some (1, nueva_cita cuerpo_ejemplo) /\
  ver_cita None "1" (cambiar_cita None "1" cuerpo_ejemplo tabla_ejemplo).1 =
    mkRespCita 200 (CFila 1 (cita_cambiada cuerpo_ejemplo (nueva_cita cuerpo_ejemplo))).
Proof.
  assert (H1 : datos_cita cuerpo_ejemplo = true) by reflexivity.
  assert (H2 : buscar_cita "1" tabla_ejemplo = Some (1, nueva_cita cuerpo_ejemplo))
    by (vm_compute; reflexivity).
  split; [exact H1|]. split; [exact H2|].
  pose proof (cambiar_cita_ver "1" cuerpo_ejemplo tabla_ejemplo 1 _ H1 H2) as H.
  destruct (cambiar_cita None "1" cuerpo_ejemplo tabla_ejemplo) as [t' r]. simpl.
  destruct H as (_ & H & _). exact H.
Defined.

Lemma cita_inexistente_exito_witness :
  datos_cita cuerpo_ejemplo = true /\ truthy (cc_motivo cuerpo_ejemplo) = true /\
  buscar_cita "5" tabla_ejemplo = None /\
  borrar_cita None "5" tabla_ejemplo = (tabla_ejemplo, mkRespCita 200 CBorrada).
Proof.
  assert (H1 : datos_cita cuerpo_ejemplo = true) by reflexivity.
  assert (H2 : truthy (cc_motivo cuerpo_ejemplo) = true) by reflexivity.
  assert (H3 : buscar_cita "5" tabla_ejemplo = None) by (vm_compute; reflexivity).
  split; [exact H1|]. split; [exact H2|]. split; [exact H3|].
  apply (cita_inexistente_exito "5" cuerpo_ejemplo 0 tabla_ejemplo H1 H2 H3).
Defined.

Lemma reasignar_tras_borrar_witness :
  atender (pedir_reasignar "1" cuerpo_ejemplo) None 50
          (atender_todas [(token_borrar "9", None, 40%Z)] (mundo_citas_inicial tabla_ejemplo)) =
  Some (contestar (CRCita (reasignar_cita None "1" cuerpo_ejemplo 50
                    (mc_tabla (atender_todas [(token_borrar "9", None, 40%Z)]
                                 (mundo_citas_inicial tabla_ejemplo)))).2)
                  (reasignar_cita None "1" cuerpo_ejemplo 50
                    (mc_tabla (atender_todas [(token_borrar "9", None, 40%Z)]
                                 (mundo_citas_inicial tabla_ejemplo)))).1
                  (mc_rutas (atender_todas [(token_borrar "9", None, 40%Z)]
                               (mundo_citas_inicial tabla_ejemplo)))
                  (atender_todas [(token_borrar "9", None, 40%Z)] (mundo_citas_inicial tabla_ejemplo))).
Proof.
  destruct (reasignar_tras_borrar [(token_borrar "9", None, 40%Z)] tabla_ejemplo "1"
              cuerpo_ejemplo None 50) as (_ & _ & H).
  apply H; [vm_compute; lia|discriminate].
Defined.
