(* ===== verification/Usuarios.v ===== *)
(** * Users: table [Usuarios], its start-up seed and [POST /api/login]

    Table [Usuarios] (lines 25-32): [id] AUTOINCREMENT, [email] TEXT
    UNIQUE NOT NULL, [password], [nombre], [rol] TEXT NOT NULL, [activo]
    INTEGER DEFAULT 1.  No route changes it after start-up.
    - The seed (lines 87-94): count the rows whose email is
      ['enfermero@hospital.com']; when the count is 0, one INSERT of the
      two test users.  The INSERT is one statement: a UNIQUE conflict on
      either email makes it fail as a whole.  When the count fails the
      callback reads [row.count] of [undefined] and throws; the exception
      handler of line 711 logs it and nothing is inserted.
    - [POST /api/login] (lines 127-155): the first active row with the
      body's email, the password compared with [===], and on success a
      JWT signed with [process.env.JWT_SECRET] ([token]).  When the
      secret is not set, [jwt.sign] throws inside the callback and the
      request is never answered ([None]). *)

From S2P Require Import Prelude JsValue Store Sqlite.

Record usuario : Type := mkUsuario {
  u_id : nat;
  u_email : sqlval;
  u_password : sqlval;
  u_nombre : sqlval;
  u_rol : sqlval;
  u_activo : sqlval
}.

#[export] Instance usuario_eq_dec : EqDecision usuario.
Proof. solve_decision. Defined.

Record tabla_usuarios : Type := mkTablaUsuarios {
  usuarios : list usuario;          (* in rowid order *)
  seq_usuarios : nat
}.

Definition usuarios_vacia : tabla_usuarios := mkTablaUsuarios [] 0.

(** ** The seed *)

(** The rows of the INSERT of lines 89-91: email, password, name, role. *)
Definition usuarios_semilla : list (string * string * string * string) :=
  [("enfermero@hospital.com", "password", "Ana López", "enfermero");
   ("medico@hospital.com", "password", "Dr. Carlos Ruiz", "medico")].

Definition email_semilla : string := "enfermero@hospital.com".

(** [SELECT COUNT( * ) FROM Usuarios WHERE email = e] *)
Definition contar_email (e : string) (t : tabla_usuarios) : nat :=
  length (List.filter (fun u => bool_decide (u_email u = STexto e)) (usuarios t)).

Fixpoint filas_usuarios (seq : nat) (l : list (string * string * string * string)) : list usuario :=
  match l with
  | [] => []
  | (e, p, n, r) :: l' =>
      mkUsuario (S seq) (STexto e) (STexto p) (STexto n) (STexto r) (SInt 1)
        :: filas_usuarios (S seq) l'
  end.

(** A multi-row INSERT: all rows or, on a UNIQUE conflict on [email]
    (with a stored row or between the new rows), none. *)
Definition insertar_usuarios (l : list (string * string * string * string)) (t : tabla_usuarios)
    : tabla_usuarios :=
  let nuevas := filas_usuarios (seq_usuarios t) l in
  if bool_decide (NoDup (map u_email (usuarios t ++ nuevas)))
  then mkTablaUsuarios (usuarios t ++ nuevas) (seq_usuarios t + length l)
  else t.

(** The callback of the count (lines 87-94): with an error, [row] is
    [undefined] and [row.count] throws. *)
Definition contar_usuarios_cb (err : option string) (t : tabla_usuarios) : resultado tabla_usuarios :=
  match err with
  | Some _ => Lanza (error_undefined "count")
  | None => Hecho (if Nat.eqb (contar_email email_semilla t) 0 then insertar_usuarios usuarios_semilla t else t)
  end.

Definition sembrar_usuarios (err : option string) (t : tabla_usuarios) : tabla_usuarios :=
  al_capturar t (contar_usuarios_cb err t).

(** ** Login *)

Record cuerpo_login : Type := mkCuerpoLogin { cl_email : jval; cl_password : jval }.

(** The payload [{ id, email, rol }] signed with the secret, valid 24 h. *)
Record token : Type := mkToken { tok_id : nat; tok_email : sqlval; tok_rol : sqlval; tok_secreto : string }.

Inductive cuerpo_login_resp : Type :=
| LError (msg : string)
| LSesion (tok : token) (id : nat) (nombre email rol : sqlval).

Record resp_login : Type := mkRespLogin { rl_status : nat; rl_cuerpo : cuerpo_login_resp }.

(** [===] between a body value and a stored value (two objects are never
    the same object). *)
Definition estricta_igual (a b : jval) : bool :=
  match a, b with
  | JObj, _ | _, JObj => false
  | _, _ => bool_decide (a = b)
  end.

(** [WHERE email = ? AND activo = 1]: the parameter gets the column's
    TEXT affinity, and NULL equals nothing. *)
Definition email_coincide (e : jval) (u : usuario) : bool :=
  match afinidad_texto (ligar e) with
  | SNull => false
  | v => bool_decide (u_email u = v) && bool_decide (u_activo u = SInt 1)
  end.

Definition credenciales_invalidas : resp_login := mkRespLogin 401 (LError "Credenciales inválidas").

(** [process.env.JWT_SECRET] as a secret [jwt.sign] accepts: a variable
    that is not set, or set to the empty string, is falsy, and jsonwebtoken
    then throws ['secretOrPrivateKey must have a value']. *)
Definition secreto_firma (secreto : option string) : option string :=
  match secreto with
  | Some k => if String.eqb k EmptyString then None else Some k
  | None => None
  end.

(** The callback of the SELECT (lines 130-154): [err] is the outcome of
    the statement, [secreto] the value of [JWT_SECRET]; [jwt.sign]
    throws when the secret is falsy. *)
Definition login_cb (secreto : option string) (err : option string) (b : cuerpo_login)
    (t : tabla_usuarios) : resultado resp_login :=
  match err with
  | Some _ => Hecho credenciales_invalidas
  | None =>
      match List.find (email_coincide (cl_email b)) (usuarios t) with
      | None => Hecho credenciales_invalidas
      | Some u =>
          if estricta_igual (cl_password b) (js_de_sql (u_password u)) then
            match secreto_firma secreto with
            | None => Lanza "Error: secretOrPrivateKey must have a value"
            | Some k =>
                Hecho (mkRespLogin 200 (LSesion (mkToken (u_id u) (u_email u) (u_rol u) k)
                                         (u_id u) (u_nombre u) (u_email u) (u_rol u)))
            end
          else Hecho credenciales_invalidas
      end
  end.

(** [POST /api/login], lines 127-155: the answer, or none when the
    callback threw. *)
Definition login (secreto : option string) (err : option string) (b : cuerpo_login)
    (t : tabla_usuarios) : option resp_login :=
  respuesta_de (login_cb secreto err b t).

(** ** Lemmas *)

(** A row with this email and password that may log in. *)
Definition credencial_valida (e p : string) (t : tabla_usuarios) (u : usuario) : Prop :=
  u ∈ usuarios t /\ u_email u = STexto e /\ u_password u = STexto p /\ u_activo u = SInt 1.

Lemma email_coincide_str e u :
  email_coincide (JStr e) u = true <-> u_email u = STexto e /\ u_activo u = SInt 1.
Proof.
  unfold email_coincide. simpl. rewrite andb_true_iff, !bool_decide_eq_true. done.
Qed.

Lemma estricta_igual_str p v : estricta_igual (JStr p) (js_de_sql v) = true <-> v = STexto p.
Proof.
  unfold estricta_igual. destruct v as [|z|m e|s]; cbn -[bool_decide];
    try (unfold numero_js; destruct (normalizar m e), (Z.leb _ _)); cbn -[bool_decide];
    rewrite bool_decide_eq_true; split; congruence.
Qed.

(** Login with string credentials finds the valid row, if any: emails
    are UNIQUE, so the first active row with the email is the only one. *)
Lemma login_busqueda e p t :
  NoDup (map u_email (usuarios t)) ->
  (exists u, List.find (email_coincide (JStr e)) (usuarios t) = Some u /\
             estricta_igual (JStr p) (js_de_sql (u_password u)) = true /\ credencial_valida e p t u) \/
  ((forall u, List.find (email_coincide (JStr e)) (usuarios t) = Some u ->
              estricta_igual (JStr p) (js_de_sql (u_password u)) = false) /\
   ~ exists u, credencial_valida e p t u).
Proof.
  intros Hnd. destruct (List.find (email_coincide (JStr e)) (usuarios t)) as [u0|] eqn:E.
  - pose proof E as E0. apply find_some in E0 as [Hin Hc]. apply list_elem_of_In in Hin.
    apply email_coincide_str in Hc as [He Ha].
    destruct (estricta_igual (JStr p) (js_de_sql (u_password u0))) eqn:Hp.
    + left. exists u0. split; [done|]. split; [done|]. apply estricta_igual_str in Hp. done.
    + right. split; [by intros u [= <-]|]. intros (u & Hu & Hue & Hup & _).
      assert (u = u0) as -> by (apply (NoDup_map_eq u_email (usuarios t)); congruence).
      rewrite Hup in Hp. by rewrite (proj2 (estricta_igual_str p (STexto p)) eq_refl) in Hp.
  - right. split; [done|]. intros (u & Hu & Hue & Hup & Hua).
    apply list_elem_of_In in Hu. pose proof (find_none _ _ E u Hu) as Hf.
    cbn beta in Hf. assert (email_coincide (JStr e) u = true) by (by apply email_coincide_str).
    congruence.
Qed.

Lemma secreto_firma_Some k : k <> EmptyString -> secreto_firma (Some k) = Some k.
Proof. intros Hk. cbn. by destruct (String.eqb_spec k EmptyString). Qed.

#[export] Hint Rewrite secreto_firma_Some using done : queue_rw.

(** C17 Login: with [JWT_SECRET] set to a non-empty string, a request
    with an email and a password answers 200 with a token for the user's
    id, email and role exactly when an active row has that email and that
    password, and 401 'Credenciales inválidas' otherwise; with the secret
    unset or empty the same valid request is never answered (jwt.sign
    throws), while an invalid one still gets 401. *)
Theorem login_correcto k e p t :
  k <> EmptyString -> NoDup (map u_email (usuarios t)) ->
  ((exists u, credencial_valida e p t u /\
     login (Some k) None (mkCuerpoLogin (JStr e) (JStr p)) t =
       Some (mkRespLogin 200 (LSesion (mkToken (u_id u) (u_email u) (u_rol u) k)
                               (u_id u) (u_nombre u) (u_email u) (u_rol u))) /\
     login None None (mkCuerpoLogin (JStr e) (JStr p)) t = None /\
     login (Some EmptyString) None (mkCuerpoLogin (JStr e) (JStr p)) t = None) \/
   ((~ exists u, credencial_valida e p t u) /\
    forall s, login s None (mkCuerpoLogin (JStr e) (JStr p)) t = Some credenciales_invalidas)).
Proof.
  intros Hk Hnd. unfold login, login_cb. cbn [cl_email cl_password].
  destruct (login_busqueda e p t Hnd) as [(u & E & Hp & Hv)|[Hf Hn]].
  - left. exists u. rewrite E, Hp, secreto_firma_Some by done. done.
  - right. split; [done|]. intros s.
    destruct (List.find _ _) as [u|] eqn:E; [|done]. by rewrite (Hf u eq_refl).
Qed.

(** The table left by the seed on an empty file. *)
Definition tabla_semilla : tabla_usuarios := sembrar_usuarios None usuarios_vacia.

Lemma login_correcto_witness :
  "k" <> EmptyString /\ NoDup (map u_email (usuarios tabla_semilla)) /\
  exists u, credencial_valida email_semilla "password" tabla_semilla u /\
    login (Some "k") None (mkCuerpoLogin (JStr email_semilla) (JStr "password")) tabla_semilla =
      Some (mkRespLogin 200 (LSesion (mkToken (u_id u) (u_email u) (u_rol u) "k")
                              (u_id u) (u_nombre u) (u_email u) (u_rol u))).
Proof.
  assert (Hnd : NoDup (map u_email (usuarios tabla_semilla))) by (apply (bool_decide_unpack _); vm_compute; reflexivity).
  split; [discriminate|]. split; [exact Hnd|].
  destruct (login_correcto "k" email_semilla "password" tabla_semilla ltac:(discriminate) Hnd) as [(u & Hv & H & _)|[Hn _]].
  - exists u. split; [exact Hv|exact H].
  - exfalso. apply Hn. exists (mkUsuario 1 (STexto email_semilla) (STexto "password") (STexto "Ana López")
                                        (STexto "enfermero") (SInt 1)).
    split; [apply (bool_decide_unpack _); vm_compute; reflexivity|]. done.
Defined.
