(* ===== verification/Arranque.v ===== *)
(** * The database file, start-up, and the routes that only read it

    [archivo] is the whole file [database.db] (lines 13-20): the queue's
    tables of [Db], [Usuarios], [Appointments] and [MedicalData].  It
    survives restarts, so [arranque] (the [db.serialize] block, lines
    23-103) runs on what the previous run left:
    - the five [CREATE TABLE IF NOT EXISTS] (25-70) change nothing once
      the tables exist; no statement creates a table [Patients];
    - the INSERT into [MedicalData] (72-73) runs at every start-up;
    - the Clinicas seed (76-85, [inicializar] of [Db]) and the Usuarios
      seed (87-94, [sembrar_usuarios]) are guarded by a count; a count
      that fails makes its callback throw, and the exception handler of
      line 711 ([al_capturar] of [JsValue]) leaves the table as it was.
    [arranques] runs start-ups in which everything succeeds,
    [arranques_con] start-ups with any outcomes of the counts.
    The statements touch different tables, so the order in which the
    seed INSERTs issued by the callbacks run does not matter.

    The routes of this file answer with at most one statement:
    [GET /] (122-125, [raiz]), [POST /api/register] (157-188,
    [registrar]), [GET /api/clinics]
    (190-198, [listar_clinicas]) and [GET /api/medical-data] (662-676,
    [datos_medicos]). *)

From S2P Require Import Prelude JsValue Turno Store Sqlite Agenda Db Usuarios.
From stdpp Require Import gmap.

(** A row of [MedicalData] (lines 64-70). *)
Record fila_medica : Type := mkFilaMedica {
  fm_id : nat;
  fm_paciente : sqlval;
  fm_nombre : sqlval;
  fm_edad : sqlval;
  fm_historia : sqlval
}.

#[export] Instance fila_medica_eq_dec : EqDecision fila_medica.
Proof. solve_decision. Defined.

Record archivo : Type := mkArchivo {
  a_cola : db;                       (* Turnos and Clinicas *)
  a_usuarios : tabla_usuarios;
  a_citas : tabla_citas;
  a_medicos : list fila_medica;      (* in rowid order *)
  a_seq_medicos : nat
}.

(** A file created by the first start: every table empty. *)
Definition archivo_vacio : archivo := mkArchivo db_vacia usuarios_vacia citas_vacia [] 0.

(** The tables the start-up creates (lines 25, 35, 43, 54, 64). *)
Definition tablas_creadas : list string :=
  ["Usuarios"; "Clinicas"; "Turnos"; "Appointments"; "MedicalData"].

(** Lines 72-73. *)
Definition insertar_medico (a : archivo) : archivo :=
  let id := S (a_seq_medicos a) in
  mkArchivo (a_cola a) (a_usuarios a) (a_citas a)
    (a_medicos a ++ [mkFilaMedica id (SInt 1) (STexto "John Doe") (SInt 30)
                                  (STexto "No known allergies")])
    id.

(** Lines 23-103, with the outcomes of the two counts. *)
Definition arranque (err_clinicas err_usuarios : option string) (a : archivo) : archivo :=
  let a1 := insertar_medico a in
  mkArchivo (inicializar err_clinicas (a_cola a1)) (sembrar_usuarios err_usuarios (a_usuarios a1))
            (a_citas a1) (a_medicos a1) (a_seq_medicos a1).

(** [n] start-ups in which every statement succeeds. *)
Fixpoint arranques (n : nat) (a : archivo) : archivo :=
  match n with
  | 0 => a
  | S n' => arranques n' (arranque None None a)
  end.

(** Start-ups one after the other on the same file, each with the
    outcomes of its two counts. *)
Fixpoint arranques_con (es : list (option string * option string)) (a : archivo) : archivo :=
  match es with
  | [] => a
  | (e1, e2) :: es' => arranques_con es' (arranque e1 e2 a)
  end.

(** ** [POST /api/register], lines 157-188 *)

Record cuerpo_registro : Type := mkCuerpoRegistro {
  cr_nombre : jval; cr_email : jval; cr_password : jval; cr_clinica : jval
}.

Inductive cuerpo_otra_resp : Type :=
| OError (msg : string)
| OMensaje (msg : string)
| OPaciente (id : nat) (nombre email clinica : jval)
| OClinicas (l : list (nat * string))
| OMedico (nombre edad historia : sqlval) (id : nat)
| ORaiz (mensaje : string).                       (* { mensaje }, line 124 *)

Record resp_otra : Type := mkRespOtra { ro_status : nat; ro_cuerpo : cuerpo_otra_resp }.

(** Preparing an INSERT into a table: SQLite reports a table that does
    not exist. *)
Definition preparar_insert (tabla : string) : option string :=
  if bool_decide (tabla ∈ tablas_creadas) then None
  else Some ("SQLITE_ERROR: no such table: " +:+ tabla).

(** [err] is the outcome of the INSERT when it can run; [id] the
    [this.lastID] it would give. *)
Definition registrar (err : option string) (id : nat) (b : cuerpo_registro) : resp_otra :=
  if negb (truthy (cr_nombre b) && truthy (cr_email b) && truthy (cr_password b) &&
           truthy (cr_clinica b))
  then mkRespOtra 400 (OError "Missing required fields")
  else match preparar_insert "Patients", err with
  | Some m, _ | None, Some m => mkRespOtra 500 (OError ("Server error: " +:+ m))
  | None, None => mkRespOtra 200 (OPaciente id (cr_nombre b) (cr_email b) (cr_clinica b))
  end.

(** ** [GET /], lines 122-125 *)

Definition raiz : resp_otra :=
  mkRespOtra 200 (ORaiz "🚀 Sistema de Colas Médicas funcionando con SQLite!").

(** ** [GET /api/clinics], lines 190-198 *)

Definition listar_clinicas (err : option string) (a : archivo) : resp_otra :=
  match err with
  | Some m => mkRespOtra 500 (OError ("Server error: " +:+ m))
  | None => mkRespOtra 200 (OClinicas ((fun c => (clinica_pk c, clinica_nombre c)) <$> db_clinicas (a_cola a)))
  end.

(** ** [GET /api/medical-data], lines 662-676 *)

(** [WHERE patient_id = ?] with the constant 1, through [db.get]: the
    first row in rowid order. *)
Definition datos_medicos (err : option string) (a : archivo) : resp_otra :=
  match err with
  | Some _ => mkRespOtra 500 (OError "Error obteniendo datos médicos")
  | None =>
      match List.find (fun f => bool_decide (fm_paciente f = SInt 1)) (a_medicos a) with
      | None => mkRespOtra 404 (OMensaje "Datos médicos no encontrados")
      | Some f => mkRespOtra 200 (OMedico (fm_nombre f) (fm_edad f) (fm_historia f) (fm_id f))
      end
  end.

(** ** Lemmas *)

(** The row of lines 72-73 with rowid [id]. *)
Definition fila_john (id : nat) : fila_medica :=
  mkFilaMedica id (SInt 1) (STexto "John Doe") (SInt 30) (STexto "No known allergies").

(** The rows [n] start-ups add after rowid [seq]. *)
Fixpoint filas_john (seq n : nat) : list fila_medica :=
  match n with
  | 0 => []
  | S n' => fila_john (S seq) :: filas_john (S seq) n'
  end.

Lemma inicializar_idem s : inicializar None (inicializar None s) = inicializar None s.
Proof.
  unfold inicializar, contar_clinicas_cb, al_capturar. destruct (Nat.eqb_spec (length (db_clinicas s)) 0) as [E|E]; [|by rewrite (proj2 (Nat.eqb_neq _ _) E)].
  by cbn [db_clinicas length insertar_clinicas clinicas_semilla Nat.eqb].
Qed.

Lemma insertar_usuarios_casos l t :
  insertar_usuarios l t = t \/ usuarios (insertar_usuarios l t) = usuarios t ++ filas_usuarios (seq_usuarios t) l.
Proof. unfold insertar_usuarios. case_bool_decide; [by right|by left]. Qed.

Lemma sembrar_usuarios_idem t : sembrar_usuarios None (sembrar_usuarios None t) = sembrar_usuarios None t.
Proof.
  unfold sembrar_usuarios, contar_usuarios_cb, al_capturar. destruct (Nat.eqb_spec (contar_email email_semilla t) 0) as [E|E];
    [|by rewrite (proj2 (Nat.eqb_neq _ _) E)].
  destruct (insertar_usuarios_casos usuarios_semilla t) as [Ht|H]; [rewrite !Ht; by destruct (_ =? _)|].
  enough (contar_email email_semilla (insertar_usuarios usuarios_semilla t) <> 0)
    by (by rewrite (proj2 (Nat.eqb_neq _ _) H0)).
  unfold contar_email. rewrite H, List.filter_app, length_app.
  cbn -[bool_decide]. rewrite bool_decide_true by done. cbn. lia.
Qed.

(** What [n >= 1] start-ups in which every statement succeeds leave: the
    seeds of the first one, and one [MedicalData] row per start-up. *)
Lemma arranques_spec n a :
  arranques (S n) a =
    mkArchivo (inicializar None (a_cola a)) (sembrar_usuarios None (a_usuarios a)) (a_citas a)
              (a_medicos a ++ filas_john (a_seq_medicos a) (S n)) (a_seq_medicos a + S n).
Proof.
  revert a. induction n as [|n IH]; intros a.
  - unfold arranques, arranque, insertar_medico. simpl. by rewrite Nat.add_1_r.
  - change (arranques (S (S n)) a) with (arranques (S n) (arranque None None a)). rewrite IH.
    unfold arranque, insertar_medico; cbn [a_cola a_usuarios a_citas a_medicos a_seq_medicos].
    rewrite inicializar_idem, sembrar_usuarios_idem, <- app_assoc. f_equal. lia.
Qed.

(** A seed whose failure changes nothing and whose success is
    idempotent happens at the first start-up where it succeeds. *)
Section Reintentos.
Context {X A : Type} (f : option string -> X -> X) (g : A -> option string).
Hypothesis f_falla : forall m x, f (Some m) x = x.
Hypothesis f_idem : forall x, f None (f None x) = f None x.

Lemma reintentos es x :
  fold_left (fun s e => f (g e) s) es x =
    if existsb (fun e => bool_decide (g e = None)) es then f None x else x.
Proof.
  revert x. induction es as [|e es IH]; intros x; [done|]. cbn [fold_left existsb].
  rewrite IH. destruct (g e) as [m|] eqn:Hg.
  - rewrite f_falla, bool_decide_false by done. done.
  - rewrite bool_decide_true by done. cbn [orb]. rewrite f_idem. by destruct (existsb _ es).
Qed.
End Reintentos.

Lemma arranques_con_tablas es a :
  a_cola (arranques_con es a) = fold_left (fun s e => inicializar e.1 s) es (a_cola a) /\
  a_usuarios (arranques_con es a) = fold_left (fun t e => sembrar_usuarios e.2 t) es (a_usuarios a).
Proof.
  revert a. induction es as [|[e1 e2] es IH]; intros a; [done|]. cbn [arranques_con fold_left].
  apply IH.
Qed.

Lemma arranques_vacio n :
  arranques (S n) archivo_vacio =
    mkArchivo (inicializar None db_vacia) tabla_semilla citas_vacia (filas_john 0 (S n)) (S n).
Proof. by rewrite arranques_spec. Qed.

(** ** Start-up *)

(** C26 Restarts: after [n + 1] start-ups of a new file in which every
    statement succeeds, [MedicalData] holds [n + 1] copies of the row of
    lines 72-73, one per start-up, with rowids 1 to [n + 1], while
    [GET /api/medical-data] keeps answering 200 with the first of them
    (rowid 1). *)
Theorem reinicios_medicos n :
  a_medicos (arranques (S n) archivo_vacio) = filas_john 0 (S n) /\
  datos_medicos None (arranques (S n) archivo_vacio) =
    mkRespOtra 200 (OMedico (STexto "John Doe") (SInt 30) (STexto "No known allergies") 1).
Proof. rewrite arranques_vacio. split; [done|]. by cbn -[bool_decide]; rewrite bool_decide_true. Qed.

(** C27 Seeds across restarts: a start-up whose count fails (the
    callback reads [row.count] of [undefined] and throws, and the
    [uncaughtException] handler only logs) leaves its table empty and the
    process running; the seed happens at the first start-up whose count
    succeeds and later ones change nothing.  So the clinic list is empty
    or the four seeded clinics with ids 1 to 4; when a users count has
    succeeded the nurse of the seed logs in with id 1 if [JWT_SECRET] is
    a non-empty string and gets no answer if it is empty (jwt.sign
    throws), and otherwise she gets 401. *)
Theorem reinicios_semillas es k :
  let a := arranques_con es archivo_vacio in
  a_cola a = (if existsb (fun e => bool_decide (e.1 = None)) es then inicializar None db_vacia else db_vacia) /\
  a_usuarios a = (if existsb (fun e => bool_decide (e.2 = None)) es then tabla_semilla else usuarios_vacia) /\
  listar_clinicas None a =
    mkRespOtra 200 (OClinicas (if existsb (fun e => bool_decide (e.1 = None)) es
                               then [(1, "Medicina General"); (2, "Pediatría"); (3, "Ginecología");
                                     (4, "Traumatología")] else [])) /\
  login (Some k) None (mkCuerpoLogin (JStr "enfermero@hospital.com") (JStr "password")) (a_usuarios a) =
    if existsb (fun e => bool_decide (e.2 = None)) es
    then (if String.eqb k EmptyString then None
          else Some (mkRespLogin 200 (LSesion (mkToken 1 (STexto "enfermero@hospital.com") (STexto "enfermero") k)
                                 1 (STexto "Ana López") (STexto "enfermero@hospital.com") (STexto "enfermero"))))
    else Some credenciales_invalidas.
Proof.
  cbn zeta. destruct (arranques_con_tablas es archivo_vacio) as [Hc Hu].
  rewrite (reintentos inicializar fst) in Hc by (done || apply inicializar_idem).
  rewrite (reintentos sembrar_usuarios snd) in Hu by (done || apply sembrar_usuarios_idem).
  unfold listar_clinicas. rewrite Hc, Hu. cbn [a_cola a_usuarios archivo_vacio].
  destruct (existsb _ es), (existsb _ es), k; repeat split; vm_compute; reflexivity.
Qed.

(** ** Register *)

(** C25 Register never succeeds: [POST /api/register] answers 400 'Missing
    required fields' when a field is falsy and otherwise 500, because the
    INSERT names a table [Patients] that the start-up never creates;
    whatever the database and the id, it never answers 200. *)
Theorem registro_nunca_exito err id b :
  registrar err id b =
    if truthy (cr_nombre b) && truthy (cr_email b) && truthy (cr_password b) && truthy (cr_clinica b)
    then mkRespOtra 500 (OError "Server error: SQLITE_ERROR: no such table: Patients")
    else mkRespOtra 400 (OError "Missing required fields").
Proof. unfold registrar. by destruct (_ && _ && _ && _). Qed.
