(* ===== verification/Sesion.v ===== *)
(** * Sessions: [jwt.sign] at login and [authenticateToken]

    Login (lines 136-140) signs the payload [{ id, email, rol }] with
    [process.env.JWT_SECRET] and [expiresIn: '24h']; every protected
    route runs [authenticateToken] (lines 106-119): it takes the second
    space-separated word of the [Authorization] header
    ([authHeader.split(' ')[1]]), answers 401 when there is none, and
    otherwise asks [jwt.verify] with the same secret, answering 403 when
    verification fails.

    [jsonwebtoken] is a library the program only calls.  Its contract is
    the type class [Jwt] with the laws [JwtLeyes]: a token verifies with
    the secret it was signed with, giving back its payload, until 24
    hours after it was issued ([jsonwebtoken] rejects it when
    [now >= exp]); it never verifies with another secret or with no
    secret; and its text is a non-empty word without spaces (base64url
    and dots).  The theorems about sessions are proved against these
    laws.  [jwt_modelo] is an instance satisfying them (the payload,
    secret and issue time serialised through [Countable] and written in
    binary) so that the statements can be run; it has none of the
    cryptography, which the laws do not mention. *)

From S2P Require Import Prelude JsValue Store Sqlite Server Usuarios.
From stdpp Require Import countable.
From Stdlib Require Import Ascii.

(** The payload signed at line 137. *)
Definition carga : Type := (nat * sqlval * sqlval)%type.

Definition carga_de (tok : token) : carga := (tok_id tok, tok_email tok, tok_rol tok).

(** [expiresIn: '24h'], in seconds. *)
Definition validez : Z := 86400.

Class Jwt := {
  firmar : carga -> string -> Z -> string;          (* jwt.sign at time iat *)
  verificar : string -> option string -> Z -> option carga  (* jwt.verify at time now *)
}.

(** No character of the text is a space. *)
Fixpoint sin_espacios (s : string) : bool :=
  match s with
  | EmptyString => true
  | String c r => negb (bool_decide (c = " "%char)) && sin_espacios r
  end.

Class JwtLeyes `{Jwt} := {
  verificar_firmar p k iat now :
    k <> EmptyString ->
    verificar (firmar p k iat) (Some k) now = if Z.ltb now (iat + validez) then Some p else None;
  verificar_otro p k s iat now :
    s <> Some k -> verificar (firmar p k iat) s now = None;
  verificar_vacio t now : verificar t (Some EmptyString) now = None;
  firmar_texto p k iat :
    firmar p k iat <> EmptyString /\ sin_espacios (firmar p k iat) = true
}.

(** The token the client receives from a login at time [iat]. *)
Definition token_texto `{Jwt} (tok : token) (iat : Z) : string :=
  firmar (carga_de tok) (tok_secreto tok) iat.

(** ** [authenticateToken], lines 106-119 *)

(** JavaScript's [s.split(c)]: always at least one piece. *)
Fixpoint dividir (c : ascii) (s : string) : list string :=
  match s with
  | EmptyString => [EmptyString]
  | String x r =>
      let l := dividir c r in
      if bool_decide (x = c) then EmptyString :: l
      else match l with
           | [] => [String x EmptyString]
           | h :: t => String x h :: t
           end
  end.

(** Lines 107-110: [authHeader && authHeader.split(' ')[1]], then
    [!token]. *)
Definition token_de_cabecera (h : option string) : option string :=
  match h with
  | None => None
  | Some v =>
      match dividir " " v with
      | _ :: t :: _ => if bool_decide (t = EmptyString) then None else Some t
      | _ => None
      end
  end.

(** Lines 106-119, with the secret of [process.env.JWT_SECRET] and the
    time of the request. *)
Definition autenticar `{Jwt} (secreto : option string) (now : Z) (h : option string)
    : autorizacion :=
  match token_de_cabecera h with
  | None => SinToken
  | Some t =>
      match verificar t secreto now with
      | Some _ => TokenValido
      | None => TokenInvalido
      end
  end.

(** ** Lemmas *)

Lemma dividir_sin_espacios s : sin_espacios s = true -> dividir " " s = [s].
Proof.
  induction s as [|c r IH]; [done|]. cbn [sin_espacios]. intros [Hc Hr]%andb_prop.
  cbn [dividir]. rewrite IH by done. apply negb_true_iff in Hc. by rewrite Hc.
Qed.

Lemma dividir_palabra w r :
  sin_espacios w = true -> dividir " " (w +:+ String " " r) = w :: dividir " " r.
Proof.
  induction w as [|c w IH]; [done|]. cbn [sin_espacios]. intros [Hc Hw]%andb_prop.
  change (String c w +:+ String " " r) with (String c (w +:+ String " " r)).
  cbn [dividir]. rewrite IH by done.
  apply negb_true_iff in Hc. by rewrite Hc.
Qed.

(** A header [w t] whose scheme [w] and token [t] are words gives [t]. *)
Lemma token_cabecera_palabra w t :
  sin_espacios w = true -> sin_espacios t = true -> t <> EmptyString ->
  token_de_cabecera (Some (w +:+ " " +:+ t)) = Some t.
Proof.
  intros Hw Ht Hne. cbn [token_de_cabecera]. change (" " +:+ t) with (String " " t).
  rewrite dividir_palabra, dividir_sin_espacios by done. by rewrite bool_decide_false.
Qed.

(** A successful login signs the row's id, email and role with the
    secret of the process, which is not empty. *)
Lemma login_sesion k b t tok id nombre email rol :
  login (Some k) None b t = Some (mkRespLogin 200 (LSesion tok id nombre email rol)) ->
  tok = mkToken id email rol k /\ k <> EmptyString.
Proof.
  unfold login, login_cb. destruct (List.find _ _) as [u|]; [|done].
  destruct (estricta_igual _ _); [|done]. cbn [secreto_firma].
  destruct (String.eqb_spec k EmptyString); [done|]. by intros [= <- <- _ <- <-].
Qed.

Section Sesiones.
Context `{JwtLeyes}.

(** C19 Sessions, from login to the gate: the token a successful login
    returns, sent as [Authorization: <scheme> <token>] with any one-word
    scheme, lets the request through [authenticateToken] exactly when the
    server's secret is the one it was signed with and less than 24 hours
    have passed since the login; otherwise the request is answered 403.
    The scheme is not checked: [Basic] works as well as [Bearer]. *)
Theorem sesion_autoriza k s w e p t tok id nombre email rol iat now :
  login (Some k) None (mkCuerpoLogin e p) t = Some (mkRespLogin 200 (LSesion tok id nombre email rol)) ->
  sin_espacios w = true ->
  autenticar s now (Some (w +:+ " " +:+ token_texto tok iat)) =
    if bool_decide (s = Some k) && Z.ltb now (iat + validez) then TokenValido else TokenInvalido.
Proof.
  intros Hl Hw. apply login_sesion in Hl as [-> Hk0]. unfold autenticar, token_texto. cbn [tok_secreto].
  destruct (firmar_texto (carga_de (mkToken id email rol k)) k iat) as [Hne Hs].
  rewrite token_cabecera_palabra by done.
  destruct (decide (s = Some k)) as [->|Hk].
  - rewrite verificar_firmar, bool_decide_true by done. by destruct (Z.ltb now (iat + validez)).
  - rewrite verificar_otro, bool_decide_false by done. done.
Qed.

(** C28 Requests without a token are answered 401 before any
    verification: no header, a header of one word (a bare token or a bare
    scheme), a scheme followed by one space and nothing, and a scheme
    followed by two spaces and a token, which [split(' ')] turns into an
    empty second word. *)
Theorem cabecera_sin_token s now w t :
  sin_espacios w = true ->
  autenticar s now None = SinToken /\
  autenticar s now (Some w) = SinToken /\
  autenticar s now (Some (w +:+ " ")) = SinToken /\
  autenticar s now (Some (w +:+ "  " +:+ t)) = SinToken.
Proof.
  intros Hw. unfold autenticar, token_de_cabecera. split; [done|].
  rewrite dividir_sin_espacios by done. split; [done|].
  change (w +:+ " ") with (w +:+ String " " EmptyString).
  change ("  " +:+ t) with (String " " (String " " t)).
  rewrite !dividir_palabra by done. cbn [dividir]. rewrite bool_decide_true by done.
  by rewrite !bool_decide_true.
Qed.
End Sesiones.

(** ** A model of [jsonwebtoken]

    The payload, the secret and the issue time are serialised through
    [Countable] and written as a word of bits after a ['j']. *)

#[export] Instance sqlval_countable : Countable sqlval.
Proof.
  apply (inj_countable'
    (fun v => match v with
              | SNull => None | SInt z => Some (inl (inl z)) | SReal m e => Some (inl (inr (m, e)))
              | STexto s => Some (inr s) end)
    (fun o => match o with
              | None => SNull | Some (inl (inl z)) => SInt z | Some (inl (inr (m, e))) => SReal m e
              | Some (inr s) => STexto s end)).
  by intros [].
Defined.

Fixpoint bits (p : positive) : string :=
  match p with
  | xI q => String "1" (bits q)
  | xO q => String "0" (bits q)
  | xH => EmptyString
  end.

Fixpoint leer_bits (s : string) : option positive :=
  match s with
  | EmptyString => Some xH
  | String "1" r => xI <$> leer_bits r
  | String "0" r => xO <$> leer_bits r
  | _ => None
  end.

Definition firmar_modelo (p : carga) (k : string) (iat : Z) : string :=
  String "j" (bits (encode (p, k, iat))).

Definition verificar_modelo (t : string) (s : option string) (now : Z) : option carga :=
  match t with
  | String "j" r =>
      match leer_bits r ≫= decode (A := carga * string * Z) with
      | Some (p, k, iat) =>
          if bool_decide (s = Some k) && negb (String.eqb k EmptyString) && Z.ltb now (iat + validez)
          then Some p else None
      | None => None
      end
  | _ => None
  end.

#[export] Instance jwt_modelo : Jwt := {| firmar := firmar_modelo; verificar := verificar_modelo |}.

Lemma leer_bits_bits p : leer_bits (bits p) = Some p.
Proof. induction p as [q IH|q IH|]; simpl; rewrite ?IH; done. Qed.

Lemma bits_sin_espacios p : sin_espacios (bits p) = true.
Proof. induction p; simpl; rewrite ?bool_decide_false; done. Qed.

Lemma verificar_modelo_firmar p k iat s now :
  verificar_modelo (firmar_modelo p k iat) s now =
    if bool_decide (s = Some k) && negb (String.eqb k EmptyString) && Z.ltb now (iat + validez)
    then Some p else None.
Proof. unfold verificar_modelo, firmar_modelo. rewrite leer_bits_bits. simpl. by rewrite decode_encode. Qed.

#[export] Instance jwt_modelo_leyes : JwtLeyes.
Proof.
  split; cbn [firmar verificar jwt_modelo].
  - intros p k iat now Hk. rewrite verificar_modelo_firmar, bool_decide_true by done.
    by destruct (String.eqb_spec k EmptyString).
  - intros p k s iat now Hs. rewrite verificar_modelo_firmar, bool_decide_false by done. done.
  - intros t now. unfold verificar_modelo. repeat case_match; try done; simplify_eq.
    destruct (decide (s0 = EmptyString)) as [->|Hk]; [done|].
    rewrite bool_decide_false in * by congruence. done.
  - intros p k iat. split; [done|]. cbn [firmar_modelo sin_espacios]. apply bits_sin_espacios.
Qed.

(** The nurse of the seed logs in with the secret ["k"] at time 0. *)
Definition tok_enfermera : token :=
  mkToken 1 (STexto "enfermero@hospital.com") (STexto "enfermero") "k".

Lemma sesion_autoriza_witness :
  login (Some "k") None (mkCuerpoLogin (JStr "enfermero@hospital.com") (JStr "password")) tabla_semilla =
    Some (mkRespLogin 200 (LSesion tok_enfermera 1 (STexto "Ana López") (STexto "enfermero@hospital.com")
                                   (STexto "enfermero"))) /\
  sin_espacios "Bearer" = true /\
  autenticar (Some "k") 86399 (Some ("Bearer" +:+ " " +:+ token_texto tok_enfermera 0)) = TokenValido /\
  autenticar (Some "k") 86400 (Some ("Bearer" +:+ " " +:+ token_texto tok_enfermera 0)) = TokenInvalido.
Proof.
  assert (Hl : login (Some "k") None (mkCuerpoLogin (JStr "enfermero@hospital.com") (JStr "password"))
                 tabla_semilla =
    Some (mkRespLogin 200 (LSesion tok_enfermera 1 (STexto "Ana López") (STexto "enfermero@hospital.com")
                                   (STexto "enfermero")))) by (vm_compute; reflexivity).
  split; [exact Hl|]. split; [reflexivity|]. split.
  - rewrite (sesion_autoriza "k" (Some "k") "Bearer" _ _ _ _ _ _ _ _ 0 86399 Hl eq_refl). reflexivity.
  - rewrite (sesion_autoriza "k" (Some "k") "Bearer" _ _ _ _ _ _ _ _ 0 86400 Hl eq_refl). reflexivity.
Defined.

Lemma cabecera_sin_token_witness :
  sin_espacios "Bearer" = true /\
  autenticar (Some "k") 0 (Some ("Bearer" +:+ "  " +:+ token_texto tok_enfermera 0)) = SinToken.
Proof.
  split; [reflexivity|].
  exact (proj2 (proj2 (proj2 (cabecera_sin_token (Some "k") 0 "Bearer" (token_texto tok_enfermera 0) eq_refl)))).
Defined.
